(** * web-auto: the profile generator and the runner loop

    A shallow embedding of the two source files of the repository,
    [fingerprints.py] (the profile generator) and [main.py] (start-up and
    the per-instance runner loop), followed by the properties the
    specification states about them.

    Layout: the Python built-ins the program relies on ([Py], [MD5]), the
    two source files ([Fingerprints], [Main]), the predicates and sample
    inputs of the statements ([RunnerProps], [ProfileProps]), and then the
    lemmas and theorems.

    Conventions.
    - In [Main] a Python [str] is the list of its code points ([text]);
      slicing counts code points, as Python does.
    - In [Fingerprints] a Python [str] is a Rocq [string] holding its
      UTF-8 bytes, so that [.encode()] is the identity; the substring
      tests and the split used there give the same answer on both views.
    - A Python [float] is a rational: a literal stands for its decimal
      value and arithmetic is exact (the rounding of binary64 is not
      modelled).  The statements below depend on such a value only
      where binary64 is exact as well: where a scale factor written in a
      table is compared with 1, and where a draw of 0, 3/4 or 31/32
      picks the device type.
    - The [random] module is a source of numbers handed from one request
      to the next; the clock, the file system, the console and the browser
      are inputs of the functions that use them.
    - An [await] is a point where the environment delivers an event; what
      runs between two awaits is one atomic step, as on the single thread
      of an event loop. *)

From Stdlib Require Import ZArith NArith QArith List String Ascii Lia Bool.
From stdpp Require Import base option list gmap strings fin_maps pretty.

#[local] Set Warnings "-register-all".
#[local] Open Scope Z_scope.

(** ** Python built-ins used by the program *)

Module Py.

(** A [str] as the list of its code points. *)
Abbreviation text := (list N).

(** An ASCII literal of the source. *)
Definition lit (s : string) : text :=
  map N_of_ascii (list_ascii_of_string s).

(** [str.isspace] for one code point: the characters [str.strip()]
    removes when called without argument. *)
Definition isspace (c : N) : bool :=
  (((9 <=? c) && (c <=? 13)) || ((28 <=? c) && (c <=? 32))
   || (c =? 133) || (c =? 160) || (c =? 5760)
   || ((8192 <=? c) && (c <=? 8202))
   || (c =? 8232) || (c =? 8233) || (c =? 8239) || (c =? 8287)
   || (c =? 12288))%N.

(** The line boundaries of [str.splitlines]. *)
Definition is_linebreak (c : N) : bool :=
  (((10 <=? c) && (c <=? 13)) || ((28 <=? c) && (c <=? 30))
   || (c =? 133) || (c =? 8232) || (c =? 8233))%N.

Fixpoint lstrip (s : text) : text :=
  match s with
  | c :: s' => if isspace c then lstrip s' else s
  | [] => []
  end.

Definition rstrip (s : text) : text := rev (lstrip (rev s)).

(** [s.strip()] *)
Definition strip (s : text) : text := rstrip (lstrip s).

(** [s.splitlines()]: [cur] is the line being read, reversed.  A carriage
    return followed by a line feed is one boundary, and a boundary at the
    very end does not open a last, empty line. *)
Fixpoint splitlines_from (cur : text) (s : text) : list text :=
  match s with
  | [] => match cur with [] => [] | _ => [rev cur] end
  | c :: s' =>
      if is_linebreak c then
        match s' with
        | c' :: s'' =>
            if ((c =? 13) && (c' =? 10))%N
            then rev cur :: splitlines_from [] s''
            else rev cur :: splitlines_from [] s'
        | [] => [rev cur]
        end
      else splitlines_from (c :: cur) s'
  end.

Definition splitlines (s : text) : list text := splitlines_from [] s.

(** [s[:n]] for [n >= 0]. *)
Definition slice_to (n : nat) (s : text) : text := firstn n s.

(** Truthiness of a [str] or of a list: not empty. *)
Definition nonempty {A} (l : list A) : bool :=
  match l with [] => false | _ => true end.

(** [int(s)] on the ASCII part of its grammar: surrounding whitespace,
    an optional sign, decimal digits with single underscores between
    them.  [None] is [ValueError].  The interpreter's [int] accepts the
    decimal digits of other scripts as well, and recent versions refuse
    strings of several thousand digits; the start-up code below therefore
    takes [int] as a parameter, and this definition is the instance used
    to run it. *)
Definition digit (c : N) : option Z :=
  if ((48 <=? c) && (c <=? 57))%N then Some (Z.of_N c - 48) else None.

(** [digits acc prev_digit s]: the digits of [s] appended to [acc];
    [prev_digit] tells whether the previous character was a digit, which
    is where an underscore is allowed. *)
Fixpoint digits (acc : Z) (prev_digit : bool) (s : text) : option Z :=
  match s with
  | [] => if prev_digit then Some acc else None
  | c :: s' =>
      if (c =? 95)%N then
        if prev_digit then digits acc false s' else None
      else
        match digit c with
        | Some d => digits (10 * acc + d) true s'
        | None => None
        end
  end.

Definition int (s : text) : option Z :=
  match strip s with
  | [] => None
  | c :: s' =>
      if (c =? 45)%N then Z.opp <$> digits 0 false s'
      else if (c =? 43)%N then digits 0 false s'
      else digits 0 false (c :: s')
  end.

End Py.

(** ** hashlib.md5

    The message digest of RFC 1321 on a string of bytes, with 32-bit words
    as integers and their wrap-around written out. *)

Module MD5.

Definition mask32 : Z := 0xffffffff.

Definition add32 (a b : Z) : Z := Z.land (a + b) mask32.

Definition not32 (a : Z) : Z := Z.lxor a mask32.

Definition rotl32 (x c : Z) : Z :=
  Z.lor (Z.land (Z.shiftl x c) mask32) (Z.shiftr x (32 - c)).

(** The per-round shift amounts. *)
Definition shifts : list Z :=
  [7; 12; 17; 22; 7; 12; 17; 22; 7; 12; 17; 22; 7; 12; 17; 22;
   5; 9; 14; 20; 5; 9; 14; 20; 5; 9; 14; 20; 5; 9; 14; 20;
   4; 11; 16; 23; 4; 11; 16; 23; 4; 11; 16; 23; 4; 11; 16; 23;
   6; 10; 15; 21; 6; 10; 15; 21; 6; 10; 15; 21; 6; 10; 15; 21].

(** [floor (2^32 * abs (sin (i + 1)))] for [i] from 0 to 63. *)
Definition sines : list Z :=
  [
   0xd76aa478; 0xe8c7b756; 0x242070db; 0xc1bdceee;
   0xf57c0faf; 0x4787c62a; 0xa8304613; 0xfd469501;
   0x698098d8; 0x8b44f7af; 0xffff5bb1; 0x895cd7be;
   0x6b901122; 0xfd987193; 0xa679438e; 0x49b40821;
   0xf61e2562; 0xc040b340; 0x265e5a51; 0xe9b6c7aa;
   0xd62f105d; 0x02441453; 0xd8a1e681; 0xe7d3fbc8;
   0x21e1cde6; 0xc33707d6; 0xf4d50d87; 0x455a14ed;
   0xa9e3e905; 0xfcefa3f8; 0x676f02d9; 0x8d2a4c8a;
   0xfffa3942; 0x8771f681; 0x6d9d6122; 0xfde5380c;
   0xa4beea44; 0x4bdecfa9; 0xf6bb4b60; 0xbebfbc70;
   0x289b7ec6; 0xeaa127fa; 0xd4ef3085; 0x04881d05;
   0xd9d4d039; 0xe6db99e5; 0x1fa27cf8; 0xc4ac5665;
   0xf4292244; 0x432aff97; 0xab9423a7; 0xfc93a039;
   0x655b59c3; 0x8f0ccc92; 0xffeff47d; 0x85845dd1;
   0x6fa87e4f; 0xfe2ce6e0; 0xa3014314; 0x4e0811a1;
   0xf7537e82; 0xbd3af235; 0x2ad7d2bb; 0xeb86d391].

Definition bytes_of_string (s : string) : list Z :=
  map (fun a => Z.of_N (N_of_ascii a)) (list_ascii_of_string s).

(** A [width]-byte little-endian image of [x]. *)
Fixpoint le_bytes (width : nat) (x : Z) : list Z :=
  match width with
  | O => []
  | S w => Z.land x 0xff :: le_bytes w (Z.shiftr x 8)
  end.

(** The message, a 1 bit, zeros up to 56 modulo 64 bytes, and the length
    of the message in bits on 64 bits. *)
Definition pad (msg : list Z) : list Z :=
  let len := Z.of_nat (length msg) in
  let zeros := Z.to_nat ((55 - len) mod 64) in
  msg ++ [0x80] ++ repeat 0 zeros ++ le_bytes 8 (Z.land (8 * len) 0xffffffffffffffff).

(** The little-endian words of a sequence of bytes. *)
Fixpoint words (fuel : nat) (bs : list Z) : list Z :=
  match fuel, bs with
  | S fuel', b0 :: b1 :: b2 :: b3 :: bs' =>
      (b0 + Z.shiftl b1 8 + Z.shiftl b2 16 + Z.shiftl b3 24)
        :: words fuel' bs'
  | _, _ => []
  end.

Record regs := { ra : Z; rb : Z; rc : Z; rd : Z }.

Definition init : regs :=
  {| ra := 0x67452301; rb := 0xefcdab89; rc := 0x98badcfe; rd := 0x10325476 |}.

(** Operation [i] of the 64 on one block [m] of 16 words. *)
Definition op (m : list Z) (r : regs) (i : Z) : regs :=
  let '(f, g) :=
    if i <? 16 then
      (Z.lor (Z.land (rb r) (rc r)) (Z.land (not32 (rb r)) (rd r)), i)
    else if i <? 32 then
      (Z.lor (Z.land (rd r) (rb r)) (Z.land (not32 (rd r)) (rc r)),
       (5 * i + 1) mod 16)
    else if i <? 48 then
      (Z.lxor (rb r) (Z.lxor (rc r) (rd r)), (3 * i + 5) mod 16)
    else
      (Z.lxor (rc r) (Z.lor (rb r) (not32 (rd r))), (7 * i) mod 16) in
  let k := nth (Z.to_nat i) sines 0 in
  let s := nth (Z.to_nat i) shifts 0 in
  let w := nth (Z.to_nat g) m 0 in
  let f := add32 (add32 (add32 f (ra r)) k) w in
  {| ra := rd r; rd := rc r; rc := rb r; rb := add32 (rb r) (rotl32 f s) |}.

Definition block (r : regs) (m : list Z) : regs :=
  let r' := fold_left (op m) (map Z.of_nat (seq 0 64)) r in
  {| ra := add32 (ra r) (ra r'); rb := add32 (rb r) (rb r');
     rc := add32 (rc r) (rc r'); rd := add32 (rd r) (rd r') |}.

(** The blocks of 16 words of a padded message. *)
Fixpoint blocks (fuel : nat) (ws : list Z) : list (list Z) :=
  match fuel, ws with
  | S fuel', _ :: _ => firstn 16 ws :: blocks fuel' (skipn 16 ws)
  | _, _ => []
  end.

Definition digest (msg : list Z) : list Z :=
  let bs := pad msg in
  let ws := words (length bs) bs in
  let r := fold_left block (blocks (length ws) ws) init in
  le_bytes 4 (ra r) ++ le_bytes 4 (rb r) ++ le_bytes 4 (rc r) ++ le_bytes 4 (rd r).

Definition hex_digit (d : Z) : ascii :=
  ascii_of_N (Z.to_N (if d <? 10 then 48 + d else 87 + d)).

Fixpoint hex (bs : list Z) : string :=
  match bs with
  | [] => EmptyString
  | b :: bs' =>
      String (hex_digit (Z.shiftr b 4)) (String (hex_digit (Z.land b 15)) (hex bs'))
  end.

(** [hashlib.md5(s.encode()).hexdigest()] *)
Definition hexdigest (s : string) : string := hex (digest (bytes_of_string s)).

End MD5.

(** ** fingerprints.py: the profile generator *)

Module Fingerprints.

#[local] Open Scope string_scope.

(** *** Python values and exceptions *)

(** The values that occur in the dictionaries of this file. *)
Inductive pyval : Type :=
| VNone
| VBool (b : bool)
| VInt (z : Z)
| VFloat (q : Q)
| VStr (s : string)
| VList (l : list pyval)
| VDict (d : gmap string pyval).

(** A dict literal with distinct keys. *)
Definition dict_of (items : list (string * pyval)) : gmap string pyval :=
  list_to_map items.

(** The exceptions the operations below can raise.  [NotModelled] is not
    a Python exception: it marks an operation applied to a value on which
    this development does not define it (the [repr] of a float or of a
    container, the JSON form of a non-ASCII string). *)
Inductive exn :=
| IndexError
| KeyError (key : string)
| TypeError
| ValueError
| NotModelled.

Inductive result (A : Type) : Type :=
| Ok (a : A)
| Raise (e : exn).
Arguments Ok {A} a.
Arguments Raise {A} e.

#[global] Instance result_ret : MRet result := fun A a => Ok a.
#[global] Instance result_bind : MBind result :=
  fun A B f m => match m with Ok a => f a | Raise e => Raise e end.

(** [d.get(key, default)] *)
Definition get (d : gmap string pyval) (key : string) (dflt : pyval) : pyval :=
  default dflt (d !! key).

(** [d[key]] *)
Definition item (d : gmap string pyval) (key : string) : result pyval :=
  match d !! key with
  | Some v => Ok v
  | None => Raise (KeyError key)
  end.

(** The truth value of an object. *)
Definition truthy (v : pyval) : bool :=
  match v with
  | VNone => false
  | VBool b => b
  | VInt z => negb (z =? 0)%Z
  | VFloat q => negb (Qeq_bool q 0)
  | VStr s => negb (String.eqb s "")
  | VList l => match l with [] => false | _ => true end
  | VDict d => negb (bool_decide (d = ∅))
  end.

(** [needle in hay] for two strings. *)
Fixpoint contains (needle hay : string) : bool :=
  String.prefix needle hay ||
  match hay with
  | EmptyString => false
  | String _ hay' => contains needle hay'
  end.

(** [needle in v] for a string [needle]: a substring test on a string,
    membership in a list, a key test on a dict, and [TypeError] on what is
    not a container. *)
Definition py_in (needle : string) (v : pyval) : result bool :=
  match v with
  | VStr s => Ok (contains needle s)
  | VList l =>
      Ok (existsb (fun x => match x with
                            | VStr s => String.eqb s needle
                            | _ => false
                            end) l)
  | VDict d => Ok (bool_decide (is_Some (d !! needle)))
  | VNone | VBool _ | VInt _ | VFloat _ => Raise TypeError
  end.

(** [f"{v}"], that is [str(v)]. *)
Definition py_str (v : pyval) : result string :=
  match v with
  | VNone => Ok "None"
  | VBool b => Ok (if b then "True" else "False")
  | VInt z => Ok (pretty z)
  | VStr s => Ok s
  | VFloat _ | VList _ | VDict _ => Raise NotModelled
  end.

(** [l[v % len(l)]] for a list [l] that is not empty: the index must be an
    [int] (a [bool] is one); the remainder of a float is a float and that
    of a string is at best a string, neither of which indexes a list. *)
Definition item_mod {A} (l : list A) (v : pyval) : result A :=
  match v with
  | VInt z =>
      match l !! Z.to_nat (z mod Z.of_nat (length l)) with
      | Some x => Ok x
      | None => Raise IndexError
      end
  | VBool b =>
      match l !! Z.to_nat (Z.b2z b mod Z.of_nat (length l)) with
      | Some x => Ok x
      | None => Raise IndexError
      end
  | _ => Raise TypeError
  end.

(** [s[-n:]] *)
Definition last_chars (n : nat) (s : string) : string :=
  substring (String.length s - n) n s.

(** [s.split(sep)[0]] for a one-character separator. *)
Fixpoint before (sep : ascii) (s : string) : string :=
  match s with
  | EmptyString => EmptyString
  | String c s' => if Ascii.eqb c sep then EmptyString else String c (before sep s')
  end.

Definition dq : string := String (ascii_of_nat 34) EmptyString.

(** *** The fingerprints computed from a device *)

Definition generate_canvas_fingerprint (device_profile : gmap string pyval)
    : result string :=
  platform ← py_str (get device_profile "platform" (VStr "Win32"));
  memory ← py_str (get device_profile "device_memory" (VInt 8));
  cores ← py_str (get device_profile "hardware_concurrency" (VInt 4));
  let device_string := platform ++ "_" ++ memory ++ "_" ++ cores in
  mret (MD5.hexdigest device_string).

Definition webgl1 (vendor renderer : pyval) : gmap string pyval :=
  dict_of [("vendor", vendor);
           ("renderer", renderer);
           ("version", VStr "WebGL 1.0");
           ("shading_language_version", VStr "WebGL GLSL ES 1.0")].

Definition gpu_options : list (gmap string pyval) :=
  [dict_of [("vendor", VStr "NVIDIA Corporation");
            ("renderer", VStr "NVIDIA GeForce RTX 3060")];
   dict_of [("vendor", VStr "Intel");
            ("renderer", VStr "Intel(R) UHD Graphics 630")];
   dict_of [("vendor", VStr "AMD");
            ("renderer", VStr "AMD Radeon RX 580")]].

Definition generate_webgl_fingerprint (device_profile : gmap string pyval)
    : result (gmap string pyval) :=
  let platform := get device_profile "platform" (VStr "Win32") in
  let is_mobile := get device_profile "is_mobile" (VBool false) in
  let device_memory := get device_profile "device_memory" (VInt 8) in
  if truthy is_mobile then
    iphone ← py_in "iPhone" platform;
    if iphone : bool then
      mret (webgl1 (VStr "Apple Inc.") (VStr "Apple GPU"))
    else
      mret (webgl1 (VStr "Qualcomm") (VStr "Adreno (TM) 640"))
  else
    mac ← py_in "Mac" platform;
    if mac : bool then
      mret (webgl1 (VStr "Intel Inc.") (VStr "Intel(R) Iris(TM) Plus Graphics"))
    else
      linux ← py_in "Linux" platform;
      if linux : bool then
        mret (webgl1 (VStr "Mesa") (VStr "Mesa DRI Intel(R) UHD Graphics"))
      else
        gpu ← item_mod gpu_options device_memory;
        vendor ← item gpu "vendor";
        renderer ← item gpu "renderer";
        mret (webgl1 vendor renderer).

Definition base_fonts : list string :=
  ["Arial"; "Helvetica"; "Times"; "Times New Roman"; "Courier";
   "Courier New"; "Verdana"; "Georgia"; "Palatino"; "Garamond"; "Bookman";
   "Comic Sans MS"; "Trebuchet MS"; "Arial Black"; "Impact"].

Definition generate_fonts_list (platform : pyval) : result (list string) :=
  win ← py_in "Win32" platform;
  if win : bool then
    mret (base_fonts ++ ["Calibri"; "Cambria"; "Consolas"; "Constantia";
                         "Corbel"; "Candara"; "Segoe UI"; "Tahoma";
                         "MS Sans Serif"; "MS Serif"])%list
  else
    mac ← py_in "Mac" platform;
    if mac : bool then
      mret (base_fonts ++ ["Monaco"; "Menlo"; "SF Pro Display"; "SF Pro Text";
                           "Helvetica Neue"; "Lucida Grande"; "Apple Symbols";
                           "Marker Felt"])%list
    else
      mret (base_fonts ++ ["Ubuntu"; "DejaVu Sans"; "Liberation Sans";
                           "Droid Sans"; "Noto Sans"; "FreeSans"; "FreeMono"])%list.

(** [json.dumps] of a list of strings, with the default separators and
    [ensure_ascii]: ASCII strings are quoted with the escapes of JSON. *)
Definition json_hex4 (n : N) : string :=
  "\u00" ++ String (MD5.hex_digit (Z.of_N (n / 16)))
               (String (MD5.hex_digit (Z.of_N (n mod 16))) EmptyString).

Fixpoint json_escape (s : string) : result string :=
  match s with
  | EmptyString => Ok EmptyString
  | String c s' =>
      let n := N_of_ascii c in
      rest ← json_escape s';
      if (n =? 34)%N then mret ("\" ++ dq ++ rest)
      else if (n =? 92)%N then mret ("\\" ++ rest)
      else if (n =? 10)%N then mret ("\n" ++ rest)
      else if (n =? 13)%N then mret ("\r" ++ rest)
      else if (n =? 9)%N then mret ("\t" ++ rest)
      else if (n =? 8)%N then mret ("\b" ++ rest)
      else if (n =? 12)%N then mret ("\f" ++ rest)
      else if (n <? 32)%N || (n =? 127)%N then mret (json_hex4 n ++ rest)
      else if (n <? 127)%N then mret (String c rest)
      else Raise NotModelled
  end.

Fixpoint json_join (quoted : list string) : string :=
  match quoted with
  | [] => ""
  | [q] => q
  | q :: qs => q ++ ", " ++ json_join qs
  end.

Definition json_dumps (l : list string) : result string :=
  quoted ← mapM (fun s => e ← json_escape s; mret (dq ++ e ++ dq)) l;
  mret ("[" ++ json_join quoted ++ "]").


(** The literal parts of the f-string of [create_stealth_scripts], in
    order, and the string of [generate_modern_detection_evasion]. *)

Definition stealth_js_0 : string :=
("
    (function() {
        'use strict';

        // === FEATURE 1: COMPLETE 2025 CUTTING-EDGE FINGERPRINTING PROTECTION ===
        
        // WebAssembly v2 Fingerprinting Protection
        const webAssemblyProtectionV2 = {
            init: () => {
                if (typeof WebAssembly !== 'undefined') {
                    const originalInstantiate = WebAssembly.instantiate;
                    const originalCompile = WebAssembly.compile;
                    
                    WebAssembly.instantiate = function(...args) {
                        const jitter = Math.random() * 8 + 4; // 4-12ms jitter
                        return new Promise((resolve, reject) => {
                            originalInstantiate.apply(this, args).then(result => {
                                setTimeout(() => resolve(result), jitter);
                            }).catch(err => reject(err));
                        });
                    };
                    
                    WebAssembly.compile = function(...args) {
                        const jitter = Math.random() * 15 + 10; // 10-25ms jitter
                        return new Promise((resolve, reject) => {
                            originalCompile.apply(this, args).then(result => {
                                setTimeout(() => resolve(result), jitter);
                            }).catch(err => reject(err));
                        });
                    };

                    Object.defineProperties(WebAssembly, {
                        'compileStreaming': { value: undefined, writable: false, enumerable: false, configurable: false },
                        'instantiateStreaming': { value: undefined, writable: false, enumerable: false, configurable: false },
                        'validate': { value: () => true, writable: false, enumerable: false, configurable: false }
                    });
                }
            }
        };

        // Service Worker Advanced Fingerprinting Protection
        const serviceWorkerProtectionV2 = {
            init: () => {
                if ('serviceWorker' in navigator) {
                    const originalRegister = navigator.serviceWorker.register;
                    navigator.serviceWorker.register = function(scriptUrl, options) {
                        if (typeof scriptUrl === 'string' && (scriptUrl.includes('fingerprint') || scriptUrl.includes('detect'))) {
                            return Promise.reject(new Error('Service Worker registration blocked by stealth protocol.'));
                        }
                        return originalRegister.apply(this, [scriptUrl, options]);
                    };
                    
                    Object.defineProperties(navigator.serviceWorker, {
                        'controller': { get: () => null, configurable: false },
                        'getRegistrations': { value: () => Promise.resolve([]), configurable: false }
                    });
                }
            }
        };

        // CSS Paint API Protection
        const cssPaintApiProtection = {
            init: () => {
                if (window.CSS && 'paintWorklet' in window.CSS) {
                    delete window.CSS.paintWorklet;
                    Object.defineProperty(window.CSS, 'paintWorklet', {
                        get: () => undefined,
                        configurable: false
                    });
                }
            }
        };

        // === FEATURE 2: ADVANCED ML-RESISTANT BEHAVIORAL CORRELATION ===
        
        const mlResistantBehavior = {
            entropy: {
                mouse: [],
                keyboard: [],
                scroll: [],
                time: []
            },
            
            init: () => {
                mlResistantBehavior.setupMouseEntropy();
                mlResistantBehavior.setupKeyboardEntropy();
                mlResistantBehavior.setupScrollEntropy();
                mlResistantBehavior.setupTimingEntropy();
            },

            setupMouseEntropy: () => {
                let lastMove = 0;
                document.addEventListener('mousemove', (e) => {
                    const now = performance.now();
                    if (now - lastMove > 20) { // Throttle events
                        const x = e.clientX + (Math.random() - 0.5) * 2;
                        const y = e.clientY + (Math.random() - 0.5) * 2;
                        mlResistantBehavior.entropy.mouse.push([now, x, y]);
                        if (mlResistantBehavior.entropy.mouse.length > 200) {
                            mlResistantBehavior.entropy.mouse.shift();
                        }
                        lastMove = now;
                    }
                }, { capture: true });
            },

            setupKeyboardEntropy: () => {
                document.addEventListener('keydown', (e) => {
                    const now = performance.now();
                    const delay = Math.random() * 25 + 50; // 50-75ms
                    mlResistantBehavior.entropy.keyboard.push([now, e.key, delay]);
                }, { capture: true });
            },

            setupScrollEntropy: () => {
                let lastScroll = 0;
                document.addEventListener('scroll', () => {
                    const now = performance.now();
                    if (now - lastScroll > 100) {
                        const scrollPos = window.scrollY + (Math.random() - 0.5) * 10;
                        mlResistantBehavior.entropy.scroll.push([now, scrollPos]);
                        lastScroll = now;
                    }
                }, { capture: true });
            },

            setupTimingEntropy: () => {
                const originalSetTimeout = window.setTimeout;
                window.setTimeout = (callback, delay, ...args) => {
                    const now = performance.now();
                    const skewedDelay = delay + (Math.sin(now / 100) * 5) + (Math.random() * 10 - 5);
                    mlResistantBehavior.entropy.time.push([now, skewedDelay]);
                    return originalSetTimeout(callback, Math.max(0, skewedDelay), ...args);
                };
            }
        };

        // === FEATURE 3: LATEST ENTERPRISE DETECTION SIGNATURES ===

        const enterpriseEvasionV2 = {
            init: () => {
                enterpriseEvasionV2.evadeDataDomeV6();
                enterpriseEvasionV2.evadeCloudflareV4();
                enterpriseEvasionV2.evadePerimeterXV8();
                enterpriseEvasionV2.evadeAkamaiV3();
            },

            evadeDataDomeV6: () => {
                window.ddjs = undefined;
                window.ddxhr = undefined;
                const observer = new MutationObserver(mutations => {
                    mutations.forEach(mutation => {
                        mutation.addedNodes.forEach(node => {
                            if (node.tagName === 'SCRIPT' && node.src && node.src.includes('datadome.co')) {
                                node.type = 'text/javascript-blocked';
                                node.remove();
                            }
                        });
                    });
                });
                observer.observe(document.documentElement, { childList: true, subtree: true });
            },

            evadeCloudflareV4: () => {
                window.cf = undefined;
                window.Cloudflare = undefined;
                const originalFetch = window.fetch;
                window.fetch = (url, options) => {
                    if (typeof url === 'string' && url.includes('/cdn-cgi/challenge-platform/')) {
                        return Promise.reject(new Error('Cloudflare challenge blocked.'));
                    }
                    return originalFetch(url, options);
                };
            },

            evadePerimeterXV8: () => {
                window._px = undefined;
                window.px = undefined;
                window.PX_CONFIG = undefined;
                const pxEvents = ['px-captcha-validated', 'px-challenge-solved'];
                pxEvents.forEach(name => {
                    window.addEventListener(name, e => e.stopImmediatePropagation(), true);
                });
            },

            evadeAkamaiV3: () => {
                window.bmak = undefined;
                window.AK_BM_2 = undefined;
                const originalCreateElement = document.createElement;
                document.createElement = function(tagName) {
                    const element = originalCreateElement.call(this, tagName);
                    if (tagName.toLowerCase() === 'script') {
                        const originalSetAttribute = element.setAttribute;
                        element.setAttribute = function(name, value) {
                            if (name === 'src' && typeof value === 'string' && value.includes('akam')) {
                                return;
                            }
                            originalSetAttribute.call(this, name, value);
                        };
                    }
                    return element;
                };
            }
        };

        // === FEATURE 4: ENHANCED BROWSER EXTENSION ECOSYSTEM ===

        const extensionEcosystemV2 = {
            init: () => {
                if (typeof chrome !== 'undefined' && chrome.runtime) {
                    extensionEcosystemV2.simulateRealisticMessaging();
                    extensionEcosystemV2.spoofApiResponses();
                }
            },

            simulateRealisticMessaging: () => {
                const originalSendMessage = chrome.runtime.sendMessage;
                chrome.runtime.sendMessage = function(...args) {
                    const delay = Math.random() * 100 + 50; // 50-150ms delay
                    return new Promise(resolve => {
                        setTimeout(() => {
                            if (Math.random() > 0.95) { // 5% chance of failure
                                resolve({ error: 'Simulated extension error' });
                            } else {
                                resolve({ success: true, data: 'Simulated response' });
                            }
                        }, delay);
                    });
                };
            },

            spoofApiResponses: () => {
                if (chrome.management) {
                    chrome.management.getAll = (callback) => {
                        const extensions = [
                            { id: 'gighmmpiobklfepjocnamgkkbiglidom', name: 'AdBlock', enabled: true },
                            { id: 'cjpalhdlnbpafiamejdnhcphjbkeiagm', name: 'uBlock Origin', enabled: true },
                            { id: 'nngceckbapebfimnlniiiahkandclblb', name: 'Bitwarden', enabled: Math.random() > 0.5 }
                        ];
                        if (callback) callback(extensions);
                        return Promise.resolve(extensions);
                    };
                }
            }
        };

        // === FEATURE 5: FUTURE-PROOF PROTECTION (QUANTUM & AI) ===

        const futureProofing = {
            init: () => {
                futureProofing.addQuantumJitter();
                futureProofing.blockFutureApis();
            },

            addQuantumJitter: () => {
                const originalGetTime = Date.prototype.getTime;
                Date.prototype.getTime = function() {
                    const time = originalGetTime.call(this);
                    // Simulate quantum uncertainty with small, unpredictable fluctuations
                    const qJitter = (Math.random() - 0.5) * Math.pow(10, -12); // picosecond jitter
                    return time + qJitter;
                };
            },

            blockFutureApis: () => {
                const futureApis = ['navigator.ml', 'navigator.quantum', 'window.ai'];
                futureApis.forEach(api => {
                    const parts = api.split('.');
                    let obj = window;
                    for (let i = 0; i < parts.length - 1; i++) {
                        obj = obj[parts[i]];
                        if (!obj) return;
                    }
                    delete obj[parts[parts.length - 1]];
                });
            }
        };

        // === FEATURE 6: ADVANCED STEALTH-PLAYWRIGHT INTEGRATION ===

        const stealthPlaywrightV2 = {
            init: () => {
                stealthPlaywrightV2.hideFrameworkTraces();
                stealthPlaywrightV2.spoofEvaluationContext();
            },

            hideFrameworkTraces: () => {
                const indicators = ['__playwright_script__', 'isPlaywright', '$cdc_asdjflasutopfhvcZLmcfl_'];
                indicators.forEach(ind => {
                    try { delete window[ind]; } catch(e) {}
                });
            },

            spoofEvaluationContext: () => {
                const originalEvaluate = document.evaluate;
                document.evaluate = function(expression, contextNode, resolver, type, result) {
                    if (expression.includes('__playwright')) {
                        return originalEvaluate.call(this, " ++ dq ++ "'tampered'" ++ dq ++ ", contextNode, resolver, type, result);
                    }
                    return originalEvaluate.apply(this, arguments);
                };
            }
        };

        // INITIALIZE ALL STEALTH MODULES
        try {
            webAssemblyProtectionV2.init();
            serviceWorkerProtectionV2.init();
            cssPaintApiProtection.init();
            mlResistantBehavior.init();
            enterpriseEvasionV2.init();
            extensionEcosystemV2.init();
            futureProofing.init();
            stealthPlaywrightV2.init();
            console.log('🚀 ABSOLUTE 100% DETECTION PROOF - All 2025 stealth systems active!');
        } catch (e) {
            console.error('Stealth initialization failed:', e);
        }

        // === EXISTING CORE PROTECTIONS (ENHANCED) ===
        
        // Override webdriver property with maximum protection
        Object.defineProperty(navigator, 'webdriver', {
            get: () => undefined,
            configurable: false
        });

        // Canvas Fingerprinting Protection
        const originalToDataURL = HTMLCanvasElement.prototype.toDataURL;
        HTMLCanvasElement.prototype.toDataURL = function(type, encoderOptions) {
            const data = originalToDataURL.apply(this, arguments);
            if (this.width > 100 && this.height > 100) {
                return data.replace(/\d/g, (digit) => (parseInt(digit) + 1) % 10);
            }
            return `data:image/png;base64,").

Definition stealth_js_1 : string :=
"`;
        };

        // WebGL Fingerprinting Protection
        const webglParams = {
            37445: '".

Definition stealth_js_2 : string :=
"',
            37446: '".

Definition stealth_js_3 : string :=
"',
            7938: '".

Definition stealth_js_4 : string :=
"',
            35724: '".

Definition stealth_js_5 : string :=
"'
        };
        [WebGLRenderingContext, WebGL2RenderingContext].forEach(glContext => {
            if (glContext) {
                const originalGetParameter = glContext.prototype.getParameter;
                glContext.prototype.getParameter = function(parameter) {
                    return webglParams[parameter] || originalGetParameter.apply(this, arguments);
                };
            }
        });

        // Audio Context Protection
        const AudioContext = window.AudioContext || window.webkitAudioContext;
        if (AudioContext) {
            const originalCreateAnalyser = AudioContext.prototype.createAnalyser;
            AudioContext.prototype.createAnalyser = function() {
                const analyser = originalCreateAnalyser.apply(this, arguments);
                const originalGetFloatFrequencyData = analyser.getFloatFrequencyData;
                analyser.getFloatFrequencyData = function(array) {
                    originalGetFloatFrequencyData.apply(this, arguments);
                    const noise = parseFloat('0.".

Definition stealth_js_6 : string :=
"');
                    for (let i = 0; i < array.length; i++) {
                        array[i] += (Math.random() - 0.5) * noise;
                    }
                };
                return analyser;
            };
        }

    })();
    ".

Definition modern_evasion_js : string :=
"
    // === MODERN 2025 DETECTION EVASION ===
    
    // Advanced Automation Framework Detection
    const automationIndicators = [
        'webdriver', 'selenium', 'playwright', 'puppeteer', 'phantom',
        'nightmare', 'jsdom', 'chrome-devtools', '__webdriver_script_fn',
        '__selenium_unwrapped', '__fxdriver_evaluate', '__driver_evaluate',
        'calledSelenium', '_Selenium_IDE_Recorder', '_selenium', 'callSelenium',
        '__webdriver_script_function', '__playwright', '__pw_manual', 
        '__PW_MANUAL', '_Playwright', '__playwright_evaluation_script__'
    ];
    
    // Continuously clean automation traces
    setInterval(() => {
        automationIndicators.forEach(indicator => {
            try {
                delete window[indicator];
                delete document[indicator];
                delete navigator[indicator];
            } catch(e) {}
        });
        
        // Clean Object prototypes
        try {
            Object.getOwnPropertyNames(window).forEach(prop => {
                if (automationIndicators.some(ind => prop.includes(ind))) {
                    delete window[prop];
                }
            });
        } catch(e) {}
    }, 100);
    
    // Advanced WebDriver Detection Blocking
    Object.defineProperty(navigator, 'webdriver', {
        get: () => undefined,
        set: () => {},
        configurable: false,
        enumerable: false
    });
    
    // Block common automation detection methods
    const originalObjectKeys = Object.keys;
    Object.keys = function(obj) {
        const keys = originalObjectKeys.apply(this, arguments);
        return keys.filter(key => !automationIndicators.some(ind => key.includes(ind)));
    };
    
    console.log('🔥 Advanced 2025 Detection Evasion Active - Cutting-edge protection enabled');
    ".

Definition create_stealth_scripts (device_profile : gmap string pyval)
    : result string :=
  canvas_fp ← generate_canvas_fingerprint device_profile;
  webgl_fp ← generate_webgl_fingerprint device_profile;
  platform ← py_str (get device_profile "platform" (VStr "Win32"));
  let audio_fp := MD5.hexdigest (platform ++ "_audio") in
  font_list ← generate_fonts_list (get device_profile "platform" (VStr "Win32"));
  fonts ← json_dumps font_list;
  vendor ← item webgl_fp "vendor" ≫= py_str;
  renderer ← item webgl_fp "renderer" ≫= py_str;
  version ← item webgl_fp "version" ≫= py_str;
  shading ← item webgl_fp "shading_language_version" ≫= py_str;
  mret (stealth_js_0 ++ canvas_fp ++ stealth_js_1 ++ vendor ++ stealth_js_2
        ++ renderer ++ stealth_js_3 ++ version ++ stealth_js_4 ++ shading
        ++ stealth_js_5 ++ last_chars 6 audio_fp ++ stealth_js_6).

Definition generate_realistic_headers (locale user_agent : string)
    : gmap string pyval :=
  let headers :=
    dict_of
      [("User-Agent", VStr user_agent);
       ("Accept", VStr "text/html,application/xhtml+xml,application/xml;q=0.9,image/avif,image/webp,image/apng,*/*;q=0.8,application/signed-exchange;v=b3;q=0.7");
       ("Accept-Language",
        VStr (locale ++ "," ++ before "-" locale ++ ";q=0.9,en;q=0.8"));
       ("Accept-Encoding", VStr "gzip, deflate, br");
       ("Cache-Control", VStr "max-age=0");
       ("Upgrade-Insecure-Requests", VStr "1");
       ("Sec-Fetch-Dest", VStr "document");
       ("Sec-Fetch-Mode", VStr "navigate");
       ("Sec-Fetch-Site", VStr "none");
       ("Sec-Fetch-User", VStr "?1")] in
  if contains "Chrome" user_agent && negb (contains "Edg" user_agent) then
    <["sec-ch-ua-platform" :=
        VStr (if contains "Windows" user_agent then dq ++ "Windows" ++ dq
              else if contains "Mac" user_agent then dq ++ "macOS" ++ dq
              else dq ++ "Linux" ++ dq)]>
    (<["sec-ch-ua-mobile" :=
        VStr (if negb (contains "Mobile" user_agent) then "?0" else "?1")]>
    (<["sec-ch-ua" :=
        VStr (dq ++ "Chromium" ++ dq ++ ";v=" ++ dq ++ "127" ++ dq ++ ", "
              ++ dq ++ "Not)A;Brand" ++ dq ++ ";v=" ++ dq ++ "99" ++ dq)]>
     headers))
  else headers.

Definition strs (l : list string) : pyval := VList (map VStr l).

Definition generate_tls_fingerprint (device_profile : gmap string pyval)
    : result (gmap string pyval) :=
  let platform := get device_profile "platform" (VStr "Win32") in
  let user_agent := get device_profile "user_agent" (VStr "") in
  chrome ← py_in "Chrome" user_agent;
  '(tls_version, cipher_suites, extensions) ←
    (if chrome : bool then
       win ← py_in "Win32" platform;
       if win : bool then
         mret ("TLSv1.3",
               ["TLS_AES_128_GCM_SHA256"; "TLS_AES_256_GCM_SHA384";
                "TLS_CHACHA20_POLY1305_SHA256";
                "TLS_ECDHE_ECDSA_WITH_AES_128_GCM_SHA256";
                "TLS_ECDHE_RSA_WITH_AES_128_GCM_SHA256"],
               ["server_name"; "extended_master_secret"; "renegotiation_info";
                "supported_groups"; "ec_point_formats"; "session_ticket";
                "application_layer_protocol_negotiation"; "status_request";
                "signature_algorithms"; "signed_certificate_timestamp";
                "key_share"; "psk_key_exchange_modes"; "supported_versions";
                "compress_certificate"; "application_settings"])
       else
         mac ← py_in "Mac" platform;
         if mac : bool then
           mret ("TLSv1.3",
                 ["TLS_AES_128_GCM_SHA256"; "TLS_AES_256_GCM_SHA384";
                  "TLS_CHACHA20_POLY1305_SHA256";
                  "TLS_ECDHE_ECDSA_WITH_AES_256_GCM_SHA384";
                  "TLS_ECDHE_RSA_WITH_AES_256_GCM_SHA384"],
                 ["server_name"; "extended_master_secret"; "renegotiation_info";
                  "supported_groups"; "ec_point_formats"; "session_ticket";
                  "application_layer_protocol_negotiation"; "status_request";
                  "signature_algorithms"; "signed_certificate_timestamp";
                  "key_share"; "psk_key_exchange_modes"; "supported_versions"])
         else
           mret ("TLSv1.3",
                 ["TLS_AES_128_GCM_SHA256"; "TLS_AES_256_GCM_SHA384";
                  "TLS_CHACHA20_POLY1305_SHA256";
                  "TLS_ECDHE_ECDSA_WITH_AES_128_GCM_SHA256";
                  "TLS_ECDHE_RSA_WITH_AES_128_GCM_SHA256"],
                 ["server_name"; "extended_master_secret"; "renegotiation_info";
                  "supported_groups"; "ec_point_formats"; "session_ticket";
                  "application_layer_protocol_negotiation"; "status_request";
                  "signature_algorithms"; "key_share"; "psk_key_exchange_modes";
                  "supported_versions"])
     else
       safari ← py_in "Safari" user_agent;
       if safari : bool then
         mret ("TLSv1.3",
               ["TLS_AES_128_GCM_SHA256"; "TLS_AES_256_GCM_SHA384";
                "TLS_CHACHA20_POLY1305_SHA256";
                "TLS_ECDHE_ECDSA_WITH_AES_256_GCM_SHA384";
                "TLS_ECDHE_ECDSA_WITH_AES_128_GCM_SHA256"],
               ["server_name"; "extended_master_secret"; "renegotiation_info";
                "supported_groups"; "ec_point_formats"; "session_ticket";
                "application_layer_protocol_negotiation"; "signature_algorithms";
                "key_share"; "psk_key_exchange_modes"; "supported_versions"])
       else
         mret ("TLSv1.3",
               ["TLS_AES_128_GCM_SHA256"; "TLS_CHACHA20_POLY1305_SHA256";
                "TLS_AES_256_GCM_SHA384";
                "TLS_ECDHE_ECDSA_WITH_AES_128_GCM_SHA256";
                "TLS_ECDHE_RSA_WITH_AES_128_GCM_SHA256"],
               ["server_name"; "extended_master_secret"; "renegotiation_info";
                "supported_groups"; "ec_point_formats"; "session_ticket";
                "application_layer_protocol_negotiation"; "signature_algorithms";
                "key_share"; "psk_key_exchange_modes"; "supported_versions"]));
  mret (dict_of
          [("version", VStr tls_version);
           ("cipher_suites", strs cipher_suites);
           ("extensions", strs extensions);
           ("curves", strs ["X25519"; "secp256r1"; "secp384r1"]);
           ("signature_algorithms",
            strs ["ecdsa_secp256r1_sha256"; "rsa_pss_rsae_sha256";
                  "rsa_pkcs1_sha256"; "ecdsa_secp384r1_sha384";
                  "rsa_pss_rsae_sha384"; "rsa_pkcs1_sha384"]);
           ("alpn", strs ["h2"; "http/1.1"])]).

Definition generate_modern_detection_evasion : string := modern_evasion_js.

(** *** The static tables *)

Record DeviceProfile := {
  user_agent : string;
  viewport : gmap string pyval;
  device_scale_factor : Q;
  is_mobile : bool;
  has_touch : bool;
  platform : string;
  device_memory : Z;
  hardware_concurrency : Z;
  max_touch_points : Z
}.

(** [{"width": w, "height": h}] *)
Definition wh (w h : Z) : gmap string pyval :=
  dict_of [("width", VInt w); ("height", VInt h)].

Definition DESKTOP_PROFILES : list DeviceProfile := [
  Build_DeviceProfile
    "Mozilla/5.0 (Windows NT 10.0; Win64; x64) AppleWebKit/537.36 (KHTML, like Gecko) Chrome/127.0.0.0 Safari/537.36"
    (wh 1920 1080) 1.0%Q false false "Win32" 8 8 0;
  Build_DeviceProfile
    "Mozilla/5.0 (Windows NT 10.0; Win64; x64) AppleWebKit/537.36 (KHTML, like Gecko) Chrome/126.0.0.0 Safari/537.36"
    (wh 1366 768) 1.0%Q false false "Win32" 4 4 0;
  Build_DeviceProfile
    "Mozilla/5.0 (Windows NT 10.0; Win64; x64) AppleWebKit/537.36 (KHTML, like Gecko) Chrome/125.0.0.0 Safari/537.36"
    (wh 1440 900) 1.0%Q false false "Win32" 8 6 0;
  Build_DeviceProfile
    "Mozilla/5.0 (Windows NT 10.0; Win64; x64) AppleWebKit/537.36 (KHTML, like Gecko) Chrome/124.0.0.0 Safari/537.36"
    (wh 1536 864) 1.25%Q false false "Win32" 16 8 0;
  Build_DeviceProfile
    "Mozilla/5.0 (Windows NT 10.0; Win64; x64) AppleWebKit/537.36 (KHTML, like Gecko) Chrome/123.0.0.0 Safari/537.36"
    (wh 1600 900) 1.0%Q false false "Win32" 8 4 0;
  Build_DeviceProfile
    "Mozilla/5.0 (Windows NT 10.0; Win64; x64) AppleWebKit/537.36 (KHTML, like Gecko) Chrome/122.0.0.0 Safari/537.36"
    (wh 1280 720) 1.0%Q false false "Win32" 4 2 0;
  Build_DeviceProfile
    "Mozilla/5.0 (Windows NT 10.0; Win64; x64) AppleWebKit/537.36 (KHTML, like Gecko) Chrome/121.0.0.0 Safari/537.36"
    (wh 1680 1050) 1.0%Q false false "Win32" 16 6 0;
  Build_DeviceProfile
    "Mozilla/5.0 (Windows NT 10.0; Win64; x64) AppleWebKit/537.36 (KHTML, like Gecko) Chrome/120.0.0.0 Safari/537.36"
    (wh 1768 992) 1.25%Q false false "Win32" 32 12 0;
  Build_DeviceProfile
    "Mozilla/5.0 (Windows NT 10.0; Win64; x64) AppleWebKit/537.36 (KHTML, like Gecko) Chrome/119.0.0.0 Safari/537.36"
    (wh 2048 1152) 1.5%Q false false "Win32" 16 8 0;
  Build_DeviceProfile
    "Mozilla/5.0 (Windows NT 10.0; Win64; x64) AppleWebKit/537.36 (KHTML, like Gecko) Chrome/118.0.0.0 Safari/537.36"
    (wh 1344 840) 1.0%Q false false "Win32" 8 4 0;
  Build_DeviceProfile
    "Mozilla/5.0 (Windows NT 11.0; Win64; x64) AppleWebKit/537.36 (KHTML, like Gecko) Chrome/127.0.0.0 Safari/537.36"
    (wh 2560 1440) 1.25%Q false false "Win32" 16 12 0;
  Build_DeviceProfile
    "Mozilla/5.0 (Windows NT 11.0; Win64; x64) AppleWebKit/537.36 (KHTML, like Gecko) Chrome/126.0.0.0 Safari/537.36"
    (wh 1920 1080) 1.0%Q false false "Win32" 32 16 0;
  Build_DeviceProfile
    "Mozilla/5.0 (Windows NT 11.0; Win64; x64) AppleWebKit/537.36 (KHTML, like Gecko) Chrome/125.0.0.0 Safari/537.36"
    (wh 3440 1440) 1.0%Q false false "Win32" 64 24 0;
  Build_DeviceProfile
    "Mozilla/5.0 (Windows NT 11.0; Win64; x64) AppleWebKit/537.36 (KHTML, like Gecko) Chrome/124.0.0.0 Safari/537.36"
    (wh 1366 768) 1.0%Q false false "Win32" 8 6 0;
  Build_DeviceProfile
    "Mozilla/5.0 (Windows NT 11.0; Win64; x64) AppleWebKit/537.36 (KHTML, like Gecko) Chrome/123.0.0.0 Safari/537.36"
    (wh 1600 1024) 1.0%Q false false "Win32" 16 8 0;
  Build_DeviceProfile
    "Mozilla/5.0 (Windows NT 10.0; Win64; x64) AppleWebKit/537.36 (KHTML, like Gecko) Chrome/127.0.0.0 Safari/537.36 Edg/127.0.0.0"
    (wh 1920 1080) 1.0%Q false false "Win32" 8 8 0;
  Build_DeviceProfile
    "Mozilla/5.0 (Windows NT 11.0; Win64; x64) AppleWebKit/537.36 (KHTML, like Gecko) Chrome/126.0.0.0 Safari/537.36 Edg/126.0.0.0"
    (wh 1728 1117) 1.5%Q false false "Win32" 16 10 0;
  Build_DeviceProfile
    "Mozilla/5.0 (Windows NT 10.0; Win64; x64) AppleWebKit/537.36 (KHTML, like Gecko) Chrome/125.0.0.0 Safari/537.36 Edg/125.0.0.0"
    (wh 1440 900) 1.0%Q false false "Win32" 8 4 0;
  Build_DeviceProfile
    "Mozilla/5.0 (Windows NT 11.0; Win64; x64) AppleWebKit/537.36 (KHTML, like Gecko) Chrome/124.0.0.0 Safari/537.36 Edg/124.0.0.0"
    (wh 2560 1440) 1.25%Q false false "Win32" 32 12 0;
  Build_DeviceProfile
    "Mozilla/5.0 (Windows NT 10.0; Win64; x64) AppleWebKit/537.36 (KHTML, like Gecko) Chrome/123.0.0.0 Safari/537.36 Edg/123.0.0.0"
    (wh 1366 768) 1.0%Q false false "Win32" 4 4 0;
  Build_DeviceProfile
    "Mozilla/5.0 (Windows NT 10.0; Win64; x64; rv:127.0) Gecko/20100101 Firefox/127.0"
    (wh 1920 1080) 1.0%Q false false "Win32" 8 8 0;
  Build_DeviceProfile
    "Mozilla/5.0 (Windows NT 11.0; Win64; x64; rv:126.0) Gecko/20100101 Firefox/126.0"
    (wh 1366 768) 1.0%Q false false "Win32" 16 6 0;
  Build_DeviceProfile
    "Mozilla/5.0 (Windows NT 10.0; Win64; x64; rv:125.0) Gecko/20100101 Firefox/125.0"
    (wh 1440 900) 1.0%Q false false "Win32" 8 4 0;
  Build_DeviceProfile
    "Mozilla/5.0 (Windows NT 11.0; Win64; x64; rv:124.0) Gecko/20100101 Firefox/124.0"
    (wh 2560 1440) 1.25%Q false false "Win32" 32 16 0;
  Build_DeviceProfile
    "Mozilla/5.0 (Macintosh; Intel Mac OS X 10_15_7) AppleWebKit/537.36 (KHTML, like Gecko) Chrome/127.0.0.0 Safari/537.36"
    (wh 1728 1117) 2.0%Q false false "MacIntel" 8 8 0;
  Build_DeviceProfile
    "Mozilla/5.0 (Macintosh; Intel Mac OS X 10_14_6) AppleWebKit/537.36 (KHTML, like Gecko) Chrome/126.0.0.0 Safari/537.36"
    (wh 1680 1050) 1.0%Q false false "MacIntel" 8 4 0;
  Build_DeviceProfile
    "Mozilla/5.0 (Macintosh; Intel Mac OS X 10_15_7) AppleWebKit/537.36 (KHTML, like Gecko) Chrome/125.0.0.0 Safari/537.36"
    (wh 1440 900) 2.0%Q false false "MacIntel" 32 16 0;
  Build_DeviceProfile
    "Mozilla/5.0 (Macintosh; Intel Mac OS X 10_13_6) AppleWebKit/537.36 (KHTML, like Gecko) Chrome/124.0.0.0 Safari/537.36"
    (wh 1280 800) 1.0%Q false false "MacIntel" 4 4 0;
  Build_DeviceProfile
    "Mozilla/5.0 (Macintosh; Intel Mac OS X 10_15_7) AppleWebKit/537.36 (KHTML, like Gecko) Chrome/123.0.0.0 Safari/537.36"
    (wh 2560 1600) 2.0%Q false false "MacIntel" 16 8 0;
  Build_DeviceProfile
    "Mozilla/5.0 (Macintosh; Intel Mac OS X 10_15_7) AppleWebKit/605.1.15 (KHTML, like Gecko) Version/17.6 Safari/605.1.15"
    (wh 1512 982) 2.0%Q false false "MacIntel" 16 10 0;
  Build_DeviceProfile
    "Mozilla/5.0 (Macintosh; Intel Mac OS X 10_14_6) AppleWebKit/605.1.15 (KHTML, like Gecko) Version/16.6 Safari/605.1.15"
    (wh 1680 1050) 1.0%Q false false "MacIntel" 8 4 0;
  Build_DeviceProfile
    "Mozilla/5.0 (Macintosh; Intel Mac OS X 10_15_7) AppleWebKit/605.1.15 (KHTML, like Gecko) Version/17.5 Safari/605.1.15"
    (wh 1440 900) 2.0%Q false false "MacIntel" 32 16 0;
  Build_DeviceProfile
    "Mozilla/5.0 (Macintosh; Intel Mac OS X 10.15; rv:127.0) Gecko/20100101 Firefox/127.0"
    (wh 1728 1117) 2.0%Q false false "MacIntel" 8 8 0;
  Build_DeviceProfile
    "Mozilla/5.0 (Macintosh; Intel Mac OS X 10.14; rv:126.0) Gecko/20100101 Firefox/126.0"
    (wh 1680 1050) 1.0%Q false false "MacIntel" 8 4 0;
  Build_DeviceProfile
    "Mozilla/5.0 (X11; Linux x86_64) AppleWebKit/537.36 (KHTML, like Gecko) Chrome/127.0.0.0 Safari/537.36"
    (wh 1920 1080) 1.0%Q false false "Linux x86_64" 8 8 0;
  Build_DeviceProfile
    "Mozilla/5.0 (X11; Linux x86_64) AppleWebKit/537.36 (KHTML, like Gecko) Chrome/126.0.0.0 Safari/537.36"
    (wh 2560 1440) 1.0%Q false false "Linux x86_64" 16 12 0;
  Build_DeviceProfile
    "Mozilla/5.0 (X11; Linux x86_64) AppleWebKit/537.36 (KHTML, like Gecko) Chrome/125.0.0.0 Safari/537.36"
    (wh 1366 768) 1.0%Q false false "Linux x86_64" 4 4 0;
  Build_DeviceProfile
    "Mozilla/5.0 (X11; Ubuntu; Linux x86_64; rv:127.0) Gecko/20100101 Firefox/127.0"
    (wh 1366 768) 1.0%Q false false "Linux x86_64" 4 4 0;
  Build_DeviceProfile
    "Mozilla/5.0 (X11; Ubuntu; Linux x86_64; rv:126.0) Gecko/20100101 Firefox/126.0"
    (wh 1920 1080) 1.0%Q false false "Linux x86_64" 8 8 0;
  Build_DeviceProfile
    "Mozilla/5.0 (Windows NT 10.0; Win64; x64) AppleWebKit/537.36 (KHTML, like Gecko) Chrome/131.0.0.0 Safari/537.36"
    (wh 3840 2160) 1.25%Q false false "Win32" 24 64 0;
  Build_DeviceProfile
    "Mozilla/5.0 (Windows NT 10.0; Win64; x64) AppleWebKit/537.36 (KHTML, like Gecko) Chrome/130.0.0.0 Safari/537.36"
    (wh 5120 2880) 2.0%Q false false "Win32" 32 128 0;
  Build_DeviceProfile
    "Mozilla/5.0 (Windows NT 10.0; Win64; x64) AppleWebKit/537.36 (KHTML, like Gecko) Chrome/129.0.0.0 Safari/537.36"
    (wh 7680 4320) 1.5%Q false false "Win32" 64 256 0;
  Build_DeviceProfile
    "Mozilla/5.0 (Windows NT 10.0; Win64; x64) AppleWebKit/537.36 (KHTML, like Gecko) Chrome/128.0.0.0 Safari/537.36"
    (wh 2560 1440) 1.0%Q false false "Win32" 16 32 0;
  Build_DeviceProfile
    "Mozilla/5.0 (Windows NT 10.0; Win64; x64) AppleWebKit/537.36 (KHTML, like Gecko) Chrome/127.0.0.0 Safari/537.36"
    (wh 3440 1440) 1.0%Q false false "Win32" 20 48 0;
  Build_DeviceProfile
    "Mozilla/5.0 (Windows NT 10.0; Win64; x64) AppleWebKit/537.36 (KHTML, like Gecko) Chrome/126.0.0.0 Safari/537.36"
    (wh 2560 1440) 1.25%Q false false "Win32" 12 32 0;
  Build_DeviceProfile
    "Mozilla/5.0 (Windows NT 10.0; Win64; x64) AppleWebKit/537.36 (KHTML, like Gecko) Chrome/125.0.0.0 Safari/537.36"
    (wh 1920 1080) 1.0%Q false false "Win32" 8 16 0;
  Build_DeviceProfile
    "Mozilla/5.0 (Windows NT 10.0; Win64; x64) AppleWebKit/537.36 (KHTML, like Gecko) Chrome/124.0.0.0 Safari/537.36"
    (wh 3840 2160) 1.0%Q false false "Win32" 16 32 0;
  Build_DeviceProfile
    "Mozilla/5.0 (Windows NT 10.0; Win64; x64) AppleWebKit/537.36 (KHTML, like Gecko) Chrome/123.0.0.0 Safari/537.36"
    (wh 2560 1440) 1.25%Q false false "Win32" 24 64 0;
  Build_DeviceProfile
    "Mozilla/5.0 (Windows NT 10.0; Win64; x64) AppleWebKit/537.36 (KHTML, like Gecko) Chrome/122.0.0.0 Safari/537.36"
    (wh 1920 1080) 1.0%Q false false "Win32" 12 16 0;
  Build_DeviceProfile
    "Mozilla/5.0 (Windows NT 10.0; Win64; x64) AppleWebKit/537.36 (KHTML, like Gecko) Chrome/121.0.0.0 Safari/537.36"
    (wh 2560 1440) 1.25%Q false false "Win32" 16 32 0;
  Build_DeviceProfile
    "Mozilla/5.0 (Macintosh; Intel Mac OS X 10_15_7) AppleWebKit/537.36 (KHTML, like Gecko) Chrome/131.0.0.0 Safari/537.36"
    (wh 5120 2880) 2.0%Q false false "MacIntel" 12 64 0;
  Build_DeviceProfile
    "Mozilla/5.0 (Macintosh; Intel Mac OS X 10_15_7) AppleWebKit/537.36 (KHTML, like Gecko) Chrome/130.0.0.0 Safari/537.36"
    (wh 6016 3384) 2.0%Q false false "MacIntel" 16 96 0;
  Build_DeviceProfile
    "Mozilla/5.0 (Macintosh; Intel Mac OS X 10_15_7) AppleWebKit/537.36 (KHTML, like Gecko) Chrome/129.0.0.0 Safari/537.36"
    (wh 3456 2234) 2.0%Q false false "MacIntel" 12 36 0;
  Build_DeviceProfile
    "Mozilla/5.0 (Macintosh; Intel Mac OS X 10_15_7) AppleWebKit/537.36 (KHTML, like Gecko) Chrome/128.0.0.0 Safari/537.36"
    (wh 3024 1964) 2.0%Q false false "MacIntel" 11 18 0;
  Build_DeviceProfile
    "Mozilla/5.0 (Macintosh; Intel Mac OS X 10_15_7) AppleWebKit/537.36 (KHTML, like Gecko) Chrome/127.0.0.0 Safari/537.36"
    (wh 7680 4320) 2.0%Q false false "MacIntel" 24 128 0;
  Build_DeviceProfile
    "Mozilla/5.0 (Macintosh; Intel Mac OS X 10_15_7) AppleWebKit/537.36 (KHTML, like Gecko) Chrome/126.0.0.0 Safari/537.36"
    (wh 5120 2880) 2.0%Q false false "MacIntel" 20 76 0;
  Build_DeviceProfile
    "Mozilla/5.0 (X11; Linux x86_64) AppleWebKit/537.36 (KHTML, like Gecko) Chrome/131.0.0.0 Safari/537.36"
    (wh 3840 2160) 1.0%Q false false "Linux x86_64" 32 128 0;
  Build_DeviceProfile
    "Mozilla/5.0 (X11; Linux x86_64) AppleWebKit/537.36 (KHTML, like Gecko) Chrome/130.0.0.0 Safari/537.36"
    (wh 5120 2880) 1.0%Q false false "Linux x86_64" 64 256 0;
  Build_DeviceProfile
    "Mozilla/5.0 (X11; Linux x86_64) AppleWebKit/537.36 (KHTML, like Gecko) Chrome/129.0.0.0 Safari/537.36"
    (wh 2560 1440) 1.25%Q false false "Linux x86_64" 16 32 0;
  Build_DeviceProfile
    "Mozilla/5.0 (X11; Linux x86_64) AppleWebKit/537.36 (KHTML, like Gecko) Chrome/128.0.0.0 Safari/537.36"
    (wh 3440 1440) 1.0%Q false false "Linux x86_64" 24 64 0;
  Build_DeviceProfile
    "Mozilla/5.0 (X11; Linux x86_64) AppleWebKit/537.36 (KHTML, like Gecko) Chrome/127.0.0.0 Safari/537.36"
    (wh 2560 1440) 1.0%Q false false "Linux x86_64" 20 48 0;
  Build_DeviceProfile
    "Mozilla/5.0 (X11; Linux x86_64) AppleWebKit/537.36 (KHTML, like Gecko) Chrome/126.0.0.0 Safari/537.36"
    (wh 1920 1080) 1.0%Q false false "Linux x86_64" 12 32 0;
  Build_DeviceProfile
    "Mozilla/5.0 (Windows NT 10.0; Win64; x64) AppleWebKit/537.36 (KHTML, like Gecko) Chrome/120.0.0.0 Safari/537.36"
    (wh 1920 1080) 1.0%Q false false "Win32" 8 16 0;
  Build_DeviceProfile
    "Mozilla/5.0 (Windows NT 10.0; Win64; x64) AppleWebKit/537.36 (KHTML, like Gecko) Chrome/119.0.0.0 Safari/537.36"
    (wh 1366 768) 1.0%Q false false "Win32" 4 8 0;
  Build_DeviceProfile
    "Mozilla/5.0 (Windows NT 10.0; Win64; x64) AppleWebKit/537.36 (KHTML, like Gecko) Chrome/118.0.0.0 Safari/537.36"
    (wh 1440 900) 1.0%Q false false "Win32" 6 8 0;
  Build_DeviceProfile
    "Mozilla/5.0 (Windows NT 10.0; Win64; x64) AppleWebKit/537.36 (KHTML, like Gecko) Chrome/117.0.0.0 Safari/537.36"
    (wh 1600 900) 1.0%Q false false "Win32" 8 12 0;
  Build_DeviceProfile
    "Mozilla/5.0 (Windows NT 10.0; Win64; x64) AppleWebKit/537.36 (KHTML, like Gecko) Chrome/116.0.0.0 Safari/537.36"
    (wh 1280 720) 1.0%Q false false "Win32" 4 6 0;
  Build_DeviceProfile
    "Mozilla/5.0 (Windows NT 10.0; Win64; x64) AppleWebKit/537.36 (KHTML, like Gecko) Chrome/115.0.0.0 Safari/537.36"
    (wh 1536 864) 1.25%Q false false "Win32" 8 16 0;
  Build_DeviceProfile
    "Mozilla/5.0 (Windows NT 10.0; Win64; x64) AppleWebKit/537.36 (KHTML, like Gecko) Chrome/114.0.0.0 Safari/537.36"
    (wh 1728 1117) 1.5%Q false false "Win32" 16 32 0;
  Build_DeviceProfile
    "Mozilla/5.0 (Windows NT 10.0; Win64; x64) AppleWebKit/537.36 (KHTML, like Gecko) Chrome/113.0.0.0 Safari/537.36"
    (wh 2048 1152) 1.5%Q false false "Win32" 12 24 0;
  Build_DeviceProfile
    "Mozilla/5.0 (Windows NT 10.0; Win64; x64) AppleWebKit/537.36 (KHTML, like Gecko) Chrome/112.0.0.0 Safari/537.36 Edg/112.0.0.0"
    (wh 1920 1080) 1.0%Q false false "Win32" 8 16 0;
  Build_DeviceProfile
    "Mozilla/5.0 (Windows NT 10.0; Win64; x64; rv:115.0) Gecko/20100101 Firefox/115.0"
    (wh 1366 768) 1.0%Q false false "Win32" 6 8 0;
  Build_DeviceProfile
    "Mozilla/5.0 (Windows NT 10.0; Win64; x64) AppleWebKit/537.36 (KHTML, like Gecko) Chrome/111.0.0.0 Safari/537.36 Edg/111.0.0.0"
    (wh 2560 1440) 1.25%Q false false "Win32" 16 32 0;
  Build_DeviceProfile
    "Mozilla/5.0 (Macintosh; Intel Mac OS X 10_15_7) AppleWebKit/605.1.15 (KHTML, like Gecko) Version/17.0 Safari/605.1.15"
    (wh 1440 900) 2.0%Q false false "MacIntel" 8 16 0;
  Build_DeviceProfile
    "Mozilla/5.0 (Macintosh; Intel Mac OS X 10_14_6) AppleWebKit/605.1.15 (KHTML, like Gecko) Version/16.0 Safari/605.1.15"
    (wh 1680 1050) 1.0%Q false false "MacIntel" 8 8 0;
  Build_DeviceProfile
    "Mozilla/5.0 (Macintosh; Intel Mac OS X 10_13_6) AppleWebKit/605.1.15 (KHTML, like Gecko) Version/15.0 Safari/605.1.15"
    (wh 1280 800) 1.0%Q false false "MacIntel" 4 8 0;
  Build_DeviceProfile
    "Mozilla/5.0 (Windows NT 10.0; Win64; x64) AppleWebKit/537.36 (KHTML, like Gecko) Chrome/131.0.0.0 Safari/537.36"
    (wh 1792 1120) 1.4%Q false false "Win32" 10 20 0;
  Build_DeviceProfile
    "Mozilla/5.0 (Windows NT 10.0; Win64; x64) AppleWebKit/537.36 (KHTML, like Gecko) Chrome/130.0.0.0 Safari/537.36"
    (wh 2304 1440) 1.8%Q false false "Win32" 14 28 0;
  Build_DeviceProfile
    "Mozilla/5.0 (Windows NT 10.0; Win64; x64) AppleWebKit/537.36 (KHTML, like Gecko) Chrome/129.0.0.0 Safari/537.36"
    (wh 2176 1224) 1.6%Q false false "Win32" 12 24 0
].

Definition MOBILE_PROFILES : list DeviceProfile := [
  Build_DeviceProfile
    "Mozilla/5.0 (iPhone; CPU iPhone OS 17_6 like Mac OS X) AppleWebKit/605.1.15 (KHTML, like Gecko) Version/17.6 Mobile/15E148 Safari/604.1"
    (wh 390 844) 3.0%Q true true "iPhone" 6 6 5;
  Build_DeviceProfile
    "Mozilla/5.0 (iPhone; CPU iPhone OS 17_5 like Mac OS X) AppleWebKit/605.1.15 (KHTML, like Gecko) Version/17.5 Mobile/15E148 Safari/604.1"
    (wh 428 926) 3.0%Q true true "iPhone" 8 6 5;
  Build_DeviceProfile
    "Mozilla/5.0 (iPhone; CPU iPhone OS 17_4 like Mac OS X) AppleWebKit/605.1.15 (KHTML, like Gecko) Version/17.4 Mobile/15E148 Safari/604.1"
    (wh 430 932) 3.0%Q true true "iPhone" 8 6 5;
  Build_DeviceProfile
    "Mozilla/5.0 (iPhone; CPU iPhone OS 16_7 like Mac OS X) AppleWebKit/605.1.15 (KHTML, like Gecko) Version/16.6 Mobile/15E148 Safari/604.1"
    (wh 375 667) 2.0%Q true true "iPhone" 6 6 5;
  Build_DeviceProfile
    "Mozilla/5.0 (iPhone; CPU iPhone OS 16_6 like Mac OS X) AppleWebKit/605.1.15 (KHTML, like Gecko) Version/16.6 Mobile/15E148 Safari/604.1"
    (wh 390 844) 3.0%Q true true "iPhone" 6 6 5;
  Build_DeviceProfile
    "Mozilla/5.0 (Linux; Android 14; SM-S918B) AppleWebKit/537.36 (KHTML, like Gecko) Chrome/127.0.0.0 Mobile Safari/537.36"
    (wh 412 915) 2.625%Q true true "Linux armv8l" 8 8 10;
  Build_DeviceProfile
    "Mozilla/5.0 (Linux; Android 14; SM-S928B) AppleWebKit/537.36 (KHTML, like Gecko) Chrome/127.0.0.0 Mobile Safari/537.36"
    (wh 412 915) 2.625%Q true true "Linux armv8l" 12 8 10;
  Build_DeviceProfile
    "Mozilla/5.0 (Linux; Android 13; SM-S911B) AppleWebKit/537.36 (KHTML, like Gecko) Chrome/126.0.0.0 Mobile Safari/537.36"
    (wh 360 780) 3.0%Q true true "Linux armv8l" 8 8 10;
  Build_DeviceProfile
    "Mozilla/5.0 (Linux; Android 13; SM-S916B) AppleWebKit/537.36 (KHTML, like Gecko) Chrome/126.0.0.0 Mobile Safari/537.36"
    (wh 384 854) 2.75%Q true true "Linux armv8l" 8 8 10;
  Build_DeviceProfile
    "Mozilla/5.0 (Linux; Android 14; Pixel 8 Pro) AppleWebKit/537.36 (KHTML, like Gecko) Chrome/127.0.0.0 Mobile Safari/537.36"
    (wh 412 892) 2.625%Q true true "Linux armv8l" 12 8 10;
  Build_DeviceProfile
    "Mozilla/5.0 (Linux; Android 14; Pixel 8) AppleWebKit/537.36 (KHTML, like Gecko) Chrome/127.0.0.0 Mobile Safari/537.36"
    (wh 412 915) 2.625%Q true true "Linux armv8l" 8 8 10;
  Build_DeviceProfile
    "Mozilla/5.0 (Linux; Android 13; Pixel 7) AppleWebKit/537.36 (KHTML, like Gecko) Chrome/126.0.0.0 Mobile Safari/537.36"
    (wh 412 915) 2.625%Q true true "Linux armv8l" 8 8 10;
  Build_DeviceProfile
    "Mozilla/5.0 (Linux; Android 13; Pixel 7 Pro) AppleWebKit/537.36 (KHTML, like Gecko) Chrome/126.0.0.0 Mobile Safari/537.36"
    (wh 412 892) 2.625%Q true true "Linux armv8l" 12 8 10;
  Build_DeviceProfile
    "Mozilla/5.0 (iPhone; CPU iPhone OS 17_7 like Mac OS X) AppleWebKit/605.1.15 (KHTML, like Gecko) Version/17.7 Mobile/15E148 Safari/604.1"
    (wh 430 932) 3.0%Q true true "iPhone" 8 8 5;
  Build_DeviceProfile
    "Mozilla/5.0 (iPhone; CPU iPhone OS 17_3 like Mac OS X) AppleWebKit/605.1.15 (KHTML, like Gecko) Version/17.3 Mobile/15E148 Safari/604.1"
    (wh 430 932) 3.0%Q true true "iPhone" 8 8 5;
  Build_DeviceProfile
    "Mozilla/5.0 (iPhone; CPU iPhone OS 17_2 like Mac OS X) AppleWebKit/605.1.15 (KHTML, like Gecko) Version/17.2 Mobile/15E148 Safari/604.1"
    (wh 393 852) 3.0%Q true true "iPhone" 8 6 5;
  Build_DeviceProfile
    "Mozilla/5.0 (iPhone; CPU iPhone OS 17_1 like Mac OS X) AppleWebKit/605.1.15 (KHTML, like Gecko) Version/17.1 Mobile/15E148 Safari/604.1"
    (wh 393 852) 3.0%Q true true "iPhone" 8 6 5;
  Build_DeviceProfile
    "Mozilla/5.0 (iPhone; CPU iPhone OS 17_0 like Mac OS X) AppleWebKit/605.1.15 (KHTML, like Gecko) Version/17.0 Mobile/15E148 Safari/604.1"
    (wh 428 926) 3.0%Q true true "iPhone" 6 6 5;
  Build_DeviceProfile
    "Mozilla/5.0 (iPhone; CPU iPhone OS 16_8 like Mac OS X) AppleWebKit/605.1.15 (KHTML, like Gecko) Version/16.7 Mobile/15E148 Safari/604.1"
    (wh 428 926) 3.0%Q true true "iPhone" 6 6 5;
  Build_DeviceProfile
    "Mozilla/5.0 (iPhone; CPU iPhone OS 16_5 like Mac OS X) AppleWebKit/605.1.15 (KHTML, like Gecko) Version/16.5 Mobile/15E148 Safari/604.1"
    (wh 430 932) 3.0%Q true true "iPhone" 6 6 5;
  Build_DeviceProfile
    "Mozilla/5.0 (iPhone; CPU iPhone OS 16_4 like Mac OS X) AppleWebKit/605.1.15 (KHTML, like Gecko) Version/16.4 Mobile/15E148 Safari/604.1"
    (wh 430 932) 3.0%Q true true "iPhone" 6 6 5;
  Build_DeviceProfile
    "Mozilla/5.0 (iPhone; CPU iPhone OS 15_8 like Mac OS X) AppleWebKit/605.1.15 (KHTML, like Gecko) Version/15.6 Mobile/15E148 Safari/604.1"
    (wh 390 844) 3.0%Q true true "iPhone" 6 4 5;
  Build_DeviceProfile
    "Mozilla/5.0 (iPhone; CPU iPhone OS 15_7 like Mac OS X) AppleWebKit/605.1.15 (KHTML, like Gecko) Version/15.6 Mobile/15E148 Safari/604.1"
    (wh 428 926) 3.0%Q true true "iPhone" 6 4 5;
  Build_DeviceProfile
    "Mozilla/5.0 (Linux; Android 14; SM-S928U) AppleWebKit/537.36 (KHTML, like Gecko) Chrome/131.0.0.0 Mobile Safari/537.36"
    (wh 412 915) 2.625%Q true true "Linux armv8l" 12 12 10;
  Build_DeviceProfile
    "Mozilla/5.0 (Linux; Android 14; SM-S928N) AppleWebKit/537.36 (KHTML, like Gecko) Chrome/130.0.0.0 Mobile Safari/537.36"
    (wh 412 915) 2.625%Q true true "Linux armv8l" 12 12 10;
  Build_DeviceProfile
    "Mozilla/5.0 (Linux; Android 14; SM-S926B) AppleWebKit/537.36 (KHTML, like Gecko) Chrome/129.0.0.0 Mobile Safari/537.36"
    (wh 384 854) 2.75%Q true true "Linux armv8l" 8 8 10;
  Build_DeviceProfile
    "Mozilla/5.0 (Linux; Android 14; SM-S926U) AppleWebKit/537.36 (KHTML, like Gecko) Chrome/128.0.0.0 Mobile Safari/537.36"
    (wh 384 854) 2.75%Q true true "Linux armv8l" 8 8 10;
  Build_DeviceProfile
    "Mozilla/5.0 (Linux; Android 13; SM-S711B) AppleWebKit/537.36 (KHTML, like Gecko) Chrome/127.0.0.0 Mobile Safari/537.36"
    (wh 360 780) 3.0%Q true true "Linux armv8l" 8 6 10;
  Build_DeviceProfile
    "Mozilla/5.0 (Linux; Android 13; SM-S711U) AppleWebKit/537.36 (KHTML, like Gecko) Chrome/126.0.0.0 Mobile Safari/537.36"
    (wh 360 780) 3.0%Q true true "Linux armv8l" 8 6 10;
  Build_DeviceProfile
    "Mozilla/5.0 (Linux; Android 14; CPH2573) AppleWebKit/537.36 (KHTML, like Gecko) Chrome/131.0.0.0 Mobile Safari/537.36"
    (wh 450 1000) 2.625%Q true true "Linux armv8l" 16 12 10;
  Build_DeviceProfile
    "Mozilla/5.0 (Linux; Android 14; PJD110) AppleWebKit/537.36 (KHTML, like Gecko) Chrome/130.0.0.0 Mobile Safari/537.36"
    (wh 450 1000) 2.625%Q true true "Linux armv8l" 16 12 10;
  Build_DeviceProfile
    "Mozilla/5.0 (Linux; Android 13; CPH2449) AppleWebKit/537.36 (KHTML, like Gecko) Chrome/129.0.0.0 Mobile Safari/537.36"
    (wh 412 915) 2.625%Q true true "Linux armv8l" 16 8 10;
  Build_DeviceProfile
    "Mozilla/5.0 (Linux; Android 13; PJC110) AppleWebKit/537.36 (KHTML, like Gecko) Chrome/128.0.0.0 Mobile Safari/537.36"
    (wh 412 915) 2.625%Q true true "Linux armv8l" 16 8 10;
  Build_DeviceProfile
    "Mozilla/5.0 (Linux; Android 14; 24031PN0DC) AppleWebKit/537.36 (KHTML, like Gecko) Chrome/127.0.0.0 Mobile Safari/537.36"
    (wh 412 915) 2.625%Q true true "Linux armv8l" 12 8 10;
  Build_DeviceProfile
    "Mozilla/5.0 (Linux; Android 14; 2401DPN0DC) AppleWebKit/537.36 (KHTML, like Gecko) Chrome/126.0.0.0 Mobile Safari/537.36"
    (wh 450 1000) 2.75%Q true true "Linux armv8l" 12 12 10;
  Build_DeviceProfile
    "Mozilla/5.0 (Linux; Android 14; Pixel 6 Pro) AppleWebKit/537.36 (KHTML, like Gecko) Chrome/125.0.0.0 Mobile Safari/537.36"
    (wh 412 892) 2.625%Q true true "Linux armv8l" 12 8 10;
  Build_DeviceProfile
    "Mozilla/5.0 (Linux; Android 13; Pixel 6a) AppleWebKit/537.36 (KHTML, like Gecko) Chrome/124.0.0.0 Mobile Safari/537.36"
    (wh 412 915) 2.625%Q true true "Linux armv8l" 6 6 10;
  Build_DeviceProfile
    "Mozilla/5.0 (Linux; Android 12; Pixel 6) AppleWebKit/537.36 (KHTML, like Gecko) Chrome/123.0.0.0 Mobile Safari/537.36"
    (wh 412 915) 2.625%Q true true "Linux armv8l" 8 8 10;
  Build_DeviceProfile
    "Mozilla/5.0 (Linux; Android 13; ALN-L29) AppleWebKit/537.36 (KHTML, like Gecko) Chrome/122.0.0.0 Mobile Safari/537.36"
    (wh 412 915) 2.625%Q true true "Linux armv8l" 8 8 10;
  Build_DeviceProfile
    "Mozilla/5.0 (Linux; Android 13; ALN-AL00) AppleWebKit/537.36 (KHTML, like Gecko) Chrome/121.0.0.0 Mobile Safari/537.36"
    (wh 450 1000) 2.75%Q true true "Linux armv8l" 8 8 10;
  Build_DeviceProfile
    "Mozilla/5.0 (Linux; Android 13; CPH2451) AppleWebKit/537.36 (KHTML, like Gecko) Chrome/120.0.0.0 Mobile Safari/537.36"
    (wh 412 915) 2.625%Q true true "Linux armv8l" 12 8 10;
  Build_DeviceProfile
    "Mozilla/5.0 (Linux; Android 13; PHB110) AppleWebKit/537.36 (KHTML, like Gecko) Chrome/119.0.0.0 Mobile Safari/537.36"
    (wh 450 1000) 2.75%Q true true "Linux armv8l" 16 12 10
].

Definition TABLET_PROFILES : list DeviceProfile := [
  Build_DeviceProfile
    "Mozilla/5.0 (iPad; CPU OS 17_6 like Mac OS X) AppleWebKit/605.1.15 (KHTML, like Gecko) Version/17.6 Mobile/15E148 Safari/604.1"
    (wh 1024 1366) 2.0%Q true true "MacIntel" 16 8 5;
  Build_DeviceProfile
    "Mozilla/5.0 (iPad; CPU OS 16_7 like Mac OS X) AppleWebKit/605.1.15 (KHTML, like Gecko) Version/16.6 Mobile/15E148 Safari/604.1"
    (wh 1024 1366) 2.0%Q true true "MacIntel" 16 8 5;
  Build_DeviceProfile
    "Mozilla/5.0 (iPad; CPU OS 17_6 like Mac OS X) AppleWebKit/605.1.15 (KHTML, like Gecko) Version/17.6 Mobile/15E148 Safari/604.1"
    (wh 834 1194) 2.0%Q true true "MacIntel" 8 8 5;
  Build_DeviceProfile
    "Mozilla/5.0 (iPad; CPU OS 16_7 like Mac OS X) AppleWebKit/605.1.15 (KHTML, like Gecko) Version/16.6 Mobile/15E148 Safari/604.1"
    (wh 834 1194) 2.0%Q true true "MacIntel" 8 8 5;
  Build_DeviceProfile
    "Mozilla/5.0 (Linux; Android 13; SM-X916C) AppleWebKit/537.36 (KHTML, like Gecko) Chrome/127.0.0.0 Safari/537.36"
    (wh 800 1280) 2.0%Q true true "Linux armv8l" 12 8 10;
  Build_DeviceProfile
    "Mozilla/5.0 (Linux; Android 13; SM-X906C) AppleWebKit/537.36 (KHTML, like Gecko) Chrome/127.0.0.0 Safari/537.36"
    (wh 800 1232) 2.0%Q true true "Linux armv8l" 8 8 10;
  Build_DeviceProfile
    "Mozilla/5.0 (iPad; CPU OS 17_5 like Mac OS X) AppleWebKit/605.1.15 (KHTML, like Gecko) Version/17.5 Mobile/15E148 Safari/604.1"
    (wh 820 1180) 2.0%Q true true "MacIntel" 10 8 5;
  Build_DeviceProfile
    "Mozilla/5.0 (iPad; CPU OS 17_4 like Mac OS X) AppleWebKit/605.1.15 (KHTML, like Gecko) Version/17.4 Mobile/15E148 Safari/604.1"
    (wh 820 1180) 2.0%Q true true "MacIntel" 10 8 5;
  Build_DeviceProfile
    "Mozilla/5.0 (iPad; CPU OS 17_3 like Mac OS X) AppleWebKit/605.1.15 (KHTML, like Gecko) Version/17.3 Mobile/15E148 Safari/604.1"
    (wh 744 1133) 2.0%Q true true "MacIntel" 6 4 5;
  Build_DeviceProfile
    "Mozilla/5.0 (iPad; CPU OS 17_2 like Mac OS X) AppleWebKit/605.1.15 (KHTML, like Gecko) Version/17.2 Mobile/15E148 Safari/604.1"
    (wh 744 1133) 2.0%Q true true "MacIntel" 6 4 5;
  Build_DeviceProfile
    "Mozilla/5.0 (iPad; CPU OS 16_6 like Mac OS X) AppleWebKit/605.1.15 (KHTML, like Gecko) Version/16.6 Mobile/15E148 Safari/604.1"
    (wh 820 1180) 2.0%Q true true "MacIntel" 6 4 5;
  Build_DeviceProfile
    "Mozilla/5.0 (iPad; CPU OS 16_5 like Mac OS X) AppleWebKit/605.1.15 (KHTML, like Gecko) Version/16.5 Mobile/15E148 Safari/604.1"
    (wh 820 1180) 2.0%Q true true "MacIntel" 6 4 5;
  Build_DeviceProfile
    "Mozilla/5.0 (Linux; Android 13; SM-X916B) AppleWebKit/537.36 (KHTML, like Gecko) Chrome/131.0.0.0 Safari/537.36"
    (wh 900 1440) 2.0%Q true true "Linux armv8l" 16 12 10;
  Build_DeviceProfile
    "Mozilla/5.0 (Linux; Android 13; SM-X916U) AppleWebKit/537.36 (KHTML, like Gecko) Chrome/130.0.0.0 Safari/537.36"
    (wh 900 1440) 2.0%Q true true "Linux armv8l" 16 12 10;
  Build_DeviceProfile
    "Mozilla/5.0 (Linux; Android 13; SM-X816B) AppleWebKit/537.36 (KHTML, like Gecko) Chrome/129.0.0.0 Safari/537.36"
    (wh 800 1280) 2.0%Q true true "Linux armv8l" 12 8 10;
  Build_DeviceProfile
    "Mozilla/5.0 (Linux; Android 13; SM-X816U) AppleWebKit/537.36 (KHTML, like Gecko) Chrome/128.0.0.0 Safari/537.36"
    (wh 800 1280) 2.0%Q true true "Linux armv8l" 12 8 10;
  Build_DeviceProfile
    "Mozilla/5.0 (Linux; Android 12; SM-X906B) AppleWebKit/537.36 (KHTML, like Gecko) Chrome/127.0.0.0 Safari/537.36"
    (wh 900 1440) 2.0%Q true true "Linux armv8l" 16 8 10;
  Build_DeviceProfile
    "Mozilla/5.0 (Linux; Android 12; SM-X806B) AppleWebKit/537.36 (KHTML, like Gecko) Chrome/126.0.0.0 Safari/537.36"
    (wh 800 1280) 2.0%Q true true "Linux armv8l" 8 6 10;
  Build_DeviceProfile
    "Mozilla/5.0 (Windows NT 10.0; Win64; x64; Touch) AppleWebKit/537.36 (KHTML, like Gecko) Chrome/131.0.0.0 Safari/537.36"
    (wh 912 1368) 1.5%Q true true "Win32" 16 16 10;
  Build_DeviceProfile
    "Mozilla/5.0 (Windows NT 10.0; Win64; x64; Touch) AppleWebKit/537.36 (KHTML, like Gecko) Chrome/130.0.0.0 Safari/537.36"
    (wh 912 1368) 1.5%Q true true "Win32" 32 32 10;
  Build_DeviceProfile
    "Mozilla/5.0 (Linux; Android 13; Pixel Tablet) AppleWebKit/537.36 (KHTML, like Gecko) Chrome/129.0.0.0 Safari/537.36"
    (wh 840 1344) 2.0%Q true true "Linux armv8l" 8 8 10;
  Build_DeviceProfile
    "Mozilla/5.0 (Linux; Android 14; Pixel Tablet) AppleWebKit/537.36 (KHTML, like Gecko) Chrome/128.0.0.0 Safari/537.36"
    (wh 840 1344) 2.0%Q true true "Linux armv8l" 8 8 10;
  Build_DeviceProfile
    "Mozilla/5.0 (Linux; Android 11; TB-Q706F) AppleWebKit/537.36 (KHTML, like Gecko) Chrome/127.0.0.0 Safari/537.36"
    (wh 800 1280) 2.0%Q true true "Linux armv8l" 8 6 10;
  Build_DeviceProfile
    "Mozilla/5.0 (Linux; Android 12; TB-Q706F) AppleWebKit/537.36 (KHTML, like Gecko) Chrome/126.0.0.0 Safari/537.36"
    (wh 800 1280) 2.0%Q true true "Linux armv8l" 8 8 10;
  Build_DeviceProfile
    "Mozilla/5.0 (Linux; Android 11; KFTRWI) AppleWebKit/537.36 (KHTML, like Gecko) Chrome/125.0.0.0 Safari/537.36"
    (wh 800 1280) 1.5%Q true true "Linux armv7l" 4 3 10;
  Build_DeviceProfile
    "Mozilla/5.0 (Linux; Android 11; KFMAWI) AppleWebKit/537.36 (KHTML, like Gecko) Chrome/124.0.0.0 Safari/537.36"
    (wh 600 1024) 1.5%Q true true "Linux armv7l" 2 2 10;
  Build_DeviceProfile
    "Mozilla/5.0 (Linux; Android 13; 23073RPBFG) AppleWebKit/537.36 (KHTML, like Gecko) Chrome/123.0.0.0 Safari/537.36"
    (wh 840 1344) 2.0%Q true true "Linux armv8l" 8 8 10;
  Build_DeviceProfile
    "Mozilla/5.0 (Linux; Android 13; 2306FPCA3G) AppleWebKit/537.36 (KHTML, like Gecko) Chrome/122.0.0.0 Safari/537.36"
    (wh 1000 1600) 2.0%Q true true "Linux armv8l" 12 12 10;
  Build_DeviceProfile
    "Mozilla/5.0 (Linux; Android 13; OPD2203) AppleWebKit/537.36 (KHTML, like Gecko) Chrome/121.0.0.0 Safari/537.36"
    (wh 800 1280) 2.0%Q true true "Linux armv8l" 12 8 10;
  Build_DeviceProfile
    "Mozilla/5.0 (Linux; Android 13; OP594DL) AppleWebKit/537.36 (KHTML, like Gecko) Chrome/120.0.0.0 Safari/537.36"
    (wh 800 1280) 2.0%Q true true "Linux armv8l" 12 8 10
].

Definition LOCALE_TZS : list (string * string) := [
  ("en-US", "America/New_York");
  ("en-US", "America/Los_Angeles");
  ("en-US", "America/Chicago");
  ("en-US", "America/Denver");
  ("en-GB", "Europe/London");
  ("de-DE", "Europe/Berlin");
  ("fr-FR", "Europe/Paris");
  ("es-ES", "Europe/Madrid");
  ("it-IT", "Europe/Rome");
  ("ja-JP", "Asia/Tokyo");
  ("zh-CN", "Asia/Shanghai");
  ("ko-KR", "Asia/Seoul");
  ("pt-BR", "America/Sao_Paulo");
  ("ru-RU", "Europe/Moscow");
  ("ar-SA", "Asia/Riyadh");
  ("hi-IN", "Asia/Kolkata");
  ("th-TH", "Asia/Bangkok");
  ("vi-VN", "Asia/Ho_Chi_Minh");
  ("tr-TR", "Europe/Istanbul");
  ("pl-PL", "Europe/Warsaw");
  ("nl-NL", "Europe/Amsterdam");
  ("sv-SE", "Europe/Stockholm");
  ("da-DK", "Europe/Copenhagen");
  ("no-NO", "Europe/Oslo");
  ("fi-FI", "Europe/Helsinki");
  ("cs-CZ", "Europe/Prague");
  ("hu-HU", "Europe/Budapest");
  ("el-GR", "Europe/Athens");
  ("he-IL", "Asia/Jerusalem");
  ("id-ID", "Asia/Jakarta");
  ("ms-MY", "Asia/Kuala_Lumpur");
  ("en-AU", "Australia/Sydney");
  ("en-CA", "America/Toronto");
  ("es-MX", "America/Mexico_City");
  ("en-ZA", "Africa/Johannesburg")
].


(** *** Randomness

    The generator of the [random] module is a source of numbers: the
    [n]-th number settles the [n]-th request made of it.  A computation
    that draws from it takes the source and gives it back, or raises. *)

Definition rng : Type := nat -> N.

Definition M (A : Type) : Type := rng -> result (A * rng).

#[global] Instance M_ret : MRet M := fun A a g => Ok (a, g).
#[global] Instance M_bind : MBind M :=
  fun A B f m g =>
    match m g with
    | Ok (a, g') => f a g'
    | Raise e => Raise e
    end.
#[global] Instance M_fmap : FMap M :=
  fun A B f m g =>
    match m g with
    | Ok (a, g') => Ok (f a, g')
    | Raise e => Raise e
    end.

(** A computation that draws nothing. *)
Definition lift {A} (r : result A) : M A :=
  fun g => match r with Ok a => Ok (a, g) | Raise e => Raise e end.

Definition draw : M N := fun g => Ok (g O, fun n => g (S n)).

(** [_randbelow(n)] for [n > 0]: any of [0 .. n-1]. *)
Definition randbelow (n : Z) : M Z := r ← draw; mret (Z.of_N r mod n).

(** [random.random()]: a multiple of [2^-53] in [[0, 1)]. *)
Definition random : M Q :=
  r ← draw; mret (Z.of_N (r mod 2 ^ 53) # 2 ^ 53).

(** [random.choice(seq)] *)
Definition choice {A} (seq : list A) : M A :=
  match seq with
  | [] => lift (Raise IndexError)
  | _ =>
      i ← randbelow (Z.of_nat (length seq));
      match seq !! Z.to_nat i with
      | Some x => mret x
      | None => lift (Raise IndexError)
      end
  end.

(** [itertools.accumulate(weights)] *)
Fixpoint accumulate (acc : Z) (weights : list Z) : list Z :=
  match weights with
  | [] => []
  | w :: ws => (acc + w) :: accumulate (acc + w) ws
  end.

(** [bisect(cum_weights, x, 0, hi)]: the insertion point to the right of
    [x] among the first [hi] cumulative weights; as these increase, it is
    the number of them that are at most [x]. *)
Fixpoint bisect (cum_weights : list Z) (x : Q) (hi : nat) : nat :=
  match hi, cum_weights with
  | S hi', c :: cs =>
      if Qle_bool (inject_Z c) x then S (bisect cs x hi') else O
  | _, _ => O
  end.

(** [random.choices(population, weights=weights, k=1)[0]] *)
Definition choices1 {A} (population : list A) (weights : list Z) : M A :=
  let n := length population in
  let cum_weights := accumulate 0 weights in
  if negb (length cum_weights =? n)%nat then lift (Raise ValueError)
  else
    match last cum_weights with
    | None => lift (Raise IndexError)
    | Some total =>
        if (total <=? 0)%Z then lift (Raise ValueError)
        else
          u ← random;
          match population !! bisect cum_weights (u * inject_Z total) (n - 1) with
          | Some x => mret x
          | None => lift (Raise IndexError)
          end
    end.

(** [random.uniform(a, b)] *)
Definition uniform (a b : Q) : M pyval :=
  u ← random; mret (VFloat (a + (b - a) * u)).

(** [random.randint(a, b)] *)
Definition randint (a b : Z) : M pyval :=
  if (b - a + 1 <=? 0)%Z then lift (Raise ValueError)
  else r ← randbelow (b - a + 1); mret (VInt (a + r)).

(** A dict display whose values are computed in order, and a list display
    likewise. *)
Fixpoint items_in_order (items : list (string * M pyval))
    : M (list (string * pyval)) :=
  match items with
  | [] => mret []
  | (k, m) :: rest =>
      v ← m; vs ← items_in_order rest; mret ((k, v) :: vs)
  end.

Definition dictM (items : list (string * M pyval)) : M pyval :=
  l ← items_in_order items; mret (VDict (dict_of l)).

Fixpoint values_in_order (values : list (M pyval)) : M (list pyval) :=
  match values with
  | [] => mret []
  | m :: rest => v ← m; vs ← values_in_order rest; mret (v :: vs)
  end.

Definition listM (values : list (M pyval)) : M pyval :=
  l ← values_in_order values; mret (VList l).

Definition const (v : pyval) : M pyval := mret v.

Definition generate_advanced_behavioral_patterns : M pyval :=
  dictM
    [("mouse_patterns", dictM
        [("velocity_curves", listM
            [dictM [("start", const (VInt 0)); ("peak", uniform 0.3 0.7);
                    ("end", const (VInt 0)); ("duration", randint 200 800)];
             dictM [("start", const (VInt 0)); ("peak", uniform 0.4 0.8);
                    ("end", const (VInt 0)); ("duration", randint 150 600)];
             dictM [("start", const (VInt 0)); ("peak", uniform 0.2 0.6);
                    ("end", const (VInt 0)); ("duration", randint 300 900)]]);
         ("acceleration_patterns", listM
            [dictM [("type", const (VStr "smooth")); ("jitter", uniform 0.1 0.3)];
             dictM [("type", const (VStr "natural")); ("jitter", uniform 0.2 0.5)];
             dictM [("type", const (VStr "precise")); ("jitter", uniform 0.05 0.2)]]);
         ("click_patterns", dictM
            [("single_click_duration", randint 80 150);
             ("double_click_interval", randint 100 300);
             ("pressure_variation", uniform 0.7 1.0)])]);
     ("keyboard_patterns", dictM
        [("typing_speed", randint 45 85);
         ("key_hold_times", dictM
            [("short", randint 60 120);
             ("medium", randint 120 200);
             ("long", randint 200 400)]);
         ("inter_key_intervals", dictM
            [("fast", randint 80 150);
             ("normal", randint 150 250);
             ("slow", randint 250 500)]);
         ("mistake_patterns", dictM
            [("backspace_probability", uniform 0.02 0.08);
             ("correction_delay", randint 100 400)])]);
     ("scroll_patterns", dictM
        [("scroll_speed", uniform 0.5 2.5);
         ("momentum_decay", uniform 0.85 0.95);
         ("pause_frequency", uniform 0.1 0.4);
         ("reverse_scroll_probability", uniform 0.05 0.15)]);
     ("focus_patterns", dictM
        [("tab_switch_frequency", uniform 0.1 0.6);
         ("window_focus_duration", randint 2000 15000);
         ("background_activity", VBool <$> choice [true; false])]);
     ("timing_patterns", dictM
        [("page_load_delay", randint 500 2000);
         ("element_interaction_delay", randint 100 800);
         ("form_fill_speed", uniform 0.8 2.5);
         ("reading_simulation", dictM
            [("words_per_minute", randint 180 280);
             ("pause_at_punctuation", VBool <$> choice [true; false])])])].

(** *** The profile *)

Definition random_profile : M (gmap string pyval) :=
  device_type ← choices1 ["desktop"; "mobile"; "tablet"] [70; 25; 5];
  device ←
    (if String.eqb device_type "desktop" then choice DESKTOP_PROFILES
     else if String.eqb device_type "mobile" then choice MOBILE_PROFILES
     else choice TABLET_PROFILES);
  '(locale, timezone) ← choice LOCALE_TZS;
  color_scheme ← choice ["light"; "dark"; "no-preference"];
  reduced_motion ← choice ["no-preference"; "reduce"];
  let headers := generate_realistic_headers locale (user_agent device) in
  canvas_fingerprint ← lift (generate_canvas_fingerprint (dict_of
    [("platform", VStr (platform device));
     ("device_memory", VInt (device_memory device));
     ("hardware_concurrency", VInt (hardware_concurrency device))]));
  webgl_fingerprint ← lift (generate_webgl_fingerprint (dict_of
    [("platform", VStr (platform device));
     ("device_memory", VInt (device_memory device));
     ("hardware_concurrency", VInt (hardware_concurrency device));
     ("is_mobile", VBool (is_mobile device))]));
  stealth_script ← lift (create_stealth_scripts (dict_of
    [("platform", VStr (platform device));
     ("device_memory", VInt (device_memory device));
     ("hardware_concurrency", VInt (hardware_concurrency device));
     ("max_touch_points", VInt (max_touch_points device));
     ("viewport", VDict (viewport device))]));
  tls_fingerprint ← lift (generate_tls_fingerprint (dict_of
    [("platform", VStr (platform device));
     ("user_agent", VStr (user_agent device))]));
  advanced_behavioral ← generate_advanced_behavioral_patterns;
  mret (dict_of
    [("user_agent", VStr (user_agent device));
     ("viewport", VDict (viewport device));
     ("device_scale_factor", VFloat (device_scale_factor device));
     ("is_mobile", VBool (is_mobile device));
     ("has_touch", VBool (has_touch device));
     ("platform", VStr (platform device));
     ("device_memory", VInt (device_memory device));
     ("hardware_concurrency", VInt (hardware_concurrency device));
     ("max_touch_points", VInt (max_touch_points device));
     ("locale", VStr locale);
     ("timezone", VStr timezone);
     ("timezone_id", VStr timezone);
     ("color_scheme", VStr color_scheme);
     ("reduced_motion", VStr reduced_motion);
     ("headers", VDict headers);
     ("canvas_fingerprint", VStr canvas_fingerprint);
     ("webgl_fingerprint", VDict webgl_fingerprint);
     ("stealth_script", VStr stealth_script);
     ("tls_fingerprint", VDict tls_fingerprint);
     ("advanced_behavioral", advanced_behavioral);
     ("modern_evasion", VStr generate_modern_detection_evasion)]).

End Fingerprints.

(** ** main.py: start-up and the runner loop *)

Module Main.
Import Py.

(** [StepResult]: one line of the log of a pass. *)
Record StepResult := {
  res_step : text;
  res_status : text;
  res_detail : text
}.

(** [InstanceState]: the counters and labels of one runner. *)
Record InstanceState := {
  id : Z;
  runs : Z;
  successes : Z;
  failures : Z;
  current_step : text;
  last_url : text;
  last_detail : text;
  status : text;
  started_at : Q;
  last_duration : Q
}.

(** [InstanceState(id=i)]: the dataclass defaults; [now] is the value of
    [time.time()] read by the default factory. *)
Definition new_state (i : Z) (now : Q) : InstanceState :=
  {| id := i; runs := 0; successes := 0; failures := 0;
     current_step := lit "idle"; last_url := []; last_detail := [];
     status := lit "idle"; started_at := now; last_duration := 0 |}.

(** Attribute assignments. *)
Definition set_status (v : text) (s : InstanceState) : InstanceState :=
  {| id := id s; runs := runs s; successes := successes s;
     failures := failures s; current_step := current_step s;
     last_url := last_url s; last_detail := last_detail s; status := v;
     started_at := started_at s; last_duration := last_duration s |}.

Definition set_current_step (v : text) (s : InstanceState) : InstanceState :=
  {| id := id s; runs := runs s; successes := successes s;
     failures := failures s; current_step := v;
     last_url := last_url s; last_detail := last_detail s;
     status := status s;
     started_at := started_at s; last_duration := last_duration s |}.

Definition set_last_url (v : text) (s : InstanceState) : InstanceState :=
  {| id := id s; runs := runs s; successes := successes s;
     failures := failures s; current_step := current_step s;
     last_url := v; last_detail := last_detail s; status := status s;
     started_at := started_at s; last_duration := last_duration s |}.

Definition set_last_detail (v : text) (s : InstanceState) : InstanceState :=
  {| id := id s; runs := runs s; successes := successes s;
     failures := failures s; current_step := current_step s;
     last_url := last_url s; last_detail := v; status := status s;
     started_at := started_at s; last_duration := last_duration s |}.

Definition set_started_at (v : Q) (s : InstanceState) : InstanceState :=
  {| id := id s; runs := runs s; successes := successes s;
     failures := failures s; current_step := current_step s;
     last_url := last_url s; last_detail := last_detail s;
     status := status s;
     started_at := v; last_duration := last_duration s |}.

Definition set_runs (v : Z) (s : InstanceState) : InstanceState :=
  {| id := id s; runs := v; successes := successes s;
     failures := failures s; current_step := current_step s;
     last_url := last_url s; last_detail := last_detail s;
     status := status s;
     started_at := started_at s; last_duration := last_duration s |}.

Definition set_successes (v : Z) (s : InstanceState) : InstanceState :=
  {| id := id s; runs := runs s; successes := v;
     failures := failures s; current_step := current_step s;
     last_url := last_url s; last_detail := last_detail s;
     status := status s;
     started_at := started_at s; last_duration := last_duration s |}.

Definition set_failures (v : Z) (s : InstanceState) : InstanceState :=
  {| id := id s; runs := runs s; successes := successes s;
     failures := v; current_step := current_step s;
     last_url := last_url s; last_detail := last_detail s;
     status := status s;
     started_at := started_at s; last_duration := last_duration s |}.

(** *** The runner task

    [runner_task] suspends at three awaits: the staggered first sleep, the
    call of [run_once], and the sleep that ends a pass. *)
Inductive point :=
| Stagger (delay : Q)   (* await asyncio.sleep(state.id * 0.5) *)
| InPass                (* await run_once(url, state.id, browser, state) *)
| Pause (delay : Q)     (* await asyncio.sleep(1) or asyncio.sleep(2.0) *)
| Stopped.              (* the coroutine has been left *)

(** What an await delivers.  [Raised] is an instance of [Exception];
    [Thrown] is a [BaseException] outside [Exception], which is how the
    cancellation of a task arrives ([asyncio.CancelledError]).  A sleep
    either completes or is cancelled.  [run_once] assigns
    [state.current_step] while it runs and no other field. *)
Inductive event :=
| Woke (pick : N) (now : Q)  (* the sleep is over; the draw of
                                random.choice and the clock at loop head *)
| Progress (step : text)     (* run_once: state.current_step = step *)
| Returned (results : list StepResult)
| Raised (msg : text)        (* str(e) = msg *)
| Thrown.

Record Runner := { state : InstanceState; at_ : point }.

(** [pick_url()]: [random.choice(urls_list)], which raises [IndexError] on
    an empty list. *)
Definition pick_url (urls_list : list text) (pick : N) : option text :=
  urls_list !! N.to_nat (pick mod N.of_nat (length urls_list)).

(** From [while True:] to the await of [run_once]. *)
Definition loop_head (urls_list : list text) (pick : N) (now : Q)
    (s : InstanceState) : Runner :=
  let s := set_status (lit "running") s in
  let s := set_current_step (lit "pick url") s in
  match pick_url urls_list pick with
  | Some url =>
      let s := set_last_url url s in
      let s := set_started_at now s in
      {| state := s; at_ := InPass |}
  | None => {| state := s; at_ := Stopped |}
  end.

(** [results[-1].detail if results else ""] *)
Definition last_detail_of (results : list StepResult) : text :=
  match last results with
  | Some r => res_detail r
  | None => []
  end.

(** The [try] branch after [run_once] has returned. *)
Definition on_return (results : list StepResult) (total_done : Z)
    (s : InstanceState) : Runner * Z :=
  let s := set_runs (runs s + 1) s in
  let s := set_successes (successes s + 1) s in
  let total_done := total_done + 1 in
  let s := set_last_detail (last_detail_of results) s in
  let s := set_status (lit "idle") s in
  let s := set_current_step (lit "sleep 1s") s in
  ({| state := s; at_ := Pause 1 |}, total_done).

(** The [except Exception as e] branch. *)
Definition on_exception (msg : text) (s : InstanceState) : Runner :=
  let s := set_runs (runs s + 1) s in
  let s := set_failures (failures s + 1) s in
  let s := set_status (lit "error/restarting") s in
  let s := set_last_detail (slice_to 100 msg) s in
  let s := set_current_step (lit "error recovery") s in
  {| state := s; at_ := Pause 2 |}.

(** One atomic step of [runner_task]: the code between the await where
    the runner is suspended and the next one.  [None]: the event cannot
    arrive at this point.  [total_done] is the counter shared by all
    runners. *)
Definition runner_step (urls_list : list text) (total_done : Z)
    (r : Runner) (ev : event) : option (Runner * Z) :=
  match at_ r, ev with
  | Stagger _, Woke pick now
  | Pause _, Woke pick now =>
      Some (loop_head urls_list pick now (state r), total_done)
  | InPass, Progress step =>
      Some ({| state := set_current_step step (state r); at_ := InPass |},
            total_done)
  | InPass, Returned results => Some (on_return results total_done (state r))
  | InPass, Raised msg => Some (on_exception msg (state r), total_done)
  | Stagger _, Thrown
  | Pause _, Thrown
  | InPass, Thrown => Some ({| state := state r; at_ := Stopped |}, total_done)
  | _, _ => None
  end.

(** [runner_task(state)] up to its first await. *)
Definition runner_task (s : InstanceState) : Runner :=
  {| state := s; at_ := Stagger (inject_Z (id s) * (1 # 2)) |}.

(** *** The process once the runners are started *)

Record Proc := {
  urls_list : list text;
  runners : list Runner;
  total_done : Z
}.

(** Runner [i] takes a step. *)
Definition proc_step (p : Proc) (i : nat) (ev : event) : option Proc :=
  match runners p !! i with
  | Some r =>
      match runner_step (urls_list p) (total_done p) r ev with
      | Some (r', total) =>
          Some {| urls_list := urls_list p;
                  runners := <[i := r']> (runners p);
                  total_done := total |}
      | None => None
      end
  | None => None
  end.

(** A schedule: which runner receives which event, in order. *)
Fixpoint proc_run (p : Proc) (sched : list (nat * event)) : option Proc :=
  match sched with
  | [] => Some p
  | (i, ev) :: sched' =>
      match proc_step p i ev with
      | Some p' => proc_run p' sched'
      | None => None
      end
  end.

(** A runner fed a sequence of events. *)
Fixpoint runner_run (urls_list : list text) (total_done : Z) (r : Runner)
    (evs : list event) : option (Runner * Z) :=
  match evs with
  | [] => Some (r, total_done)
  | ev :: evs' =>
      match runner_step urls_list total_done r ev with
      | Some (r', total) => runner_run urls_list total r' evs'
      | None => None
      end
  end.

(** *** Start-up: [main()] up to the dashboard loop *)

(** What a call into the outside world gives back: a value, an
    [Exception] with its message, or a [KeyboardInterrupt]. *)
Inductive outcome (A : Type) :=
| Value (a : A)
| Failed (msg : text)
| Interrupted.
Arguments Value {A} a.
Arguments Failed {A} msg.
Arguments Interrupted {A}.

Record World := {
  read_text : outcome text;     (* Path("urls.txt").read_text(...) *)
  console_input : outcome text; (* console.input(...) *)
  playwright : outcome unit;    (* entering async_playwright() *)
  launch : outcome unit;        (* p.chromium.launch(...) *)
  relaunch : outcome unit;      (* the launch after the install *)
  time : nat -> Q               (* the successive values of time.time() *)
}.

Inductive output :=
| Print (s : text)
| Ask (prompt : text)
| LaunchBrowser
| InstallBrowsers.

(** How [main()] goes on: [sys.exit(code)], an exception that nothing
    catches (the interpreter prints the traceback and exits with 1), a
    [KeyboardInterrupt] (swallowed by the guard around [asyncio.run]), or
    the dashboard loop over the started runners. *)
Inductive ending :=
| Exit (code : Z)
| Uncaught (msg : text)
| KeyboardInterrupt
| Serving (p : Proc).

Definition exit_code (e : ending) : option Z :=
  match e with
  | Exit code => Some code
  | Uncaught _ => Some 1
  | KeyboardInterrupt => Some 0
  | Serving _ => None
  end.

(** [[ln.strip() for ln in text.splitlines() if ln.strip()]] *)
Definition read_urls (content : text) : list text :=
  map strip (List.filter (fun ln => nonempty (strip ln)) (splitlines content)).

Section Startup.

(** The interpreter's [int] on a [str]; [None] is [ValueError]. *)
Variable int_of_str : text -> option Z.

(** The value [INSTANCES] has after the prompt; [None] when the prompt
    was interrupted. *)
Definition ask_instances (answer : outcome text) : option Z :=
  match answer with
  | Value user_in =>
      match int_of_str (strip user_in) with
      | Some n => if (n <? 1) || (n >? 50) then Some 1 else Some n
      | None => Some 1
      end
  | Failed _ => Some 1
  | Interrupted => None
  end.

(** [[InstanceState(id=i+1) for i in range(INSTANCES)]] *)
Definition make_states (w : World) (instances : Z) : list InstanceState :=
  map (fun i => new_state (Z.of_nat i + 1) (time w i))
      (seq 0 (Z.to_nat instances)).

(** The launch of the shared browser, with its one retry. *)
Definition start_browser (w : World) : list output * option ending :=
  match playwright w with
  | Failed msg => ([], Some (Uncaught msg))
  | Interrupted => ([], Some KeyboardInterrupt)
  | Value _ =>
      let out := [Print (lit "[yellow]Launching browser...[/yellow]");
                  LaunchBrowser] in
      match launch w with
      | Value _ =>
          (out ++ [Print (lit "[green]Browser launched successfully![/green]")],
           None)
      | Interrupted => (out, Some KeyboardInterrupt)
      | Failed _ =>
          let out :=
            out ++ [Print (lit "[yellow]Installing Playwright browsers...[/yellow]");
                    InstallBrowsers; LaunchBrowser] in
          match relaunch w with
          | Value _ => (out, None)
          | Failed msg => (out, Some (Uncaught msg))
          | Interrupted => (out, Some KeyboardInterrupt)
          end
      end
  end.

Definition main (w : World) : list output * ending :=
  match read_text w with
  | Failed e =>
      ([Print (lit "[bold red]Failed to read URL file:[/bold red] " ++ e)],
       Exit 1)
  | Interrupted => ([], KeyboardInterrupt)
  | Value content =>
      let urls := read_urls content in
      if negb (nonempty urls) then
        ([Print (lit "[bold red]No URLs found in the file[/bold red]")],
         Exit 1)
      else
        let ask :=
          [Ask (lit "[bold cyan]How many instances to run (1-50)? [/bold cyan]")] in
        match ask_instances (console_input w) with
        | None => (ask, KeyboardInterrupt)
        | Some instances =>
            let states := make_states w instances in
            match start_browser w with
            | (out, Some e) => (ask ++ out, e)
            | (out, None) =>
                (ask ++ out,
                 Serving {| urls_list := urls;
                            runners := map runner_task states;
                            total_done := 0 |})
            end
        end
  end.

End Startup.

End Main.

(** ** main.py: the dashboard and the stand-alone URL reader *)

Module Dashboard.
Import Py Main.

(** [str(n)] for an [int]. *)
Definition str_of_int (n : Z) : text := lit (pretty n).

(** A column as [Table.add_column] receives it. *)
Record Column := {
  header : text;
  style : text;
  no_wrap : bool
}.

(** What is put into a [rich.table.Table]. *)
Record Table := {
  title : text;
  header_style : text;
  columns : list Column;
  rows : list (list text)
}.

(** [s.last_url[:40] + ("…" if len(s.last_url) > 40 else "")] *)
Definition short_url (url : text) : text :=
  slice_to 40 url ++ (if (40 <? length url)%nat then [8230%N] else []).

(** The row of one instance. *)
Definition instance_row (s : InstanceState) : list text :=
  [str_of_int (id s); status s; current_step s; str_of_int (runs s);
   str_of_int (successes s); str_of_int (failures s); short_url (last_url s);
   last_detail s].

(** [sum(f(s) for s in states)] *)
Definition total (f : InstanceState -> Z) (states : list InstanceState) : Z :=
  fold_right Z.add 0 (map f states).

(** [sum(1 for s in states if s.status == 'running')] *)
Definition ongoing (states : list InstanceState) : Z :=
  total (fun s => if bool_decide (status s = lit "running") then 1 else 0)
        states.

Definition totals_row (states : list InstanceState) : list text :=
  [lit "Totals"; []; []; str_of_int (total runs states);
   str_of_int (total successes states); str_of_int (total failures states);
   lit "Ongoing: " ++ str_of_int (ongoing states); []].

Definition make_dashboard (states : list InstanceState) : Table :=
  {| title := lit "Human-like Blog Reader Dashboard";
     header_style := lit "bold magenta";
     columns :=
       [{| header := lit "Inst"; style := lit "cyan"; no_wrap := true |};
        {| header := lit "Status"; style := lit "white"; no_wrap := false |};
        {| header := lit "Current Step"; style := lit "yellow"; no_wrap := false |};
        {| header := lit "Runs"; style := lit "white"; no_wrap := false |};
        {| header := lit "OK"; style := lit "green"; no_wrap := false |};
        {| header := lit "Fail"; style := lit "red"; no_wrap := false |};
        {| header := lit "Last URL"; style := lit "bright_blue"; no_wrap := false |};
        {| header := lit "Last Detail"; style := lit "white"; no_wrap := false |}];
     rows := map instance_row states ++ [totals_row states] |}.

(** The dashboard of a process: the states of its runners. *)
Definition dashboard_of (p : Proc) : Table :=
  make_dashboard (map state (runners p)).

End Dashboard.

Module UrlReader.
Import Py Main.

(** How [read_random_url] ends when it does not return. *)
Inductive error :=
| FileNotFoundError (msg : text)
| ValueError (msg : text)
| OtherError (msg : text)      (* raised by [read_text] *)
| Interrupt.

(** [read_random_url(file_path)]: [present] is [p.exists()], [content]
    what [p.read_text(...)] gives, [pick] the draw of [random.choice]. *)
Definition read_random_url (file_path : text) (present : bool)
    (content : outcome text) (pick : N) : text + error :=
  if negb present then
    inr (FileNotFoundError (lit "Input file not found: " ++ file_path))
  else
    match content with
    | Failed msg => inr (OtherError msg)
    | Interrupted => inr Interrupt
    | Value content =>
        let lines := read_urls content in
        if negb (nonempty lines) then
          inr (ValueError (lit "No URLs found in the file"))
        else
          match pick_url lines pick with
          | Some url => inl url
          | None => inr (OtherError (lit "Cannot choose from an empty sequence"))
          end
    end.

End UrlReader.

(** * Properties: the predicates of the statements and sample inputs *)

Module RunnerProps.
Import Py Main.

(** What the status is at each await of [runner_task]. *)
Definition coherent (r : Runner) : Prop :=
  match at_ r with
  | Stagger _ => status (state r) = lit "idle"
  | InPass => status (state r) = lit "running"
  | Pause d =>
      (d = 1%Q /\ status (state r) = lit "idle") \/
      (d = 2%Q /\ status (state r) = lit "error/restarting")
  | Stopped => True
  end.

Definition known_status (s : InstanceState) : Prop :=
  status s = lit "idle" \/ status s = lit "running" \/
  status s = lit "error/restarting".

Definition balanced (r : Runner) : Prop :=
  runs (state r) = successes (state r) + failures (state r).

(** What one step does to the three counters. *)
Definition counts (s : InstanceState) : Z * Z * Z :=
  (runs s, successes s, failures s).

(** [k] passes in a row in which [run_once] raises: the exception of pass
    [j], then the end of the sleep with the draw and the clock of the
    next loop head. *)
Fixpoint failing_passes (msg : nat -> text) (pick : nat -> N)
    (now : nat -> Q) (k : nat) : list event :=
  match k with
  | O => []
  | S k' =>
      failing_passes msg pick now k' ++ [Raised (msg k'); Woke (pick k') (now k')]
  end.

(** ** Sample inputs *)

Definition sample_urls : list text := [lit "https://example.org/a"].

Definition sample_runner : Runner :=
  loop_head sample_urls 0 0 (new_state 1 0).

(** A world in which everything outside works: the URL file has the
    given content and the prompt is answered with [answer]. *)
Definition world_of (content answer : text) : World :=
  {| read_text := Value content; console_input := Value answer;
     playwright := Value tt; launch := Value tt; relaunch := Value tt;
     time := fun n => inject_Z (Z.of_nat n) |}.

Definition one_url : text := lit "https://example.org/post
".

Definition two_passes : list (nat * event) :=
  [(0, Woke 0 1); (1, Woke 0 1); (0, Returned []);
   (1, Raised (lit "boom")); (1, Woke 0 4); (1, Progress (lit "navigate"))]%nat.

(** [urls.txt] does not exist. *)
Definition world_without_file : World :=
  {| read_text := Failed (lit "[Errno 2] No such file or directory: 'urls.txt'");
     console_input := Value (lit "3");
     playwright := Value tt; launch := Value tt; relaunch := Value tt;
     time := fun n => inject_Z (Z.of_nat n) |}.

End RunnerProps.

Module ProfileProps.
Import Fingerprints.
#[local] Open Scope string_scope.

(** [g'] is the source [g] after some numbers have been drawn. *)
Definition advanced (g g' : rng) : Prop :=
  exists n, forall k, g' k = g (n + k)%nat.

(** [m] returns, whatever the random source gives, a value that
    satisfies [P], and hands the source back advanced: it does not
    raise, and drawing is all it does to the source. *)
Definition returns {A} (m : M A) (P : A -> Prop) : Prop :=
  forall g, exists a g', m g = Ok (a, g') /\ advanced g g' /\ P a.

Definition all_devices : list DeviceProfile :=
  (DESKTOP_PROFILES ++ MOBILE_PROFILES ++ TABLET_PROFILES)%list.

(** The canvas fingerprint of a platform, a memory size and a number of
    cores. *)
Definition canvas_of (p : string) (m c : Z) : string :=
  MD5.hexdigest (p ++ "_" ++ pretty m ++ "_" ++ pretty c).

(** The argument [random_profile] passes to
    [generate_webgl_fingerprint]. *)
Definition webgl_arg (p : string) (m c : Z) (mobile : bool)
    : gmap string pyval :=
  dict_of [("platform", VStr p); ("device_memory", VInt m);
           ("hardware_concurrency", VInt c); ("is_mobile", VBool mobile)].

(** A profile made from the table entry [device] and the pair
    [(locale, timezone)]. *)
Definition profile_from (device : DeviceProfile) (locale timezone : string)
    (profile : gmap string pyval) : Prop :=
  exists color_scheme reduced_motion vendor renderer stealth_script
         tls_fingerprint advanced_behavioral,
    generate_webgl_fingerprint
      (webgl_arg (platform device) (device_memory device)
                 (hardware_concurrency device) (is_mobile device))
      = Ok (webgl1 (VStr vendor) (VStr renderer)) /\
    profile = dict_of
      [("user_agent", VStr (user_agent device));
       ("viewport", VDict (viewport device));
       ("device_scale_factor", VFloat (device_scale_factor device));
       ("is_mobile", VBool (is_mobile device));
       ("has_touch", VBool (has_touch device));
       ("platform", VStr (platform device));
       ("device_memory", VInt (device_memory device));
       ("hardware_concurrency", VInt (hardware_concurrency device));
       ("max_touch_points", VInt (max_touch_points device));
       ("locale", VStr locale);
       ("timezone", VStr timezone);
       ("timezone_id", VStr timezone);
       ("color_scheme", VStr color_scheme);
       ("reduced_motion", VStr reduced_motion);
       ("headers", VDict (generate_realistic_headers locale (user_agent device)));
       ("canvas_fingerprint",
        VStr (canvas_of (platform device) (device_memory device)
                        (hardware_concurrency device)));
       ("webgl_fingerprint", VDict (webgl1 (VStr vendor) (VStr renderer)));
       ("stealth_script", VStr stealth_script);
       ("tls_fingerprint", VDict tls_fingerprint);
       ("advanced_behavioral", advanced_behavioral);
       ("modern_evasion", VStr generate_modern_detection_evasion)].

(** The keys of a profile. *)
Definition profile_keys : list string :=
  ["user_agent"; "viewport"; "device_scale_factor"; "is_mobile"; "has_touch";
   "platform"; "device_memory"; "hardware_concurrency"; "max_touch_points";
   "locale"; "timezone"; "timezone_id"; "color_scheme"; "reduced_motion";
   "headers"; "canvas_fingerprint"; "webgl_fingerprint"; "stealth_script";
   "tls_fingerprint"; "advanced_behavioral"; "modern_evasion"].

(** ** Sample inputs *)

(** A source of zeros picks the first desktop entry; with a 15 as its
    second number the source picks the sixteenth, an Edge on the same
    hardware. *)
Definition zeros : rng := fun _ => 0%N.

Definition zeros_but_15 : rng :=
  fun n => match n with 1%nat => 15%N | _ => 0%N end.

(** The value [m] returns on the source [g]. *)
Definition value_of {A} (m : M A) (g : rng) : option A :=
  match m g with
  | Ok (a, _) => Some a
  | Raise _ => None
  end.

(** An entry of the profile made from the source [g]. *)
Definition entry (g : rng) (key : string) : option pyval :=
  match random_profile g with
  | Ok (profile, _) => profile !! key
  | Raise _ => None
  end.

End ProfileProps.

(** * Further predicates of the statements *)

Module ExtraProps.
Import Py Main.

(** The passes that returned and the passes that raised in a sequence of
    events. *)
Definition returned (evs : list event) : Z :=
  fold_right Z.add 0
    (map (fun ev => match ev with Returned _ => 1 | _ => 0 end) evs).

Definition raised (evs : list event) : Z :=
  fold_right Z.add 0
    (map (fun ev => match ev with Raised _ => 1 | _ => 0 end) evs).

(** The events of a schedule that go to runner [i]. *)
Definition events_of (i : nat) (sched : list (nat * event)) : list event :=
  map snd (List.filter (fun ie => Nat.eqb (fst ie) i) sched).

(** How often an output occurs in a trace. *)
Definition launches (out : list output) : nat :=
  length (List.filter (fun o => match o with LaunchBrowser => true | _ => false end) out).

(** A text without whitespace at either end and without a line boundary
    inside. *)
Definition clean (s : text) : Prop :=
  s <> [] /\
  (forall c, hd_error s = Some c -> isspace c = false) /\
  (forall c, last s = Some c -> isspace c = false) /\
  Forall (fun c => is_linebreak c = false) s.

(** The runners that are inside a pass. *)
Definition in_pass (rs : list Runner) : Z :=
  fold_right Z.add 0
    (map (fun r => match at_ r with InPass => 1 | _ => 0 end) rs).

(** The question [main] asks. *)
Definition the_prompt : output :=
  Ask (lit "[bold cyan]How many instances to run (1-50)? [/bold cyan]").

(** [last_url] is empty or one of the URLs, and it is one of them while
    [run_once] is awaited. *)
Definition url_known (urls : list text) (r : Runner) : Prop :=
  (last_url (state r) = [] \/ In (last_url (state r)) urls) /\
  (at_ r = InPass -> In (last_url (state r)) urls).

End ExtraProps.

Module MoreProfileProps.
Import Fingerprints ProfileProps.
#[local] Open Scope string_scope.

(** A digit of lower-case hexadecimal. *)
Definition is_hex (a : ascii) : bool :=
  let n := N_of_ascii a in
  (((48 <=? n) && (n <=? 57)) || ((97 <=? n) && (n <=? 102)))%N.

(** The seven graphics cards [generate_webgl_fingerprint] knows. *)
Definition mobile_gpus : list (string * string) :=
  [("Apple Inc.", "Apple GPU"); ("Qualcomm", "Adreno (TM) 640")].

Definition desktop_gpus : list (string * string) :=
  [("Intel Inc.", "Intel(R) Iris(TM) Plus Graphics");
   ("Mesa", "Mesa DRI Intel(R) UHD Graphics");
   ("NVIDIA Corporation", "NVIDIA GeForce RTX 3060");
   ("Intel", "Intel(R) UHD Graphics 630");
   ("AMD", "AMD Radeon RX 580")].

(** The arguments [random_profile] passes to [create_stealth_scripts] and
    to [generate_tls_fingerprint]. *)
Definition stealth_arg (device : DeviceProfile) : gmap string pyval :=
  dict_of
    [("platform", VStr (platform device));
     ("device_memory", VInt (device_memory device));
     ("hardware_concurrency", VInt (hardware_concurrency device));
     ("max_touch_points", VInt (max_touch_points device));
     ("viewport", VDict (viewport device))].

Definition tls_arg (device : DeviceProfile) : gmap string pyval :=
  dict_of [("platform", VStr (platform device));
           ("user_agent", VStr (user_agent device))].

(** The script with its six holes filled. *)
Definition script_with (canvas vendor renderer version shading noise : string)
    : string :=
  stealth_js_0 ++ canvas ++ stealth_js_1 ++ vendor ++ stealth_js_2
  ++ renderer ++ stealth_js_3 ++ version ++ stealth_js_4 ++ shading
  ++ stealth_js_5 ++ noise ++ stealth_js_6.

(** What every entry of the three tables satisfies. *)
Definition consistent (d : DeviceProfile) : bool :=
  Bool.eqb (has_touch d) (is_mobile d)
  && Bool.eqb (max_touch_points d =? 0)%Z (negb (is_mobile d))
  && (2 <=? device_memory d)%Z && (2 <=? hardware_concurrency d)%Z
  && (0 <=? max_touch_points d)%Z && (max_touch_points d <=? 10)%Z
  && Qle_bool 1 (device_scale_factor d)
  && match viewport d !! "width", viewport d !! "height" with
     | Some (VInt w), Some (VInt h) =>
         (0 <? w)%Z && (0 <? h)%Z && (size (viewport d) =? 2)%nat
     | _, _ => false
     end
  && (if contains "Win32" (platform d) then contains "Windows" (user_agent d)
      else if contains "iPhone" (platform d) then contains "iPhone" (user_agent d)
      else if contains "Mac" (platform d) then contains "Mac OS X" (user_agent d)
      else contains "Linux" (platform d) && contains "Linux" (user_agent d)).

(** The system a platform string stands for in the client hints. *)
Definition system_of_platform (p : string) : string :=
  if contains "Win32" p then "Windows"
  else if contains "Mac" p then "macOS"
  else "Linux".

(** For the entries whose user agent gets client hints, the system the
    headers name after the user agent is that of the platform; and the
    language of a locale is its first two letters. *)
Definition hint_agrees (d : DeviceProfile) : bool :=
  implb (contains "Chrome" (user_agent d) && negb (contains "Edg" (user_agent d)))
        (String.eqb
           (if contains "Windows" (user_agent d) then "Windows"
            else if contains "Mac" (user_agent d) then "macOS"
            else "Linux")
           (system_of_platform (platform d))).

Definition two_letters (lt : string * string) : bool :=
  String.eqb (before "-" (fst lt)) (substring 0 2 (fst lt)).

(** A source whose first three numbers are [r], [i] and [j]. *)
Definition source (r : N) (i j : nat) : rng :=
  fun n => match n with
           | O => r
           | 1%nat => N.of_nat i
           | 2%nat => N.of_nat j
           | _ => 0%N
           end.

(** The number whose draw gives each device type: the fractions 0, 3/4
    and 31/32 of [2^53]. *)
Definition desktop_draw : N := 0.
Definition mobile_draw : N := 3 * 2 ^ 51.
Definition tablet_draw : N := 31 * 2 ^ 48.

(** ** Ranges of values *)

Inductive range : Type :=
| RInt (a b : Z)
| RFloat
| RBool
| RIs (v : pyval)
| RDict (items : list (string * range))
| RList (elements : list range).

(** [fits r v]: the value [v] has the shape [r], each integer of it
    lying between the bounds of [r] at its place. *)
Inductive fits : range -> pyval -> Prop :=
| fits_int (a b z : Z) : (a <= z <= b)%Z -> fits (RInt a b) (VInt z)
| fits_float (q : Q) : fits RFloat (VFloat q)
| fits_bool (b : bool) : fits RBool (VBool b)
| fits_is (v : pyval) : fits (RIs v) v
| fits_dict (items : list (string * range)) (values : list (string * pyval)) :
    Forall2 (fun kr kv => fst kr = fst kv /\ fits (snd kr) (snd kv))
            items values ->
    fits (RDict items) (VDict (dict_of values))
| fits_list (elements : list range) (values : list pyval) :
    Forall2 fits elements values -> fits (RList elements) (VList values).

(** The shape of the display of [generate_advanced_behavioral_patterns]
    and the bounds of its integers. *)
Definition behavioral_ranges : range :=
  RDict
    [("mouse_patterns", RDict
        [("velocity_curves", RList
            [RDict [("start", RIs (VInt 0)); ("peak", RFloat);
                    ("end", RIs (VInt 0)); ("duration", RInt 200 800)];
             RDict [("start", RIs (VInt 0)); ("peak", RFloat);
                    ("end", RIs (VInt 0)); ("duration", RInt 150 600)];
             RDict [("start", RIs (VInt 0)); ("peak", RFloat);
                    ("end", RIs (VInt 0)); ("duration", RInt 300 900)]]);
         ("acceleration_patterns", RList
            [RDict [("type", RIs (VStr "smooth")); ("jitter", RFloat)];
             RDict [("type", RIs (VStr "natural")); ("jitter", RFloat)];
             RDict [("type", RIs (VStr "precise")); ("jitter", RFloat)]]);
         ("click_patterns", RDict
            [("single_click_duration", RInt 80 150);
             ("double_click_interval", RInt 100 300);
             ("pressure_variation", RFloat)])]);
     ("keyboard_patterns", RDict
        [("typing_speed", RInt 45 85);
         ("key_hold_times", RDict
            [("short", RInt 60 120);
             ("medium", RInt 120 200);
             ("long", RInt 200 400)]);
         ("inter_key_intervals", RDict
            [("fast", RInt 80 150);
             ("normal", RInt 150 250);
             ("slow", RInt 250 500)]);
         ("mistake_patterns", RDict
            [("backspace_probability", RFloat);
             ("correction_delay", RInt 100 400)])]);
     ("scroll_patterns", RDict
        [("scroll_speed", RFloat);
         ("momentum_decay", RFloat);
         ("pause_frequency", RFloat);
         ("reverse_scroll_probability", RFloat)]);
     ("focus_patterns", RDict
        [("tab_switch_frequency", RFloat);
         ("window_focus_duration", RInt 2000 15000);
         ("background_activity", RBool)]);
     ("timing_patterns", RDict
        [("page_load_delay", RInt 500 2000);
         ("element_interaction_delay", RInt 100 800);
         ("form_fill_speed", RFloat);
         ("reading_simulation", RDict
            [("words_per_minute", RInt 180 280);
             ("pause_at_punctuation", RBool)])])].

(** [v[k1][k2]...] where every step is the lookup of a key in a dict. *)
Fixpoint path (keys : list string) (v : pyval) : option pyval :=
  match keys with
  | [] => Some v
  | k :: keys' =>
      match v with
      | VDict d => match d !! k with Some x => path keys' x | None => None end
      | _ => None
      end
  end.

(** A profile made from [device] and [(locale, timezone)], with the
    results of the helper functions named and the behavioural patterns
    within their bounds. *)
Definition profile_exact (device : DeviceProfile) (locale timezone : string)
    (profile : gmap string pyval) : Prop :=
  exists color_scheme reduced_motion webgl stealth_script tls_fingerprint
         advanced_behavioral,
    In color_scheme ["light"; "dark"; "no-preference"] /\
    In reduced_motion ["no-preference"; "reduce"] /\
    generate_webgl_fingerprint
      (webgl_arg (platform device) (device_memory device)
                 (hardware_concurrency device) (is_mobile device)) = Ok webgl /\
    create_stealth_scripts (stealth_arg device) = Ok stealth_script /\
    generate_tls_fingerprint (tls_arg device) = Ok tls_fingerprint /\
    fits behavioral_ranges advanced_behavioral /\
    profile = dict_of
      [("user_agent", VStr (user_agent device));
       ("viewport", VDict (viewport device));
       ("device_scale_factor", VFloat (device_scale_factor device));
       ("is_mobile", VBool (is_mobile device));
       ("has_touch", VBool (has_touch device));
       ("platform", VStr (platform device));
       ("device_memory", VInt (device_memory device));
       ("hardware_concurrency", VInt (hardware_concurrency device));
       ("max_touch_points", VInt (max_touch_points device));
       ("locale", VStr locale);
       ("timezone", VStr timezone);
       ("timezone_id", VStr timezone);
       ("color_scheme", VStr color_scheme);
       ("reduced_motion", VStr reduced_motion);
       ("headers", VDict (generate_realistic_headers locale (user_agent device)));
       ("canvas_fingerprint",
        VStr (canvas_of (platform device) (device_memory device)
                        (hardware_concurrency device)));
       ("webgl_fingerprint", VDict webgl);
       ("stealth_script", VStr stealth_script);
       ("tls_fingerprint", VDict tls_fingerprint);
       ("advanced_behavioral", advanced_behavioral);
       ("modern_evasion", VStr generate_modern_detection_evasion)].

(** The entries of the tables have a user agent and a platform, and the
    pairs of [LOCALE_TZS] a locale and a time zone. *)
Definition named (d : DeviceProfile) : bool :=
  negb (String.eqb (user_agent d) "") && negb (String.eqb (platform d) "").

Definition locale_named (lt : string * string) : bool :=
  negb (String.eqb (fst lt) "") && negb (String.eqb (snd lt) "").


End MoreProfileProps.

(** * Properties of the runner loop and of start-up *)

Section MainFacts.
Import Py Main RunnerProps.

(** ** The built-ins on small inputs *)

Example splitlines_boundaries :
  splitlines (lit "a" ++ [13; 10] ++ lit "b" ++ [13; 13; 10] ++ lit "c" ++ [10])%N
  = [lit "a"; lit "b"; []; lit "c"].
Proof. reflexivity. Qed.

Example splitlines_empty : splitlines [] = [] /\ splitlines [10%N] = [[]].
Proof. split; reflexivity. Qed.

Example strip_both_ends :
  strip ([9; 32] ++ lit "https://a.example/x y" ++ [160; 12288])%N
  = lit "https://a.example/x y".
Proof. reflexivity. Qed.

Example read_urls_skips_blank_lines :
  read_urls (lit "  https://a.example " ++ [10; 32; 10] ++ lit "https://b.example")%N
  = [lit "https://a.example"; lit "https://b.example"].
Proof. reflexivity. Qed.

Example int_grammar :
  map Py.int [lit "7"; lit " +1_0 "; lit "007"; lit "-3"; lit "1__0"; lit "_1";
              lit "1_"; lit ""; lit "+"; lit "5 0"; lit "3.0"; lit "ten"]
  = [Some 7; Some 10; Some 7; Some (-3); None; None; None; None; None; None;
     None; None].
Proof. reflexivity. Qed.

Example slice_to_short_and_long :
  slice_to 3 (lit "ab") = lit "ab" /\ slice_to 3 (lit "abcdef") = lit "abc".
Proof. split; reflexivity. Qed.

(** ** Lines of a file that holds only whitespace *)

Lemma lstrip_spaces (s : text) :
  Forall (fun c => isspace c = true) s -> lstrip s = [].
Proof.
  induction 1 as [| c s Hc _ IH]; simpl; [reflexivity |].
  now rewrite Hc.
Qed.

Lemma strip_spaces (s : text) :
  Forall (fun c => isspace c = true) s -> strip s = [].
Proof.
  intros H. unfold strip, rstrip. now rewrite (lstrip_spaces s H).
Qed.

Lemma splitlines_from_chars (P : N -> Prop) (n : nat) :
  forall s cur, (length s <= n)%nat ->
    Forall P cur -> Forall P s ->
    Forall (Forall P) (splitlines_from cur s).
Proof.
  induction n as [| n IH]; intros s cur Hlen Hcur Hs.
  - destruct s; [| simpl in Hlen; lia].
    simpl. destruct cur; constructor; [| constructor].
    apply Forall_rev. exact Hcur.
  - destruct s as [| c s']; simpl.
    + destruct cur; constructor; [| constructor].
      apply Forall_rev. exact Hcur.
    + simpl in Hlen. inversion Hs as [| ? ? Hc Hs']; subst.
      destruct (is_linebreak c).
      * destruct s' as [| c' s''].
        { constructor; [apply Forall_rev; exact Hcur | constructor]. }
        inversion Hs' as [| ? ? Hc' Hs'']; subst. simpl in Hlen.
        destruct ((c =? 13)%N && (c' =? 10)%N);
          (constructor; [apply Forall_rev; exact Hcur |]);
          apply IH; try constructor; auto; simpl; lia.
      * apply IH; [lia | constructor; auto | exact Hs'].
Qed.

Lemma splitlines_chars (P : N -> Prop) (s : text) :
  Forall P s -> Forall (Forall P) (splitlines s).
Proof.
  intros H. apply (splitlines_from_chars P (length s)); auto.
Qed.

Lemma read_urls_spaces (content : text) :
  Forall (fun c => isspace c = true) content -> read_urls content = [].
Proof.
  intros H. unfold read_urls.
  pose proof (splitlines_chars _ _ H) as Hl.
  induction Hl as [| ln lns Hln _ IH]; simpl; [reflexivity |].
  rewrite (strip_spaces ln Hln). simpl. exact IH.
Qed.

Lemma read_urls_no_line (content : text) :
  (forall ln, In ln (splitlines content) -> strip ln = []) ->
  read_urls content = [].
Proof.
  unfold read_urls. induction (splitlines content) as [| ln lns IH];
    intros H; simpl; [reflexivity |].
  rewrite (H ln (or_introl eq_refl)). simpl.
  apply IH. intros ln' Hin. apply H. now right.
Qed.


(** Conversely, a character that is not whitespace ends up in a line that
    survives stripping: line boundaries are whitespace themselves. *)
Lemma linebreak_isspace (c : N) : is_linebreak c = true -> isspace c = true.
Proof.
  unfold is_linebreak, isspace.
  rewrite !orb_true_iff, !andb_true_iff, !N.leb_le, !N.eqb_eq. lia.
Qed.

Lemma lstrip_keeps (s : text) :
  Exists (fun c => isspace c = false) s ->
  Exists (fun c => isspace c = false) (lstrip s).
Proof.
  induction s as [| c s IH]; intros H; simpl; [exact H |].
  destruct (isspace c) eqn:Hc; [| exact H].
  apply IH. inversion H as [? ? Hc' | ? ? Hs]; subst; [congruence | exact Hs].
Qed.

Lemma strip_keeps (s : text) :
  Exists (fun c => isspace c = false) s -> strip s <> [].
Proof.
  intros H. unfold strip, rstrip.
  apply lstrip_keeps, Exists_rev, lstrip_keeps in H.
  destruct (lstrip (rev (lstrip s))) as [| c r]; [inversion H |].
  simpl. intros E. apply app_eq_nil in E as [_ E]. discriminate E.
Qed.

Lemma splitlines_from_keeps (n : nat) :
  forall s cur, (length s <= n)%nat ->
    Exists (fun c => isspace c = false) cur \/
    Exists (fun c => isspace c = false) s ->
    Exists (Exists (fun c => isspace c = false)) (splitlines_from cur s).
Proof.
  induction n as [| n IH]; intros s cur Hlen H.
  - destruct s; [| simpl in Hlen; lia].
    destruct H as [H | H]; [| inversion H].
    simpl. destruct cur; [inversion H |].
    apply Exists_cons_hd. apply Exists_rev. exact H.
  - destruct s as [| c s'].
    + destruct H as [H | H]; [| inversion H].
      simpl. destruct cur; [inversion H |].
      apply Exists_cons_hd. apply Exists_rev. exact H.
    + simpl in Hlen. simpl. destruct (is_linebreak c) eqn:Hc.
      * assert (Exists (fun c => isspace c = false) cur \/
                Exists (fun c => isspace c = false) s') as H'.
        { destruct H as [H | H]; [now left |].
          inversion H as [? ? Hc' | ? ? Hs]; subst; [| now right].
          apply linebreak_isspace in Hc. congruence. }
        clear H. destruct s' as [| c' s''].
        { destruct H' as [H | H]; [| inversion H].
          apply Exists_cons_hd. apply Exists_rev. exact H. }
        simpl in Hlen.
        destruct H' as [H | H];
          [destruct ((c =? 13)%N && (c' =? 10)%N);
           apply Exists_cons_hd; apply Exists_rev; exact H |].
        destruct ((c =? 13)%N && (c' =? 10)%N) eqn:Hcrlf.
        { apply Exists_cons_tl. apply IH; [lia |]. right.
          inversion H as [? ? Hc' | ? ? Hs]; subst; [| exact Hs].
          apply andb_true_iff in Hcrlf as [_ E]. apply N.eqb_eq in E. subst c'.
          discriminate Hc'. }
        { apply Exists_cons_tl. apply IH; [simpl; lia |]. now right. }
      * apply IH; [lia |].
        destruct H as [H | H]; [left; now apply Exists_cons_tl |].
        inversion H as [? ? Hc' | ? ? Hs]; subst;
          [left; now apply Exists_cons_hd | now right].
Qed.

(** [urls.txt] yields no URL exactly when it holds nothing but
    whitespace. *)
Lemma read_urls_empty_iff (content : text) :
  read_urls content = [] <-> Forall (fun c => isspace c = true) content.
Proof.
  split; [| apply read_urls_spaces].
  intros Hempty. apply List.Forall_forall. intros c Hin.
  destruct (isspace c) eqn:Hc; [reflexivity | exfalso].
  assert (Exists (fun c => isspace c = false) content) as Hex
    by (apply List.Exists_exists; eauto).
  pose proof (splitlines_from_keeps (length content) content []
                (le_n _) (or_intror Hex)) as Hlines.
  fold (splitlines content) in Hlines.
  unfold read_urls in Hempty.
  induction Hlines as [ln lns Hln | ln lns _ IH]; simpl in Hempty.
  - apply strip_keeps in Hln.
    destruct (strip ln); [congruence | discriminate Hempty].
  - destruct (nonempty (strip ln)); [discriminate Hempty | exact (IH Hempty)].
Qed.

(** ** One pass of the runner *)

(** The loop head leaves the counters alone and, given a URL to pick,
    reaches the call of [run_once] with status "running". *)
Lemma loop_head_pass (urls : list text) (pick : N) (now : Q)
    (s : InstanceState) :
  urls <> [] ->
  let r := loop_head urls pick now s in
  at_ r = InPass /\ status (state r) = lit "running" /\
  runs (state r) = runs s /\ successes (state r) = successes s /\
  failures (state r) = failures s /\ last_detail (state r) = last_detail s.
Proof.
  intros Hne. unfold loop_head, pick_url.
  destruct (urls !! N.to_nat (pick mod N.of_nat (length urls))) eqn:E.
  - simpl. repeat split.
  - exfalso. apply lookup_ge_None in E.
    assert (0 < length urls)%nat by (destruct urls; simpl; [congruence | lia]).
    assert (pick mod N.of_nat (length urls) < N.of_nat (length urls))%N
      by (apply N.mod_lt; lia).
    lia.
Qed.

Lemma runner_run_app (urls : list text) (evs1 evs2 : list event) :
  forall total r,
    runner_run urls total r (evs1 ++ evs2) =
    match runner_run urls total r evs1 with
    | Some (r', total') => runner_run urls total' r' evs2
    | None => None
    end.
Proof.
  induction evs1 as [| ev evs1 IH]; intros total r; simpl; [reflexivity |].
  destruct (runner_step urls total r ev) as [[r' total'] |]; [apply IH | reflexivity].
Qed.

Lemma failing_passes_run (urls : list text) (msg : nat -> text)
    (pick : nat -> N) (now : nat -> Q) (total : Z) (r : Runner) :
  urls <> [] -> at_ r = InPass ->
  forall k, exists r',
    runner_run urls total r (failing_passes msg pick now k) = Some (r', total) /\
    at_ r' = InPass /\
    runs (state r') = runs (state r) + Z.of_nat k /\
    failures (state r') = failures (state r) + Z.of_nat k /\
    successes (state r') = successes (state r).
Proof.
  intros Hne Hat. induction k as [| k [r' (Hrun & Hat' & Hruns & Hfail & Hsucc)]].
  - exists r. simpl. repeat split; auto; lia.
  - simpl failing_passes. rewrite runner_run_app, Hrun.
    simpl. unfold runner_step at 1. rewrite Hat'.
    unfold runner_step at 1. simpl at_.
    destruct (loop_head_pass urls (pick k) (now k)
                (state (on_exception (msg k) (state r'))) Hne)
      as (H1 & _ & H3 & H4 & H5 & _).
    eexists. split; [reflexivity |].
    split; [exact H1 |].
    rewrite H3, H4, H5. simpl. lia.
Qed.

(** C1: when [run_once] raises an exception the runner adds one to [runs]
    and one to [failures] (and nothing to [successes]), stores the first
    100 characters of the message in [last_detail], sets the status to
    "error/restarting" and waits in a sleep of 2 seconds; when that sleep
    is over the next pass starts.  The loop does not end on exceptions:
    after any number [k] of passes that all raise, the runner is inside
    pass [k+1], with [k] more runs and [k] more failures. *)
Theorem C1_exception_counted_and_retried (urls : list text) (total : Z)
    (r : Runner) (msg : text) :
  urls <> [] -> at_ r = InPass ->
  exists r',
    runner_step urls total r (Raised msg) = Some (r', total) /\
    runs (state r') = runs (state r) + 1 /\
    failures (state r') = failures (state r) + 1 /\
    successes (state r') = successes (state r) /\
    last_detail (state r') = slice_to 100 msg /\
    (length (last_detail (state r')) <= 100)%nat /\
    status (state r') = lit "error/restarting" /\
    at_ r' = Pause 2 /\
    (forall pick now, exists r'',
        runner_step urls total r' (Woke pick now) = Some (r'', total) /\
        at_ r'' = InPass /\ status (state r'') = lit "running" /\
        runs (state r'') = runs (state r') /\
        failures (state r'') = failures (state r')) /\
    (forall msgs picks nows k, exists rk,
        runner_run urls total r (failing_passes msgs picks nows k)
          = Some (rk, total) /\
        at_ rk = InPass /\
        runs (state rk) = runs (state r) + Z.of_nat k /\
        failures (state rk) = failures (state r) + Z.of_nat k).
Proof.
  intros Hne Hat. exists (on_exception msg (state r)).
  split; [unfold runner_step; now rewrite Hat |].
  do 4 (split; [reflexivity |]).
  split; [apply (firstn_le_length 100 msg) |].
  do 2 (split; [reflexivity |]).
  split.
  - intros pick now.
    destruct (loop_head_pass urls pick now (state (on_exception msg (state r))) Hne)
      as (H1 & H2 & H3 & _ & H5 & _).
    eexists. split; [reflexivity |]. auto.
  - intros msgs picks nows k.
    destruct (failing_passes_run urls msgs picks nows total r Hne Hat k)
      as (rk & H1 & H2 & H3 & H4 & _).
    exists rk. auto.
Qed.

Lemma C1_witness :
  exists r',
    runner_step sample_urls 0 sample_runner (Raised (lit "Timeout 8000ms exceeded"))
      = Some (r', 0) /\
    runs (state r') = 1 /\ failures (state r') = 1 /\ at_ r' = Pause 2.
Proof.
  destruct (C1_exception_counted_and_retried sample_urls 0 sample_runner
              (lit "Timeout 8000ms exceeded"))
    as (r' & H1 & H2 & H3 & _ & _ & _ & _ & H8 & _).
  - discriminate.
  - reflexivity.
  - exists r'. repeat split; assumption.
Defined.

(** ** Start-up *)

(** C2: when no line of [urls.txt] is left after stripping, [main] prints
    one error message and leaves with [sys.exit(1)]; this is all it does:
    no browser launch (nor anything else) comes before the exit. *)
Theorem C2_empty_url_file_exits (int_of_str : text -> option Z) (w : World)
    (content : text) :
  read_text w = Value content ->
  (forall ln, In ln (splitlines content) -> strip ln = []) ->
  main int_of_str w =
    ([Print (lit "[bold red]No URLs found in the file[/bold red]")], Exit 1) /\
  exit_code (snd (main int_of_str w)) = Some 1 /\
  ~ In LaunchBrowser (fst (main int_of_str w)).
Proof.
  intros Hread Hlines.
  assert (main int_of_str w =
    ([Print (lit "[bold red]No URLs found in the file[/bold red]")], Exit 1)) as E.
  { unfold main. rewrite Hread, (read_urls_no_line content Hlines). reflexivity. }
  rewrite E. split; [reflexivity |]. split; [reflexivity |].
  simpl. intros [H | []]. discriminate H.
Qed.

Lemma C2_witness :
  main Py.int (world_of (lit "   ") (lit "3")) =
    ([Print (lit "[bold red]No URLs found in the file[/bold red]")], Exit 1) /\
  exit_code (snd (main Py.int (world_of (lit "   ") (lit "3")))) = Some 1 /\
  ~ In LaunchBrowser (fst (main Py.int (world_of (lit "   ") (lit "3")))).
Proof.
  apply (C2_empty_url_file_exits Py.int (world_of (lit "   ") (lit "3")) (lit "   ")).
  - reflexivity.
  - intros ln Hin. vm_compute in Hin. destruct Hin as [<- | []]. reflexivity.
Defined.

(** A file of whitespace only, of any length and with any line
    boundaries, is such a file. *)
Lemma blank_file_exits (int_of_str : text -> option Z) (w : World)
    (content : text) :
  read_text w = Value content ->
  Forall (fun c => isspace c = true) content ->
  snd (main int_of_str w) = Exit 1.
Proof.
  intros Hread Hsp. unfold main.
  rewrite Hread, (read_urls_spaces content Hsp). reflexivity.
Qed.

Lemma make_states_length (w : World) (n : Z) :
  length (make_states w n) = Z.to_nat n.
Proof. unfold make_states. now rewrite length_map, length_seq. Qed.

Lemma start_browser_ending (w : World) (out : list output) (e : ending) :
  start_browser w = (out, Some e) ->
  (exists msg, e = Uncaught msg) \/ e = KeyboardInterrupt.
Proof.
  unfold start_browser.
  destruct (playwright w), (launch w), (relaunch w); intros H;
    inversion H; subst; eauto.
Qed.

(** Whenever [main] gets as far as starting runners, it starts one per
    state, and there are [INSTANCES] states. *)
Lemma main_serving (int_of_str : text -> option Z) (w : World)
    (out : list output) (p : Proc) :
  main int_of_str w = (out, Serving p) ->
  exists content n,
    read_text w = Value content /\
    urls_list p = read_urls content /\ urls_list p <> [] /\
    ask_instances int_of_str (console_input w) = Some n /\
    runners p = map runner_task (make_states w n) /\
    total_done p = 0.
Proof.
  unfold main. intros H.
  destruct (read_text w) as [content | e |]; try discriminate H.
  destruct (read_urls content) as [| u us] eqn:Eurls; simpl in H;
    [discriminate H |].
  destruct (ask_instances int_of_str (console_input w)) as [n |];
    [| discriminate H].
  destruct (start_browser w) as [o [e |]] eqn:Eb.
  { injection H as _ ->.
    destruct (start_browser_ending _ _ _ Eb) as [[msg Hm] | Hk]; discriminate. }
  injection H as <- <-.
  exists content, n. simpl. rewrite Eurls.
  split; [reflexivity |]. split; [reflexivity |].
  split; [discriminate |]. repeat split.
Qed.

(** C3: the number of runners [main] starts.  When the answer to the
    prompt parses (after stripping) as an integer [n] with [1 <= n <= 50],
    [INSTANCES] is [n] and [n] runners are started; when it does not, be
    it that [int] raises or that the integer is below 1 or above 50,
    [INSTANCES] is 1 and one runner is started. *)
Theorem C3_instance_count (int_of_str : text -> option Z) (w : World)
    (user_in : text) :
  console_input w = Value user_in ->
  (forall n, int_of_str (strip user_in) = Some n -> 1 <= n <= 50 ->
     ask_instances int_of_str (console_input w) = Some n /\
     forall out p, main int_of_str w = (out, Serving p) ->
       Z.of_nat (length (runners p)) = n) /\
  ((forall n, int_of_str (strip user_in) = Some n -> n < 1 \/ 50 < n) ->
     ask_instances int_of_str (console_input w) = Some 1 /\
     forall out p, main int_of_str w = (out, Serving p) ->
       length (runners p) = 1%nat).
Proof.
  intros Hin. split.
  - intros n Hn Hrange.
    assert (ask_instances int_of_str (console_input w) = Some n) as E.
    { rewrite Hin. simpl. rewrite Hn.
      replace (n <? 1) with false by (symmetry; apply Z.ltb_ge; lia).
      replace (n >? 50) with false by (symmetry; rewrite Z.gtb_ltb; apply Z.ltb_ge; lia).
      reflexivity. }
    split; [exact E |].
    intros out p Hmain.
    destruct (main_serving _ _ _ _ Hmain) as (c & n' & _ & _ & _ & Hask & Hr & _).
    rewrite E in Hask. inversion Hask; subst n'.
    rewrite Hr, length_map, make_states_length. lia.
  - intros Hbad.
    assert (ask_instances int_of_str (console_input w) = Some 1) as E.
    { rewrite Hin. simpl.
      destruct (int_of_str (strip user_in)) as [n |] eqn:En; [| reflexivity].
      destruct (Hbad n eq_refl) as [Hlt | Hgt].
      - replace (n <? 1) with true by (symmetry; apply Z.ltb_lt; lia).
        reflexivity.
      - replace (n >? 50) with true by (symmetry; rewrite Z.gtb_ltb; apply Z.ltb_lt; lia).
        now rewrite orb_true_r. }
    split; [exact E |].
    intros out p Hmain.
    destruct (main_serving _ _ _ _ Hmain) as (c & n' & _ & _ & _ & Hask & Hr & _).
    rewrite E in Hask. inversion Hask; subst n'.
    now rewrite Hr, length_map, make_states_length.
Qed.

Lemma C3_witness :
  (exists out p, main Py.int (world_of one_url (lit " 50 ")) = (out, Serving p) /\
     Z.of_nat (length (runners p)) = 50) /\
  (exists out p, main Py.int (world_of one_url (lit "51")) = (out, Serving p) /\
     length (runners p) = 1%nat) /\
  (exists out p, main Py.int (world_of one_url (lit "many")) = (out, Serving p) /\
     length (runners p) = 1%nat).
Proof.
  split; [| split].
  - destruct (C3_instance_count Py.int (world_of one_url (lit " 50 ")) (lit " 50 ")
                eq_refl) as [H _].
    destruct (H 50) as [_ H']; [reflexivity | lia |].
    eexists _, _. split; [reflexivity |]. apply (H' _ _ eq_refl).
  - destruct (C3_instance_count Py.int (world_of one_url (lit "51")) (lit "51")
                eq_refl) as [_ H].
    destruct H as [_ H'].
    + intros n Hn. vm_compute in Hn. inversion Hn. lia.
    + eexists _, _. split; [reflexivity |]. apply (H' _ _ eq_refl).
  - destruct (C3_instance_count Py.int (world_of one_url (lit "many")) (lit "many")
                eq_refl) as [_ H].
    destruct H as [_ H'].
    + intros n Hn. vm_compute in Hn. discriminate Hn.
    + eexists _, _. split; [reflexivity |]. apply (H' _ _ eq_refl).
Defined.

(** ** The status cycle *)

Lemma runner_step_status (urls : list text) (total total' : Z)
    (r r' : Runner) (ev : event) :
  urls <> [] ->
  runner_step urls total r ev = Some (r', total') ->
  coherent r -> known_status (state r) ->
  coherent r' /\ known_status (state r') /\
  (at_ r' = Stopped -> at_ r = Stopped \/ ev = Thrown).
Proof.
  intros Hne Hstep Hco Hk. unfold runner_step in Hstep.
  destruct (at_ r) eqn:Hat, ev; try discriminate Hstep;
    injection Hstep as <- <-;
    try (destruct (loop_head_pass urls pick now (state r) Hne)
           as (H1 & H2 & _);
         unfold coherent, known_status; rewrite H1, H2;
         split; [reflexivity |]; split; [tauto | discriminate]);
    try (unfold coherent, known_status; simpl;
         split; [tauto |]; split; [tauto | tauto || discriminate]).
  unfold coherent in *. rewrite Hat in Hco. simpl.
  split; [exact Hco |]. split; [| discriminate].
  unfold known_status. simpl. tauto.
Qed.

Lemma runner_run_status (urls : list text) (evs : list event) :
  urls <> [] ->
  forall total total' r r',
    runner_run urls total r evs = Some (r', total') ->
    coherent r -> known_status (state r) ->
    coherent r' /\ known_status (state r') /\
    (at_ r' = Stopped -> at_ r = Stopped \/ In Thrown evs).
Proof.
  intros Hne. induction evs as [| ev evs IH]; intros total total' r r' Hrun Hco Hk.
  - injection Hrun as <- <-. tauto.
  - simpl in Hrun.
    destruct (runner_step urls total r ev) as [[r1 t1] |] eqn:Hstep;
      [| discriminate Hrun].
    destruct (runner_step_status _ _ _ _ _ _ Hne Hstep Hco Hk) as (Hco1 & Hk1 & Hs1).
    destruct (IH _ _ _ _ Hrun Hco1 Hk1) as (Hco' & Hk' & Hs').
    split; [exact Hco' |]. split; [exact Hk' |].
    intros Hst. destruct (Hs' Hst) as [H | H]; [| right; now right].
    destruct (Hs1 H) as [H' | ->]; [now left | right; now left].
Qed.

(** C8: the status of a runner, from the start of [runner_task] on a new
    [InstanceState] and along any sequence of events.  At every await the
    status is "idle", "running" or "error/restarting" and never anything
    else: "idle" in the staggered first sleep, "running" while [run_once]
    is awaited, "idle" in the sleep of 1 s that ends a pass that returned
    and "error/restarting" in the sleep of 2 s that ends a pass that
    raised.  A runner that has not been stopped can always go on: the end
    of a sleep starts a pass, status "running"; a return ends the pass
    with "idle", an exception with "error/restarting", and neither stops
    it.  It is stopped only once an exception outside [Exception] (the
    cancellation of the task) has been delivered to it. *)
Theorem C8_status_cycle (urls : list text) (i : Z) (t0 : Q) (total total' : Z)
    (evs : list event) (r : Runner) :
  urls <> [] ->
  runner_run urls total (runner_task (new_state i t0)) evs = Some (r, total') ->
  coherent r /\ known_status (state r) /\
  (at_ r = Stopped -> In Thrown evs) /\
  (forall delay pick now,
     at_ r = Stagger delay \/ at_ r = Pause delay ->
     exists r', runner_step urls total' r (Woke pick now) = Some (r', total') /\
       at_ r' = InPass /\ status (state r') = lit "running") /\
  (at_ r = InPass ->
     (forall results, exists r' t,
        runner_step urls total' r (Returned results) = Some (r', t) /\
        at_ r' = Pause 1 /\ status (state r') = lit "idle") /\
     (forall msg, exists r',
        runner_step urls total' r (Raised msg) = Some (r', total') /\
        at_ r' = Pause 2 /\ status (state r') = lit "error/restarting")).
Proof.
  intros Hne Hrun.
  destruct (runner_run_status urls evs Hne _ _ _ _ Hrun) as (Hco & Hk & Hs).
  { reflexivity. }
  { left. reflexivity. }
  split; [exact Hco |]. split; [exact Hk |]. split.
  { intros Hst. destruct (Hs Hst) as [H | H]; [discriminate H | exact H]. }
  split.
  - intros delay pick now Hat.
    destruct (loop_head_pass urls pick now (state r) Hne) as (H1 & H2 & _).
    exists (loop_head urls pick now (state r)).
    split; [| split; assumption].
    unfold runner_step. destruct Hat as [-> | ->]; reflexivity.
  - intros Hat. split.
    + intros results. eexists _, _. unfold runner_step. rewrite Hat.
      split; [reflexivity |]. split; reflexivity.
    + intros msg. eexists. unfold runner_step. rewrite Hat.
      split; [reflexivity |]. split; reflexivity.
Qed.

Lemma C8_witness :
  exists r,
    runner_run sample_urls 0 (runner_task (new_state 1 0))
      [Woke 0 1; Raised (lit "net::ERR_FAILED"); Woke 0 2; Returned []]
      = Some (r, 1) /\
    coherent r /\ status (state r) = lit "idle".
Proof.
  eexists. split; [reflexivity |].
  destruct (C8_status_cycle sample_urls 1 0 0 1
              [Woke 0 1; Raised (lit "net::ERR_FAILED"); Woke 0 2; Returned []]
              _ ltac:(discriminate) eq_refl) as (Hco & _).
  split; [exact Hco | reflexivity].
Defined.

(** ** The counters *)

Lemma runner_step_counts (urls : list text) (total total' : Z)
    (r r' : Runner) (ev : event) :
  runner_step urls total r ev = Some (r', total') ->
  counts (state r') =
    match ev with
    | Returned _ =>
        (runs (state r) + 1, successes (state r) + 1, failures (state r))
    | Raised _ =>
        (runs (state r) + 1, successes (state r), failures (state r) + 1)
    | _ => counts (state r)
    end.
Proof.
  unfold runner_step. intros H.
  destruct (at_ r), ev; try discriminate H; injection H as <- <-;
    try reflexivity;
    unfold loop_head; destruct (pick_url urls pick); reflexivity.
Qed.

Lemma runner_step_balanced (urls : list text) (total total' : Z)
    (r r' : Runner) (ev : event) :
  runner_step urls total r ev = Some (r', total') ->
  balanced r -> balanced r'.
Proof.
  intros Hstep Hb. pose proof (runner_step_counts _ _ _ _ _ _ Hstep) as Hc.
  unfold balanced, counts in *.
  destruct ev; injection Hc as -> -> ->; lia.
Qed.

Lemma proc_step_balanced (p p' : Proc) (i : nat) (ev : event) :
  proc_step p i ev = Some p' ->
  Forall balanced (runners p) -> Forall balanced (runners p').
Proof.
  unfold proc_step. intros H Hall.
  destruct (runners p !! i) as [r |] eqn:Hr; [| discriminate H].
  destruct (runner_step (urls_list p) (total_done p) r ev) as [[r' t] |] eqn:Hs;
    [| discriminate H].
  injection H as <-. simpl.
  apply Forall_insert; [exact Hall |].
  apply (runner_step_balanced _ _ _ _ _ _ Hs).
  apply (Forall_lookup_1 _ _ _ _ Hall Hr).
Qed.

Lemma proc_run_balanced (sched : list (nat * event)) :
  forall p p', proc_run p sched = Some p' ->
    Forall balanced (runners p) -> Forall balanced (runners p').
Proof.
  induction sched as [| [i ev] sched IH]; intros p p' H Hall; simpl in H.
  - now injection H as <-.
  - destruct (proc_step p i ev) as [p1 |] eqn:Hs; [| discriminate H].
    apply (IH _ _ H). apply (proc_step_balanced _ _ _ _ Hs Hall).
Qed.

(** C9: [runs = successes + failures] for every [InstanceState] at every
    await, however the runners that [main] started are scheduled.  It
    holds when they are created (0 = 0 + 0), a pass that returns adds one
    to [runs] and to [successes], a pass that raises adds one to [runs]
    and to [failures], and no other step changes a counter. *)
Theorem C9_runs_split (int_of_str : text -> option Z) (w : World)
    (out : list output) (p0 p : Proc) (sched : list (nat * event)) :
  main int_of_str w = (out, Serving p0) ->
  proc_run p0 sched = Some p ->
  Forall (fun r => counts (state r) = (0, 0, 0)) (runners p0) /\
  Forall (fun r => runs (state r) = successes (state r) + failures (state r))
         (runners p) /\
  (forall i r ev p', runners p !! i = Some r -> proc_step p i ev = Some p' ->
     exists r', runners p' !! i = Some r' /\
       counts (state r') =
         match ev with
         | Returned _ =>
             (runs (state r) + 1, successes (state r) + 1, failures (state r))
         | Raised _ =>
             (runs (state r) + 1, successes (state r), failures (state r) + 1)
         | _ => counts (state r)
         end).
Proof.
  intros Hmain Hrun.
  destruct (main_serving _ _ _ _ Hmain) as (c & n & _ & _ & _ & _ & Hr & _).
  assert (Forall (fun r => counts (state r) = (0, 0, 0)) (runners p0)) as H0.
  { rewrite Hr. apply List.Forall_forall. intros r Hin.
    apply in_map_iff in Hin as (s & <- & Hin).
    unfold make_states in Hin. apply in_map_iff in Hin as (k & <- & _).
    reflexivity. }
  split; [exact H0 |]. split.
  - apply (proc_run_balanced sched p0 p Hrun).
    eapply Forall_impl; [exact H0 |].
    intros r Hc. unfold balanced, counts in *. injection Hc as -> -> ->.
    reflexivity.
  - intros i r ev p' Hi Hstep. unfold proc_step in Hstep. rewrite Hi in Hstep.
    destruct (runner_step (urls_list p) (total_done p) r ev) as [[r' t] |] eqn:Hs;
      [| discriminate Hstep].
    injection Hstep as <-. exists r'. simpl. split.
    + apply list_lookup_insert_eq. apply (lookup_lt_Some _ _ _ Hi).
    + apply (runner_step_counts _ _ _ _ _ _ Hs).
Qed.

Lemma C9_witness :
  exists out p0 p,
    main Py.int (world_of one_url (lit "2")) = (out, Serving p0) /\
    proc_run p0 two_passes = Some p /\
    Forall (fun r => runs (state r) = successes (state r) + failures (state r))
           (runners p) /\
    map (fun r => counts (state r)) (runners p) = [(1, 1, 0); (1, 0, 1)].
Proof.
  eexists _, _, _. split; [reflexivity |]. split; [reflexivity |].
  split; [| reflexivity].
  apply (C9_runs_split Py.int (world_of one_url (lit "2")) _ _ _ two_passes
           eq_refl eq_refl).
Defined.

(** ** Which failures end the process *)

(** A start-up that goes through: the prompt, the launch, three runners
    in their staggered sleeps of 0.5 s, 1 s and 1.5 s. *)
Example main_starts_three_runners :
  exists p,
    main Py.int (world_of one_url (lit "3")) =
      ([Ask (lit "[bold cyan]How many instances to run (1-50)? [/bold cyan]");
        Print (lit "[yellow]Launching browser...[/yellow]");
        LaunchBrowser;
        Print (lit "[green]Browser launched successfully![/green]")],
       Serving p) /\
    urls_list p = [lit "https://example.org/post"] /\
    map (fun r => (id (state r), at_ r)) (runners p)
      = [(1, Stagger (1 * (1 # 2))); (2, Stagger (2 * (1 # 2)));
         (3, Stagger (3 * (1 # 2)))].
Proof. eexists. repeat split. Qed.

(** The browser does not come up, not even after the install: the
    exception leaves [main]. *)
Example launch_fails_twice :
  main Py.int
    {| read_text := Value one_url; console_input := Value (lit "2");
       playwright := Value tt; launch := Failed (lit "Executable doesn't exist");
       relaunch := Failed (lit "Executable doesn't exist");
       time := fun _ => 0%Q |}
  = ([Ask (lit "[bold cyan]How many instances to run (1-50)? [/bold cyan]");
      Print (lit "[yellow]Launching browser...[/yellow]");
      LaunchBrowser;
      Print (lit "[yellow]Installing Playwright browsers...[/yellow]");
      InstallBrowsers; LaunchBrowser],
     Uncaught (lit "Executable doesn't exist")).
Proof. reflexivity. Qed.

(** C5, as stated, does not hold: a failure to read [urls.txt] is fatal.
    The process prints the error and exits with code 1, so it is not true
    that every run either keeps running or ends with the default code. *)
Lemma C5_unreadable_file_is_fatal :
  main Py.int world_without_file =
    ([Print (lit "[bold red]Failed to read URL file:[/bold red] [Errno 2] No such file or directory: 'urls.txt'")],
     Exit 1) /\
  ~ (forall w, exit_code (snd (main Py.int w)) = None \/
               exit_code (snd (main Py.int w)) = Some 0).
Proof.
  split; [reflexivity |].
  intros H. destruct (H world_without_file) as [E | E]; discriminate E.
Qed.

(** C5, amended: an exception raised inside a pass is never fatal.  The
    runner it reaches counts it and waits for its retry, the other
    runners are not touched, and no step of a runner ends the process.
    The failures that do end it are those of start-up: when [urls.txt]
    cannot be read, or holds no URL, [main] prints the error and exits
    with code 1.  When the file holds a URL and the browser comes up, the
    process serves (or was interrupted at the prompt, exit code 0). *)
Theorem C5_only_startup_is_fatal (int_of_str : text -> option Z) (w : World) :
  (forall p i r msg,
     runners p !! i = Some r -> at_ r = InPass ->
     exists p' r',
       proc_step p i (Raised msg) = Some p' /\
       runners p' !! i = Some r' /\ at_ r' = Pause 2 /\
       failures (state r') = failures (state r) + 1 /\
       forall j, j <> i -> runners p' !! j = runners p !! j) /\
  (forall e, read_text w = Failed e ->
     main int_of_str w =
       ([Print (lit "[bold red]Failed to read URL file:[/bold red] " ++ e)],
        Exit 1)) /\
  (forall content, read_text w = Value content -> read_urls content = [] ->
     main int_of_str w =
       ([Print (lit "[bold red]No URLs found in the file[/bold red]")],
        Exit 1)) /\
  (forall content, read_text w = Value content -> read_urls content <> [] ->
     playwright w = Value tt ->
     launch w = Value tt \/
       ((exists e, launch w = Failed e) /\ relaunch w = Value tt) ->
     (exists p, snd (main int_of_str w) = Serving p) \/
     snd (main int_of_str w) = KeyboardInterrupt).
Proof.
  split; [| split; [| split]].
  - intros p i r msg Hi Hat.
    exists {| urls_list := urls_list p;
              runners := <[i := on_exception msg (state r)]> (runners p);
              total_done := total_done p |}, (on_exception msg (state r)).
    split; [unfold proc_step, runner_step; now rewrite Hi, Hat |].
    simpl. split.
    { apply list_lookup_insert_eq. apply (lookup_lt_Some _ _ _ Hi). }
    split; [reflexivity |]. split; [reflexivity |].
    intros j Hj. apply list_lookup_insert_ne. congruence.
  - intros e He. unfold main. now rewrite He.
  - intros content Hc He. unfold main. now rewrite Hc, He.
  - intros content Hc Hne Hpw Hbrowser. unfold main. rewrite Hc.
    destruct (read_urls content) as [| u us]; [congruence |]. simpl.
    destruct (ask_instances int_of_str (console_input w)); [| now right].
    unfold start_browser. rewrite Hpw.
    destruct Hbrowser as [-> | [[e ->] ->]]; left; eexists; reflexivity.
Qed.

Lemma C5_witness :
  (exists p' r',
     proc_step {| urls_list := sample_urls; runners := [sample_runner];
                  total_done := 0 |} 0 (Raised (lit "Target closed")) = Some p' /\
     runners p' !! 0%nat = Some r' /\ at_ r' = Pause 2) /\
  snd (main Py.int world_without_file) = Exit 1 /\
  snd (main Py.int (world_of [] (lit "3"))) = Exit 1 /\
  exists p, snd (main Py.int (world_of one_url (lit "3"))) = Serving p.
Proof.
  destruct (C5_only_startup_is_fatal Py.int world_without_file) as (H1 & H2 & _).
  destruct (C5_only_startup_is_fatal Py.int (world_of [] (lit "3"))) as (_ & _ & H3 & _).
  destruct (C5_only_startup_is_fatal Py.int (world_of one_url (lit "3")))
    as (_ & _ & _ & H4).
  split; [| split; [| split]].
  - destruct (H1 {| urls_list := sample_urls; runners := [sample_runner];
                    total_done := 0 |} 0%nat sample_runner (lit "Target closed")
                eq_refl eq_refl) as (p' & r' & Ha & Hb & Hc & _).
    exists p', r'. auto.
  - now rewrite (H2 _ eq_refl).
  - now rewrite (H3 [] eq_refl eq_refl).
  - destruct (H4 one_url eq_refl) as [Hs | Hk].
    + vm_compute. discriminate.
    + reflexivity.
    + left. reflexivity.
    + exact Hs.
    + vm_compute in Hk. discriminate Hk.
Defined.

End MainFacts.

(** * Properties of the profile generator *)

Section FingerprintFacts.
Import Fingerprints ProfileProps.
#[local] Open Scope string_scope.

(** ** The functions on small inputs *)

(** The test suite of RFC 1321. *)
Example md5_test_suite :
  map MD5.hexdigest
    [""; "a"; "abc"; "message digest"; "abcdefghijklmnopqrstuvwxyz";
     "ABCDEFGHIJKLMNOPQRSTUVWXYZabcdefghijklmnopqrstuvwxyz0123456789";
     "12345678901234567890123456789012345678901234567890123456789012345678901234567890"]
  = ["d41d8cd98f00b204e9800998ecf8427e"; "0cc175b9c0f1b6a831c399e269772661";
     "900150983cd24fb0d6963f7d28e17f72"; "f96b697d7cb7938d525a2f31aaf161d0";
     "c3fcd3d76192e4007dfb496cca67e13b"; "d174ab98d277d9f5a5611c2c9f419d9f";
     "57edf4a22be3c955ac49da2e2107b67a"].
Proof. vm_compute. reflexivity. Qed.

Example canvas_defaults :
  generate_canvas_fingerprint ∅ = Ok (MD5.hexdigest "Win32_8_4") /\
  generate_canvas_fingerprint (dict_of [("platform", VStr "iPhone");
                                        ("device_memory", VInt 6)])
    = Ok (MD5.hexdigest "iPhone_6_4").
Proof. split; vm_compute; reflexivity. Qed.

(** The five branches of [generate_webgl_fingerprint], and the three
    graphics cards of the last. *)
Example webgl_branches :
  map (fun '(p, mobile, m) =>
         generate_webgl_fingerprint
           (dict_of [("platform", VStr p); ("is_mobile", VBool mobile);
                     ("device_memory", VInt m)]))
      [("iPhone", true, 6); ("Linux armv8l", true, 8); ("MacIntel", false, 8);
       ("Linux x86_64", false, 8); ("Win32", false, 6); ("Win32", false, 16);
       ("Win32", false, 8)]
  = [Ok (webgl1 (VStr "Apple Inc.") (VStr "Apple GPU"));
     Ok (webgl1 (VStr "Qualcomm") (VStr "Adreno (TM) 640"));
     Ok (webgl1 (VStr "Intel Inc.") (VStr "Intel(R) Iris(TM) Plus Graphics"));
     Ok (webgl1 (VStr "Mesa") (VStr "Mesa DRI Intel(R) UHD Graphics"));
     Ok (webgl1 (VStr "NVIDIA Corporation") (VStr "NVIDIA GeForce RTX 3060"));
     Ok (webgl1 (VStr "Intel") (VStr "Intel(R) UHD Graphics 630"));
     Ok (webgl1 (VStr "AMD") (VStr "AMD Radeon RX 580"))].
Proof. vm_compute. reflexivity. Qed.

(** A platform that is not a string is a [TypeError]. *)
Example webgl_type_error :
  generate_webgl_fingerprint (dict_of [("platform", VInt 32)])
  = Raise TypeError.
Proof. vm_compute. reflexivity. Qed.

Example json_dumps_fonts :
  json_dumps ["Arial"; "Times New Roman"]
  = Ok ("[" ++ dq ++ "Arial" ++ dq ++ ", " ++ dq ++ "Times New Roman" ++ dq ++ "]").
Proof. vm_compute. reflexivity. Qed.

Example accept_language :
  generate_realistic_headers "pt-BR" "Mozilla/5.0 (X11) Firefox/127.0"
    !! "Accept-Language" = Some (VStr "pt-BR,pt;q=0.9,en;q=0.8").
Proof. vm_compute. reflexivity. Qed.

(** The weights 70, 25 and 5 cut the unit interval at 0.7 and 0.95. *)
Example device_type_thresholds :
  map (fun r => value_of (choices1 ["desktop"; "mobile"; "tablet"] [70; 25; 5])
                         (fun _ => r))
      [0; 6305039478318694; 6305039478318695; 8556839292003942;
       8556839292003943; 9007199254740991]%N
  = [Some "desktop"; Some "desktop"; Some "mobile"; Some "mobile";
     Some "tablet"; Some "tablet"].
Proof. vm_compute. reflexivity. Qed.

Example choice_of_nothing :
  value_of (choice (@nil string)) (fun _ => 0%N) = None.
Proof. reflexivity. Qed.

(** ** Computations that cannot raise *)

Lemma advanced_refl (g : rng) : advanced g g.
Proof. exists O. reflexivity. Qed.

Lemma advanced_trans (g g1 g2 : rng) :
  advanced g g1 -> advanced g1 g2 -> advanced g g2.
Proof.
  intros [n1 H1] [n2 H2]. exists (n1 + n2)%nat. intros k.
  rewrite H2, H1. f_equal. lia.
Qed.

Lemma returns_ret {A} (a : A) (P : A -> Prop) : P a -> returns (mret a) P.
Proof.
  intros H g. exists a, g.
  split; [reflexivity |]. split; [apply advanced_refl | exact H].
Qed.

Lemma returns_bind {A B} (m : M A) (f : A -> M B) (P : A -> Prop)
    (Q : B -> Prop) :
  returns m P -> (forall a, P a -> returns (f a) Q) -> returns (m ≫= f) Q.
Proof.
  intros Hm Hf g. destruct (Hm g) as (a & g1 & E & Hg1 & Ha).
  destruct (Hf a Ha g1) as (b & g2 & E' & Hg2 & Hb).
  exists b, g2. split; [| split; [apply (advanced_trans g g1 g2 Hg1 Hg2) | exact Hb]].
  unfold mbind, M_bind. now rewrite E.
Qed.

Lemma returns_fmap {A B} (m : M A) (f : A -> B) (P : A -> Prop)
    (Q : B -> Prop) :
  returns m P -> (forall a, P a -> Q (f a)) -> returns (f <$> m) Q.
Proof.
  intros Hm Hf g. destruct (Hm g) as (a & g1 & E & Hg1 & Ha).
  exists (f a), g1. split; [| auto].
  unfold fmap, M_fmap. now rewrite E.
Qed.

Lemma returns_weaken {A} (m : M A) (P Q : A -> Prop) :
  returns m P -> (forall a, P a -> Q a) -> returns m Q.
Proof.
  intros Hm H g. destruct (Hm g) as (a & g1 & E & Hg1 & Ha).
  exists a, g1. auto.
Qed.

Lemma returns_lift {A} (r : result A) (a : A) (P : A -> Prop) :
  r = Ok a -> P a -> returns (lift r) P.
Proof.
  intros -> H g. exists a, g.
  split; [reflexivity |]. split; [apply advanced_refl | exact H].
Qed.

Lemma advanced_draw (g : rng) : advanced g (fun n => g (S n)).
Proof. exists 1%nat. reflexivity. Qed.

Lemma randbelow_returns (n : Z) :
  0 < n -> returns (randbelow n) (fun i => 0 <= i < n).
Proof.
  intros Hn g. eexists _, _. split; [reflexivity |].
  split; [apply advanced_draw |].
  apply Z.mod_pos_bound. exact Hn.
Qed.

Lemma random_returns :
  returns random (fun u => (0 <= u)%Q /\ (u < 1)%Q).
Proof.
  intros g. exists (Z.of_N (g O mod 2 ^ 53) # 2 ^ 53), (fun n => g (S n)).
  split; [reflexivity |]. split; [apply advanced_draw |].
  pose proof (N.mod_lt (g O) (2 ^ 53)%N ltac:(discriminate)) as H.
  apply N2Z.inj_lt in H.
  pose proof (N2Z.is_nonneg (g O mod 2 ^ 53)) as H0.
  change (Z.of_N (2 ^ 53)) with 9007199254740992 in H.
  revert H H0. generalize (Z.of_N (g O mod 2 ^ 53)). intros z H H0.
  unfold Qle, Qlt. simpl. lia.
Qed.

(** [random.choice] of a list that is not empty returns one of its
    elements. *)
Lemma choice_returns {A} (seq : list A) :
  seq <> [] -> returns (choice seq) (fun x => In x seq).
Proof.
  intros Hne. unfold choice.
  destruct seq as [| x0 seq']; [congruence |].
  set (seq := x0 :: seq') in *.
  eapply returns_bind.
  - apply (randbelow_returns (Z.of_nat (length seq))). simpl. lia.
  - intros i Hi.
    destruct (seq !! Z.to_nat i) as [x |] eqn:E.
    + apply returns_ret. apply list_elem_of_In.
      apply (list_elem_of_lookup_2 _ _ _ E).
    + exfalso. apply lookup_ge_None in E. cbv beta in Hi. lia.
Qed.

Lemma bisect_le (cum : list Z) (x : Q) (hi : nat) :
  (bisect cum x hi <= hi)%nat.
Proof.
  revert cum. induction hi as [| hi IH]; intros [| c cs]; simpl; try lia.
  destruct (Qle_bool (inject_Z c) x); [| lia].
  specialize (IH cs). lia.
Qed.

(** The weighted draw of the device type gives one of the three types. *)
Lemma device_type_returns :
  returns (choices1 ["desktop"; "mobile"; "tablet"] [70; 25; 5])
          (fun t => t = "desktop" \/ t = "mobile" \/ t = "tablet").
Proof.
  change (choices1 ["desktop"; "mobile"; "tablet"] [70; 25; 5]) with
    (u ← random;
     match ["desktop"; "mobile"; "tablet"]
             !! bisect [70; 95; 100] (u * inject_Z 100) 2 with
     | Some x => mret x
     | None => lift (Raise IndexError)
     end).
  eapply returns_bind; [apply random_returns |].
  intros u _.
  pose proof (bisect_le [70; 95; 100] (u * inject_Z 100) 2) as Hb.
  destruct (bisect [70; 95; 100] (u * inject_Z 100) 2) as [| [| [| n]]];
    simpl; try (apply returns_ret; tauto).
  lia.
Qed.

Lemma uniform_returns (a b : Q) : returns (uniform a b) (fun _ => True).
Proof.
  unfold uniform. eapply returns_bind; [apply random_returns |].
  intros u _. now apply returns_ret.
Qed.

Lemma randint_returns (a b : Z) :
  a <= b -> returns (randint a b) (fun _ => True).
Proof.
  intros Hab. unfold randint.
  destruct (b - a + 1 <=? 0)%Z eqn:E; [apply Z.leb_le in E; lia |].
  eapply returns_bind; [apply randbelow_returns; lia |].
  intros r _. now apply returns_ret.
Qed.

Lemma coin_returns :
  returns (VBool <$> choice [true; false]) (fun _ => True).
Proof.
  eapply returns_fmap; [apply choice_returns; discriminate | trivial].
Qed.

Lemma const_returns (v : pyval) : returns (const v) (fun _ => True).
Proof. now apply returns_ret. Qed.

Lemma items_in_order_returns (items : list (string * M pyval)) :
  Forall (fun km => returns (snd km) (fun _ => True)) items ->
  returns (items_in_order items) (fun l => map fst l = map fst items).
Proof.
  induction 1 as [| [k m] rest Hm _ IH]; simpl.
  - now apply returns_ret.
  - eapply returns_bind; [exact Hm |]. intros v _.
    eapply returns_bind; [exact IH |]. intros vs Hvs.
    apply returns_ret. simpl. now rewrite Hvs.
Qed.

Lemma dictM_returns (items : list (string * M pyval)) :
  Forall (fun km => returns (snd km) (fun _ => True)) items ->
  returns (dictM items) (fun _ => True).
Proof.
  intros H. unfold dictM.
  eapply returns_bind; [apply (items_in_order_returns items H) |].
  intros l _. now apply returns_ret.
Qed.

Lemma values_in_order_returns (values : list (M pyval)) :
  Forall (fun m => returns m (fun _ => True)) values ->
  returns (values_in_order values) (fun _ => True).
Proof.
  induction 1 as [| m rest Hm _ IH]; simpl.
  - now apply returns_ret.
  - eapply returns_bind; [exact Hm |]. intros v _.
    eapply returns_bind; [exact IH |]. intros vs _.
    now apply returns_ret.
Qed.

Lemma listM_returns (values : list (M pyval)) :
  Forall (fun m => returns m (fun _ => True)) values ->
  returns (listM values) (fun _ => True).
Proof.
  intros H. unfold listM.
  eapply returns_bind; [apply (values_in_order_returns values H) |].
  intros l _. now apply returns_ret.
Qed.

Ltac returns_step :=
  first [ apply const_returns
        | apply uniform_returns
        | apply randint_returns; lia
        | apply coin_returns
        | apply dictM_returns
        | apply listM_returns
        | apply List.Forall_cons
        | apply List.Forall_nil ].

Lemma behavioral_returns :
  returns generate_advanced_behavioral_patterns (fun _ => True).
Proof.
  unfold generate_advanced_behavioral_patterns.
  repeat (returns_step; cbv beta; simpl snd).
Qed.

(** ** The fingerprints of a device *)

Lemma bind_Ok {A B} (a : A) (f : A -> result B) : (Ok a ≫= f) = f a.
Proof. reflexivity. Qed.

(** The canvas fingerprint is the digest of "platform_memory_cores". *)
Lemma canvas_of_fields (d : gmap string pyval) (p : string) (m c : Z) :
  get d "platform" (VStr "Win32") = VStr p ->
  get d "device_memory" (VInt 8) = VInt m ->
  get d "hardware_concurrency" (VInt 4) = VInt c ->
  generate_canvas_fingerprint d =
    Ok (MD5.hexdigest (p ++ "_" ++ pretty m ++ "_" ++ pretty c)).
Proof.
  intros Hp Hm Hc. unfold generate_canvas_fingerprint.
  rewrite Hp, Hm, Hc. reflexivity.
Qed.

(** Every branch of [generate_webgl_fingerprint] returns a dict with the
    four entries, whenever the platform is a string and the memory an
    integer (or either is absent). *)
Lemma webgl_of_fields (d : gmap string pyval) (p : string) (m : Z) :
  get d "platform" (VStr "Win32") = VStr p ->
  get d "device_memory" (VInt 8) = VInt m ->
  exists vendor renderer,
    generate_webgl_fingerprint d = Ok (webgl1 (VStr vendor) (VStr renderer)).
Proof.
  intros Hp Hm. unfold generate_webgl_fingerprint. rewrite Hp, Hm.
  destruct (truthy (get d "is_mobile" (VBool false))).
  - unfold py_in. rewrite bind_Ok.
    destruct (contains "iPhone" p); eexists _, _; reflexivity.
  - unfold py_in. rewrite bind_Ok.
    destruct (contains "Mac" p); [eexists _, _; reflexivity |].
    rewrite bind_Ok.
    destruct (contains "Linux" p); [eexists _, _; reflexivity |].
    unfold item_mod. change (Z.of_nat (length gpu_options)) with 3.
    assert (m mod 3 = 0 \/ m mod 3 = 1 \/ m mod 3 = 2) as H
      by (pose proof (Z.mod_pos_bound m 3); lia).
    destruct H as [-> | [-> | ->]]; eexists _, _; reflexivity.
Qed.

Lemma webgl1_entries (vendor renderer : pyval) :
  webgl1 vendor renderer !! "vendor" = Some vendor /\
  webgl1 vendor renderer !! "renderer" = Some renderer /\
  webgl1 vendor renderer !! "version" = Some (VStr "WebGL 1.0") /\
  webgl1 vendor renderer !! "shading_language_version"
    = Some (VStr "WebGL GLSL ES 1.0").
Proof. repeat split; vm_compute; reflexivity. Qed.

Lemma fonts_of_platform (p : string) :
  exists fonts s,
    generate_fonts_list (VStr p) = Ok fonts /\ json_dumps fonts = Ok s.
Proof.
  unfold generate_fonts_list, py_in. rewrite bind_Ok.
  destruct (contains "Win32" p).
  - eexists _, _. split; [reflexivity | vm_compute; reflexivity].
  - rewrite bind_Ok. destruct (contains "Mac" p);
      eexists _, _; (split; [reflexivity | vm_compute; reflexivity]).
Qed.

Lemma stealth_of_fields (d : gmap string pyval) (p : string) (m c : Z) :
  get d "platform" (VStr "Win32") = VStr p ->
  get d "device_memory" (VInt 8) = VInt m ->
  get d "hardware_concurrency" (VInt 4) = VInt c ->
  exists script, create_stealth_scripts d = Ok script.
Proof.
  intros Hp Hm Hc. unfold create_stealth_scripts.
  rewrite (canvas_of_fields d p m c Hp Hm Hc), bind_Ok.
  destruct (webgl_of_fields d p m Hp Hm) as (vendor & renderer & ->).
  rewrite bind_Ok, Hp. simpl py_str. rewrite bind_Ok.
  destruct (fonts_of_platform p) as (fonts & s & Hf & Hj).
  rewrite Hf, bind_Ok, Hj, bind_Ok.
  destruct (webgl1_entries (VStr vendor) (VStr renderer)) as (H1 & H2 & H3 & H4).
  unfold item. rewrite H1, H2, H3, H4. simpl py_str.
  rewrite !bind_Ok. eexists. reflexivity.
Qed.

Lemma tls_of_fields (d : gmap string pyval) (p ua : string) :
  get d "platform" (VStr "Win32") = VStr p ->
  get d "user_agent" (VStr "") = VStr ua ->
  exists tls, generate_tls_fingerprint d = Ok tls.
Proof.
  intros Hp Hua. unfold generate_tls_fingerprint. rewrite Hp, Hua.
  unfold py_in. rewrite bind_Ok.
  destruct (contains "Chrome" ua).
  - rewrite bind_Ok. destruct (contains "Win32" p);
      [eexists; reflexivity |].
    rewrite bind_Ok. destruct (contains "Mac" p); eexists; reflexivity.
  - rewrite bind_Ok. destruct (contains "Safari" ua); eexists; reflexivity.
Qed.

(** ** What [random_profile] returns *)

Lemma dict_of_lookup (items : list (string * pyval)) (k : string) (v : pyval) :
  NoDup (map fst items) -> In (k, v) items -> dict_of items !! k = Some v.
Proof.
  intros Hnd Hin. unfold dict_of.
  apply elem_of_list_to_map_1; [exact Hnd |].
  now apply list_elem_of_In.
Qed.

Lemma get_dict_of (items : list (string * pyval)) (k : string)
    (v dflt : pyval) :
  NoDup (map fst items) -> In (k, v) items -> get (dict_of items) k dflt = v.
Proof.
  intros Hnd Hin. unfold get. now rewrite (dict_of_lookup items k v Hnd Hin).
Qed.

(** Discharges [NoDup] of a list of literal keys and membership of an
    item in a literal list. *)
Ltac literal_keys :=
  cbn [map fst]; apply (bool_decide_unpack _); vm_compute; exact I.

Ltac literal_item :=
  cbn [In]; repeat (first [left; reflexivity | right]).

Ltac literal_get := apply get_dict_of; [literal_keys | literal_item].

Lemma random_profile_returns :
  returns random_profile
    (fun profile => exists device locale timezone,
       In device all_devices /\ In (locale, timezone) LOCALE_TZS /\
       profile_from device locale timezone profile).
Proof.
  unfold random_profile.
  eapply returns_bind; [apply device_type_returns |].
  intros device_type Htype.
  eapply returns_bind with (P := fun device => In device all_devices).
  { unfold all_devices.
    destruct Htype as [-> | [-> | ->]];
      cbv [String.eqb Ascii.eqb Bool.eqb];
      (eapply returns_weaken; [apply choice_returns; discriminate |]);
      intros d Hd; rewrite !in_app_iff; tauto. }
  intros device Hdevice.
  eapply returns_bind; [apply (choice_returns LOCALE_TZS); discriminate |].
  intros [locale timezone] Hlocale.
  eapply returns_bind; [apply choice_returns; discriminate |].
  intros color_scheme _.
  eapply returns_bind; [apply choice_returns; discriminate |].
  intros reduced_motion _.
  cbv zeta.
  eapply returns_bind.
  { eapply returns_lift with (P := fun c => c = canvas_of (platform device)
        (device_memory device) (hardware_concurrency device));
      [apply canvas_of_fields; literal_get | reflexivity]. }
  intros canvas ->.
  destruct (webgl_of_fields
              (webgl_arg (platform device) (device_memory device)
                         (hardware_concurrency device) (is_mobile device))
              (platform device) (device_memory device))
    as (vendor & renderer & Hwebgl); [literal_get | literal_get |].
  eapply returns_bind.
  { eapply returns_lift with (P := fun w => w = webgl1 (VStr vendor) (VStr renderer));
      [exact Hwebgl | reflexivity]. }
  intros webgl ->.
  eapply returns_bind.
  { match goal with |- returns (lift (create_stealth_scripts ?d)) _ =>
      destruct (stealth_of_fields d (platform device) (device_memory device)
                  (hardware_concurrency device)) as (script & Hscript);
        [literal_get | literal_get | literal_get |]
    end.
    eapply returns_lift with (P := fun _ => True); [exact Hscript | exact I]. }
  intros stealth_script _.
  eapply returns_bind.
  { match goal with |- returns (lift (generate_tls_fingerprint ?d)) _ =>
      destruct (tls_of_fields d (platform device) (user_agent device))
        as (tls & Htls); [literal_get | literal_get |]
    end.
    eapply returns_lift with (P := fun _ => True); [exact Htls | exact I]. }
  intros tls_fingerprint _.
  eapply returns_bind; [apply behavioral_returns |].
  intros advanced_behavioral _.
  apply returns_ret.
  exists device, locale, timezone.
  split; [exact Hdevice |]. split; [exact Hlocale |].
  exists color_scheme, reduced_motion, vendor, renderer, stealth_script,
         tls_fingerprint, advanced_behavioral.
  split; [exact Hwebgl | reflexivity].
Qed.

Ltac profile_entry := apply dict_of_lookup; [literal_keys | literal_item].

(** The entries of a profile that the statements below are about. *)
Lemma profile_from_entries (device : DeviceProfile) (locale timezone : string)
    (profile : gmap string pyval) :
  profile_from device locale timezone profile ->
  profile !! "platform" = Some (VStr (platform device)) /\
  profile !! "device_memory" = Some (VInt (device_memory device)) /\
  profile !! "hardware_concurrency"
    = Some (VInt (hardware_concurrency device)) /\
  profile !! "is_mobile" = Some (VBool (is_mobile device)) /\
  profile !! "locale" = Some (VStr locale) /\
  profile !! "timezone" = Some (VStr timezone) /\
  profile !! "timezone_id" = Some (VStr timezone) /\
  profile !! "canvas_fingerprint"
    = Some (VStr (canvas_of (platform device) (device_memory device)
                            (hardware_concurrency device))) /\
  (exists webgl,
     generate_webgl_fingerprint
       (webgl_arg (platform device) (device_memory device)
                  (hardware_concurrency device) (is_mobile device)) = Ok webgl /\
     profile !! "webgl_fingerprint" = Some (VDict webgl)) /\
  dom profile = list_to_set profile_keys.
Proof.
  intros (cs & rm & vendor & renderer & script & tls & adv & Hwebgl & ->).
  do 8 (split; [profile_entry |]).
  split.
  - exists (webgl1 (VStr vendor) (VStr renderer)).
    split; [exact Hwebgl | profile_entry].
  - unfold dict_of. rewrite dom_list_to_map_L. reflexivity.
Qed.

(** C4: the platform, the memory size and the number of cores of a
    profile are those of one and the same entry of [DESKTOP_PROFILES],
    [MOBILE_PROFILES] or [TABLET_PROFILES], for every outcome of the
    random choices. *)
Theorem C4_device_fields_from_one_entry (g : rng) :
  exists profile g' device,
    random_profile g = Ok (profile, g') /\
    (In device DESKTOP_PROFILES \/ In device MOBILE_PROFILES \/
     In device TABLET_PROFILES) /\
    profile !! "platform" = Some (VStr (platform device)) /\
    profile !! "device_memory" = Some (VInt (device_memory device)) /\
    profile !! "hardware_concurrency"
      = Some (VInt (hardware_concurrency device)).
Proof.
  destruct (random_profile_returns g)
    as (profile & g' & Hrun & _ & device & locale & timezone & Hdev & _ & Hfrom).
  destruct (profile_from_entries _ _ _ _ Hfrom) as (H1 & H2 & H3 & _).
  exists profile, g', device. split; [exact Hrun |].
  split; [| auto].
  unfold all_devices in Hdev. rewrite !in_app_iff in Hdev. exact Hdev.
Qed.

(** C7: the locale and the timezone of a profile are the two halves of
    one entry of [LOCALE_TZS], and [timezone_id] is the timezone. *)
Theorem C7_locale_timezone_pair (g : rng) :
  exists profile g' locale timezone,
    random_profile g = Ok (profile, g') /\
    In (locale, timezone) LOCALE_TZS /\
    profile !! "locale" = Some (VStr locale) /\
    profile !! "timezone" = Some (VStr timezone) /\
    profile !! "timezone_id" = profile !! "timezone".
Proof.
  destruct (random_profile_returns g)
    as (profile & g' & Hrun & _ & device & locale & timezone & _ & Hloc & Hfrom).
  destruct (profile_from_entries _ _ _ _ Hfrom)
    as (_ & _ & _ & _ & H5 & H6 & H7 & _).
  exists profile, g', locale, timezone.
  split; [exact Hrun |]. split; [exact Hloc |].
  split; [exact H5 |]. split; [exact H6 |]. now rewrite H6, H7.
Qed.

(** The two fingerprints are functions of the entries they read. *)
Lemma canvas_reads (d1 d2 : gmap string pyval) :
  d1 !! "platform" = d2 !! "platform" ->
  d1 !! "device_memory" = d2 !! "device_memory" ->
  d1 !! "hardware_concurrency" = d2 !! "hardware_concurrency" ->
  generate_canvas_fingerprint d1 = generate_canvas_fingerprint d2.
Proof.
  intros H1 H2 H3. unfold generate_canvas_fingerprint, get.
  now rewrite H1, H2, H3.
Qed.

Lemma webgl_reads (d1 d2 : gmap string pyval) :
  d1 !! "platform" = d2 !! "platform" ->
  d1 !! "device_memory" = d2 !! "device_memory" ->
  d1 !! "is_mobile" = d2 !! "is_mobile" ->
  generate_webgl_fingerprint d1 = generate_webgl_fingerprint d2.
Proof.
  intros H1 H2 H3. unfold generate_webgl_fingerprint, get.
  now rewrite H1, H2, H3.
Qed.

(** C10: the canvas fingerprint of a profile is determined by its
    platform, memory size and number of cores, and its WebGL fingerprint
    by these and the mobile flag: two profiles, from any two random
    sources, that agree on these entries have the same fingerprints.  The
    same holds of the two functions on any two dicts. *)
Theorem C10_fingerprints_determined_by_device (g1 g2 : rng) :
  (exists profile1 profile2 g1' g2',
     random_profile g1 = Ok (profile1, g1') /\
     random_profile g2 = Ok (profile2, g2') /\
     (profile1 !! "platform" = profile2 !! "platform" ->
      profile1 !! "device_memory" = profile2 !! "device_memory" ->
      profile1 !! "hardware_concurrency" = profile2 !! "hardware_concurrency" ->
      profile1 !! "canvas_fingerprint" = profile2 !! "canvas_fingerprint" /\
      (profile1 !! "is_mobile" = profile2 !! "is_mobile" ->
       profile1 !! "webgl_fingerprint" = profile2 !! "webgl_fingerprint"))) /\
  (forall d1 d2 : gmap string pyval,
     d1 !! "platform" = d2 !! "platform" ->
     d1 !! "device_memory" = d2 !! "device_memory" ->
     (d1 !! "hardware_concurrency" = d2 !! "hardware_concurrency" ->
      generate_canvas_fingerprint d1 = generate_canvas_fingerprint d2) /\
     (d1 !! "is_mobile" = d2 !! "is_mobile" ->
      generate_webgl_fingerprint d1 = generate_webgl_fingerprint d2)).
Proof.
  split.
  - destruct (random_profile_returns g1)
      as (p1 & g1' & Hrun1 & _ & dev1 & l1 & t1 & _ & _ & Hfrom1).
    destruct (random_profile_returns g2)
      as (p2 & g2' & Hrun2 & _ & dev2 & l2 & t2 & _ & _ & Hfrom2).
    destruct (profile_from_entries _ _ _ _ Hfrom1)
      as (Hp1 & Hm1 & Hc1 & Hmob1 & _ & _ & _ & Hcan1 & (w1 & Hw1 & Hwebgl1) & _).
    destruct (profile_from_entries _ _ _ _ Hfrom2)
      as (Hp2 & Hm2 & Hc2 & Hmob2 & _ & _ & _ & Hcan2 & (w2 & Hw2 & Hwebgl2) & _).
    exists p1, p2, g1', g2'. split; [exact Hrun1 |]. split; [exact Hrun2 |].
    rewrite Hp1, Hp2, Hm1, Hm2, Hc1, Hc2, Hcan1, Hcan2, Hmob1, Hmob2,
      Hwebgl1, Hwebgl2.
    intros Ep Em Ec. injection Ep as Ep. injection Em as Em. injection Ec as Ec.
    split; [now rewrite Ep, Em, Ec |].
    intros Emob. injection Emob as Emob.
    rewrite Ep, Em, Ec, Emob in Hw1. rewrite Hw1 in Hw2.
    now injection Hw2 as ->.
  - intros d1 d2 Hp Hm. split; intros H.
    + now apply canvas_reads.
    + now apply webgl_reads.
Qed.

(** ** Two runs *)

Example first_desktop_entry :
  entry zeros "platform" = Some (VStr "Win32") /\
  entry zeros "device_memory" = Some (VInt 8) /\
  entry zeros "hardware_concurrency" = Some (VInt 8) /\
  entry zeros "locale" = Some (VStr "en-US") /\
  entry zeros "timezone_id" = Some (VStr "America/New_York") /\
  entry zeros "canvas_fingerprint"
    = Some (VStr "11f5fda367d9f1d98251435e032078d6").
Proof. repeat split; vm_compute; reflexivity. Qed.

Lemma C10_witness :
  entry zeros "user_agent" <> entry zeros_but_15 "user_agent" /\
  entry zeros "canvas_fingerprint" = entry zeros_but_15 "canvas_fingerprint" /\
  entry zeros "webgl_fingerprint" = entry zeros_but_15 "webgl_fingerprint".
Proof.
  destruct (C10_fingerprints_determined_by_device zeros zeros_but_15)
    as [(p1 & p2 & g1' & g2' & H1 & H2 & H) _].
  assert (forall key, p1 !! key = entry zeros key) as E1
    by (intros key; unfold entry; now rewrite H1).
  assert (forall key, p2 !! key = entry zeros_but_15 key) as E2
    by (intros key; unfold entry; now rewrite H2).
  split; [vm_compute; discriminate |].
  rewrite <- !E1, <- !E2.
  destruct H as [Hcanvas Hwebgl];
    try (rewrite E1, E2; vm_compute; reflexivity).
  split; [exact Hcanvas |].
  apply Hwebgl. rewrite E1, E2. vm_compute. reflexivity.
Defined.

End FingerprintFacts.

(** * Further properties of start-up, the runners and the dashboard *)

Section MoreMainFacts.
Import Py Main RunnerProps ExtraProps.

(** ** The URLs read from the file *)

Lemma lstrip_split (s : text) :
  exists ws, s = ws ++ lstrip s /\ Forall (fun c => isspace c = true) ws.
Proof.
  induction s as [| c s (ws & E & Hws)]; [exists []; split; [reflexivity | constructor] |].
  simpl. destruct (isspace c) eqn:Hc.
  - exists (c :: ws). split; [simpl; now f_equal | now constructor].
  - exists []. split; [reflexivity | constructor].
Qed.

Lemma lstrip_head (s : text) (c : N) (r : text) :
  lstrip s = c :: r -> isspace c = false.
Proof.
  induction s as [| c0 s IH]; simpl; [discriminate |].
  destruct (isspace c0) eqn:Hc; [exact IH |].
  intros E. injection E as <- _. exact Hc.
Qed.

(** [strip] cuts a block of whitespace off each end, and what is left
    neither starts nor ends with whitespace. *)
Lemma strip_split (s : text) :
  exists before after,
    s = before ++ strip s ++ after /\
    Forall (fun c => isspace c = true) before /\
    Forall (fun c => isspace c = true) after /\
    (forall c, hd_error (strip s) = Some c -> isspace c = false) /\
    (forall c, last (strip s) = Some c -> isspace c = false).
Proof.
  destruct (lstrip_split s) as (ws1 & E1 & H1).
  destruct (lstrip_split (rev (lstrip s))) as (ws2 & E2 & H2).
  assert (lstrip s = strip s ++ rev ws2) as E3.
  { unfold strip, rstrip. rewrite <- rev_app_distr, <- E2. symmetry. apply rev_involutive. }
  exists ws1, (rev ws2). split; [now rewrite <- E3 |].
  split; [exact H1 |]. split; [apply Forall_rev; exact H2 |].
  split.
  - intros c Hc. destruct (strip s) as [| c0 r] eqn:Es; [discriminate Hc |].
    injection Hc as ->. simpl in E3. apply (lstrip_head s c _ E3).
  - intros c Hc. unfold strip, rstrip in Hc.
    destruct (lstrip (rev (lstrip s))) as [| c0 r] eqn:El; [discriminate Hc |].
    simpl in Hc. rewrite last_snoc in Hc. injection Hc as ->.
    apply (lstrip_head _ _ _ El).
Qed.

Lemma strip_chars (P : N -> Prop) (s : text) : Forall P s -> Forall P (strip s).
Proof.
  intros H. destruct (strip_split s) as (b & a & E & _).
  rewrite E in H. apply Forall_app in H as [_ H].
  now apply Forall_app in H as [H _].
Qed.

(** No line of [splitlines] holds a line boundary. *)
Lemma splitlines_from_no_break (n : nat) :
  forall s cur, (length s <= n)%nat ->
    Forall (fun c => is_linebreak c = false) cur ->
    Forall (Forall (fun c => is_linebreak c = false)) (splitlines_from cur s).
Proof.
  induction n as [| n IH]; intros s cur Hlen Hcur.
  - destruct s; [| simpl in Hlen; lia].
    simpl. destruct cur; constructor; [apply Forall_rev; exact Hcur | constructor].
  - destruct s as [| c s']; simpl.
    + destruct cur; constructor; [apply Forall_rev; exact Hcur | constructor].
    + simpl in Hlen. destruct (is_linebreak c) eqn:Hc.
      * destruct s' as [| c' s''].
        { constructor; [apply Forall_rev; exact Hcur | constructor]. }
        simpl in Hlen.
        destruct ((c =? 13)%N && (c' =? 10)%N);
          (constructor; [apply Forall_rev; exact Hcur |]);
          apply IH; try constructor; simpl; lia.
      * apply IH; [lia | now constructor].
Qed.

(** X1: [urls.txt] yields no URL exactly when it holds nothing but
    whitespace characters (line boundaries included), so this is the one
    case in which [main] gives up with "No URLs found in the file". *)
Theorem X1_no_url_iff_blank (int_of_str : text -> option Z) (w : World)
    (content : text) :
  (read_urls content = [] <-> Forall (fun c => isspace c = true) content) /\
  (read_text w = Value content ->
   (main int_of_str w =
      ([Print (lit "[bold red]No URLs found in the file[/bold red]")], Exit 1)
    <-> Forall (fun c => isspace c = true) content)).
Proof.
  split; [apply read_urls_empty_iff |].
  intros Hread. rewrite <- read_urls_empty_iff. unfold main. rewrite Hread.
  destruct (read_urls content) as [| u us]; simpl; [tauto |].
  split; [| discriminate].
  destruct (ask_instances int_of_str (console_input w)); [| discriminate].
  destruct (start_browser w) as [o [e |]]; discriminate.
Qed.

Lemma read_urls_clean (content url : text) :
  In url (read_urls content) -> clean url.
Proof.
  unfold read_urls. intros Hin.
  apply in_map_iff in Hin as (ln & <- & Hin).
  apply filter_In in Hin as [Hin Hne].
  destruct (strip_split ln) as (b & a & _ & _ & _ & Hhd & Hlast).
  split; [destruct (strip ln); [discriminate Hne | discriminate] |].
  split; [exact Hhd |]. split; [exact Hlast |].
  apply strip_chars.
  pose proof (splitlines_from_no_break (length content) content [] (le_n _)
                (List.Forall_nil _)) as H.
  apply (proj1 (List.Forall_forall _ _) H ln Hin).
Qed.

(** X2: every URL read from the file is the stripped form of one of its
    lines, is not empty, has no whitespace at either end and no line
    boundary inside. *)
Theorem X2_urls_are_clean (content url : text) :
  In url (read_urls content) ->
  clean url /\ exists ln, In ln (splitlines content) /\ url = strip ln.
Proof.
  unfold read_urls. intros Hin.
  apply in_map_iff in Hin as (ln & <- & Hin).
  apply filter_In in Hin as [Hin Hne].
  split; [| exists ln; auto].
  destruct (strip_split ln) as (b & a & _ & _ & _ & Hhd & Hlast).
  split; [destruct (strip ln); [discriminate Hne | discriminate] |].
  split; [exact Hhd |]. split; [exact Hlast |].
  apply strip_chars.
  pose proof (splitlines_from_no_break (length content) content [] (le_n _)
                (List.Forall_nil _)) as H.
  apply (proj1 (List.Forall_forall _ _) H ln Hin).
Qed.

Lemma X2_witness :
  clean (lit "https://a.example/x") /\
  exists ln, In ln (splitlines (lit "  https://a.example/x  ")) /\
             lit "https://a.example/x" = strip ln.
Proof.
  apply (X2_urls_are_clean (lit "  https://a.example/x  ")).
  left. reflexivity.
Defined.

(** ** The instances [main] starts *)

Lemma ask_instances_range (int_of_str : text -> option Z)
    (answer : outcome text) (n : Z) :
  ask_instances int_of_str answer = Some n -> 1 <= n <= 50.
Proof.
  unfold ask_instances. destruct answer as [user_in | msg |]; try discriminate.
  - destruct (int_of_str (strip user_in)) as [k |].
    + destruct (k <? 1) eqn:E1; simpl.
      * intros H. injection H as <-. lia.
      * destruct (k >? 50) eqn:E2; intros H; injection H as <-; [lia |].
        apply Z.ltb_ge in E1. rewrite Z.gtb_ltb in E2. apply Z.ltb_ge in E2. lia.
    + intros H. injection H as <-. lia.
  - intros H. injection H as <-. lia.
Qed.

Lemma make_states_ids (w : World) (n : Z) :
  map id (make_states w n) = map (fun k => Z.of_nat k + 1) (seq 0 (Z.to_nat n)).
Proof.
  unfold make_states. rewrite map_map. reflexivity.
Qed.

(** X3: whatever is typed at the prompt, and whatever [int] makes of it,
    [main] starts at least 1 and at most 50 runners; their ids are
    1, 2, ..., in this order, every counter is 0, and the runner with id
    [k] first sleeps [k/2] seconds. *)
Theorem X3_between_1_and_50_runners (int_of_str : text -> option Z)
    (w : World) (out : list output) (p : Proc) :
  main int_of_str w = (out, Serving p) ->
  (1 <= length (runners p) <= 50)%nat /\
  map (fun r => id (state r)) (runners p)
    = map (fun k => Z.of_nat k + 1) (seq 0 (length (runners p))) /\
  Forall (fun r => at_ r = Stagger (inject_Z (id (state r)) * (1 # 2)) /\
                   counts (state r) = (0, 0, 0) /\
                   status (state r) = lit "idle" /\ last_url (state r) = [])
         (runners p).
Proof.
  intros Hmain.
  destruct (main_serving _ _ _ _ Hmain) as (c & n & _ & _ & _ & Hask & Hr & _).
  apply ask_instances_range in Hask.
  assert (length (runners p) = Z.to_nat n) as Hlen
    by (now rewrite Hr, length_map, make_states_length).
  split; [lia |]. split.
  - rewrite Hlen, Hr, map_map. apply make_states_ids.
  - rewrite Hr. apply List.Forall_forall. intros r Hin.
    apply in_map_iff in Hin as (s & <- & Hin).
    unfold make_states in Hin. apply in_map_iff in Hin as (k & <- & _).
    repeat split.
Qed.

Lemma X3_witness :
  exists out p,
    main Py.int (world_of one_url (lit "1000")) = (out, Serving p) /\
    (1 <= length (runners p) <= 50)%nat /\
    map (fun r => id (state r)) (runners p) = [1].
Proof.
  eexists _, _. split; [reflexivity |].
  destruct (X3_between_1_and_50_runners Py.int (world_of one_url (lit "1000"))
              _ _ eq_refl) as (H1 & H2 & _).
  split; [exact H1 | exact H2].
Defined.

(** ** The browser and the prompt *)

(** The four ways [main] can go. *)
Lemma main_cases (int_of_str : text -> option Z) (w : World) :
  (exists msg, main int_of_str w = ([Print msg], Exit 1) /\
     ((exists e, read_text w = Failed e) \/
      (exists content, read_text w = Value content /\ read_urls content = []))) \/
  (main int_of_str w = ([], KeyboardInterrupt) /\ read_text w = Interrupted) \/
  (main int_of_str w = ([the_prompt], KeyboardInterrupt) /\
     console_input w = Interrupted) \/
  (exists content n out e,
     read_text w = Value content /\ read_urls content <> [] /\
     ask_instances int_of_str (console_input w) = Some n /\
     start_browser w = (out, e) /\
     fst (main int_of_str w) = the_prompt :: out /\
     match e with
     | Some e => snd (main int_of_str w) = e
     | None => exists p, snd (main int_of_str w) = Serving p
     end).
Proof.
  unfold main.
  destruct (read_text w) as [content | e |].
  - destruct (read_urls content) as [| u us] eqn:Eurls; simpl.
    { left. eexists. split; [reflexivity |]. right. eauto. }
    destruct (ask_instances int_of_str (console_input w)) as [n |] eqn:Eask.
    + right. right. right.
      destruct (start_browser w) as [out [e |]] eqn:Eb;
        exists content, n, out; eexists;
        (split; [reflexivity |]); (split; [rewrite Eurls; discriminate |]);
        (split; [reflexivity |]); (split; [reflexivity |]);
        (split; [reflexivity |]); simpl; eauto.
    + right. right. left. split; [reflexivity |].
      unfold ask_instances in Eask.
      destruct (console_input w) as [a | m |]; [| discriminate | reflexivity].
      destruct (int_of_str (strip a)); [destruct orb |]; discriminate.
  - left. eexists. split; [reflexivity |]. left. eauto.
  - right. left. split; reflexivity.
Qed.

(** The launches of [start_browser]. *)
Lemma start_browser_launches (w : World) :
  (launches (fst (start_browser w)) <= 2)%nat /\
  ((In InstallBrowsers (fst (start_browser w)) \/
    launches (fst (start_browser w)) = 2%nat) ->
     exists msg, launch w = Failed msg) /\
  (snd (start_browser w) = None ->
     launch w = Value tt \/ relaunch w = Value tt).
Proof.
  unfold start_browser.
  destruct (playwright w) as [[] | ? |], (launch w) as [[] | ? |],
           (relaunch w) as [[] | ? |]; cbn;
    (split; [lia |]); (split; [| intros H; try discriminate H; tauto]);
    intros [H | H]; try discriminate H; eauto;
    repeat (destruct H as [H | H]; try discriminate H); destruct H.
Qed.

(** X4: [main] launches a browser only after it has read at least one URL
    from the file and the prompt has been answered (or has failed); it
    launches at most twice, and the second launch and the install of the
    browsers happen only after the first launch has failed.  It serves
    only if one of the two launches succeeded. *)
Theorem X4_launch_only_with_urls (int_of_str : text -> option Z) (w : World) :
  (In LaunchBrowser (fst (main int_of_str w)) ->
     (exists content, read_text w = Value content /\ read_urls content <> []) /\
     console_input w <> Interrupted /\
     hd_error (fst (main int_of_str w)) = Some the_prompt) /\
  (launches (fst (main int_of_str w)) <= 2)%nat /\
  ((In InstallBrowsers (fst (main int_of_str w)) \/
    launches (fst (main int_of_str w)) = 2%nat) ->
     exists msg, launch w = Failed msg) /\
  (forall p, snd (main int_of_str w) = Serving p ->
     launch w = Value tt \/ relaunch w = Value tt).
Proof.
  destruct (start_browser_launches w) as (Hb1 & Hb2 & Hb3).
  destruct (main_cases int_of_str w)
    as [(msg & E & _) | [[E _] | [[E _] | (c & n & out & e & Hr & Hu & Ha & Hs & Ho & He)]]].
  - rewrite E. simpl fst. simpl snd.
    split; [intros [H | []]; discriminate H |]. split; [cbn; lia |].
    split; [intros [[H | []] | H]; discriminate H |].
    intros p H; discriminate H.
  - rewrite E. simpl fst. simpl snd.
    split; [intros [] |]. split; [cbn; lia |].
    split; [intros [[] | H]; discriminate H |].
    intros p H; discriminate H.
  - rewrite E. simpl fst. simpl snd.
    split; [intros [H | []]; discriminate H |]. split; [cbn; lia |].
    split; [intros [[H | []] | H]; discriminate H |].
    intros p H; discriminate H.
  - rewrite Ho. rewrite Hs in Hb1, Hb2, Hb3. simpl in Hb1, Hb2, Hb3.
    change (launches (the_prompt :: out)) with (launches out).
    split; [| split; [exact Hb1 | split]].
    + intros _. split; [eauto |]. split; [| reflexivity].
      intros Ein. rewrite Ein in Ha. discriminate Ha.
    + intros [[H | H] | H]; [discriminate H | |]; apply Hb2; auto.
    + intros p Hp. apply Hb3. destruct e as [e |]; [| reflexivity].
      exfalso. rewrite Hp in He. subst e.
      destruct (start_browser_ending _ _ _ Hs) as [[m Hm] | Hk];
        [discriminate Hm | discriminate Hk].
Qed.

Lemma X4_witness :
  launches (fst (main Py.int (world_of one_url (lit "2")))) = 1%nat /\
  ~ In LaunchBrowser (fst (main Py.int world_without_file)).
Proof.
  split; [reflexivity |].
  intros H.
  destruct (X4_launch_only_with_urls Py.int world_without_file)
    as [Hlaunch _].
  destruct (Hlaunch H) as [(content & Hread & _) _]. discriminate Hread.
Defined.

(** ** What the counters count *)

Lemma runner_run_counts (urls : list text) (evs : list event) :
  forall total total' r r',
    runner_run urls total r evs = Some (r', total') ->
    successes (state r') = successes (state r) + returned evs /\
    failures (state r') = failures (state r) + raised evs /\
    runs (state r') = runs (state r) + returned evs + raised evs /\
    total' = total + returned evs /\
    id (state r') = id (state r).
Proof.
  induction evs as [| ev evs IH]; intros total total' r r' H; simpl in H.
  - injection H as <- <-. unfold returned, raised. simpl. lia.
  - destruct (runner_step urls total r ev) as [[r1 t1] |] eqn:Hs; [| discriminate H].
    destruct (IH _ _ _ _ H) as (H1 & H2 & H3 & H4 & H5).
    pose proof (runner_step_counts _ _ _ _ _ _ Hs) as Hc.
    assert (id (state r1) = id (state r) /\
            t1 = total + match ev with Returned _ => 1 | _ => 0 end) as [Hid Ht].
    { unfold runner_step in Hs.
      destruct (at_ r), ev; try discriminate Hs; injection Hs as <- <-;
        (split; [| lia]); try reflexivity;
        unfold loop_head; destruct (pick_url urls pick); reflexivity. }
    unfold counts in Hc. unfold returned, raised in *. simpl.
    destruct ev; injection Hc as Hc1 Hc2 Hc3; lia.
Qed.

(** X5: the counters of a runner count its passes.  From the start of
    [runner_task] and along any sequence of events, [successes] is the
    number of passes that returned, [failures] the number of passes that
    raised and [runs] their sum; the id never changes, and no counter
    ever decreases. *)
Theorem X5_counters_count_passes (urls : list text) (i : Z) (t0 : Q)
    (total total' : Z) (evs : list event) (r : Runner) :
  runner_run urls total (runner_task (new_state i t0)) evs = Some (r, total') ->
  successes (state r) = returned evs /\
  failures (state r) = raised evs /\
  runs (state r) = returned evs + raised evs /\
  total' = total + returned evs /\
  id (state r) = i /\
  (forall ev r' total'',
     runner_step urls total' r ev = Some (r', total'') ->
     runs (state r) <= runs (state r') /\
     successes (state r) <= successes (state r') /\
     failures (state r) <= failures (state r') /\ total' <= total'').
Proof.
  intros Hrun.
  destruct (runner_run_counts _ _ _ _ _ _ Hrun) as (H1 & H2 & H3 & H4 & H5).
  simpl in H1, H2, H3, H5.
  split; [lia |]. split; [lia |]. split; [lia |]. split; [exact H4 |].
  split; [exact H5 |].
  intros ev r' total'' Hs.
  destruct (runner_run_counts urls [ev] total' total'' r r') as (K1 & K2 & K3 & K4 & _).
  { simpl. now rewrite Hs. }
  unfold returned, raised in K1, K2, K3, K4. simpl in K1, K2, K3, K4.
  destruct ev; lia.
Qed.

Lemma X5_witness :
  exists r total,
    runner_run sample_urls 0 (runner_task (new_state 3 0))
      [Woke 0 1; Raised (lit "boom"); Woke 0 2; Returned []; Woke 5 3;
       Raised (lit "again")] = Some (r, total) /\
    (successes (state r), failures (state r), runs (state r), total)
      = (1, 2, 3, 1).
Proof.
  eexists _, _. split; [reflexivity |].
  destruct (X5_counters_count_passes sample_urls 3 0 0 _
              [Woke 0 1; Raised (lit "boom"); Woke 0 2; Returned []; Woke 5 3;
               Raised (lit "again")] _ eq_refl)
    as (H1 & H2 & H3 & H4 & _).
  rewrite H1, H2, H3, H4. reflexivity.
Defined.

(** ** Runners side by side *)

Lemma total_insert (f : InstanceState -> Z) (rs : list Runner) (i : nat)
    (r r' : Runner) :
  rs !! i = Some r ->
  Dashboard.total f (map state (<[i := r']> rs))
    = Dashboard.total f (map state rs) - f (state r) + f (state r').
Proof.
  revert i. induction rs as [| r0 rs IH]; intros [| i] H; try discriminate H.
  - injection H as ->. unfold Dashboard.total. simpl. lia.
  - simpl in H. specialize (IH i H).
    unfold Dashboard.total in *. simpl. lia.
Qed.

Lemma proc_step_inv (p p' : Proc) (i : nat) (ev : event) :
  proc_step p i ev = Some p' ->
  exists r r',
    runners p !! i = Some r /\
    runner_step (urls_list p) (total_done p) r ev = Some (r', total_done p') /\
    runners p' = <[i := r']> (runners p) /\ urls_list p' = urls_list p.
Proof.
  unfold proc_step. intros H.
  destruct (runners p !! i) as [r |] eqn:Hr; [| discriminate H].
  destruct (runner_step (urls_list p) (total_done p) r ev) as [[r' t] |] eqn:Hs;
    [| discriminate H].
  injection H as <-. exists r, r'. auto.
Qed.

(** X6: [total_done], the counter the runners share, is the sum of their
    [successes], however the runners that [main] started are
    scheduled. *)
Theorem X6_total_done_is_sum_of_successes (int_of_str : text -> option Z)
    (w : World) (out : list output) (p0 p : Proc) (sched : list (nat * event)) :
  main int_of_str w = (out, Serving p0) ->
  proc_run p0 sched = Some p ->
  total_done p = Dashboard.total successes (map state (runners p)).
Proof.
  intros Hmain Hrun.
  assert (total_done p0 = Dashboard.total successes (map state (runners p0))) as H0.
  { destruct (main_serving _ _ _ _ Hmain) as (c & n & _ & _ & _ & _ & Hr & ->).
    rewrite Hr. unfold make_states. generalize (seq 0 (Z.to_nat n)).
    intros l. induction l as [| k l IH]; [reflexivity |].
    unfold Dashboard.total in *. simpl. lia. }
  clear Hmain. revert p0 H0 Hrun.
  induction sched as [| [i ev] sched IH]; intros p0 H0 Hrun; simpl in Hrun.
  - now injection Hrun as <-.
  - destruct (proc_step p0 i ev) as [p1 |] eqn:Hs; [| discriminate Hrun].
    apply (IH p1); [| exact Hrun].
    destruct (proc_step_inv _ _ _ _ Hs) as (r & r' & Hr & Hstep & Hrs & _).
    rewrite Hrs, (total_insert successes _ _ r r' Hr).
    destruct (runner_run_counts (urls_list p0) [ev] (total_done p0)
                (total_done p1) r r') as (K1 & _ & _ & K4 & _).
    { simpl. now rewrite Hstep. }
    lia.
Qed.

Lemma X6_witness :
  exists out p0 p,
    main Py.int (world_of one_url (lit "2")) = (out, Serving p0) /\
    proc_run p0 two_passes = Some p /\
    total_done p = 1 /\
    Dashboard.total successes (map state (runners p)) = 1.
Proof.
  eexists _, _, _. split; [reflexivity |]. split; [reflexivity |].
  split; [reflexivity |].
  rewrite <- (X6_total_done_is_sum_of_successes Py.int
                (world_of one_url (lit "2")) _ _ _ two_passes eq_refl eq_refl).
  reflexivity.
Defined.

(** The shared counter has no part in what a step makes of a runner. *)
Lemma runner_step_any_total (urls : list text) (total total' total2 : Z)
    (r r' : Runner) (ev : event) :
  runner_step urls total r ev = Some (r', total') ->
  exists total2', runner_step urls total2 r ev = Some (r', total2').
Proof.
  unfold runner_step, on_return.
  destruct (at_ r), ev; intros H; try discriminate H;
    injection H as <- _; eexists; reflexivity.
Qed.

Lemma events_of_cons (j i : nat) (ev : event) (sched : list (nat * event)) :
  events_of j ((i, ev) :: sched)
  = if Nat.eqb i j then ev :: events_of j sched else events_of j sched.
Proof. unfold events_of. simpl. destruct (Nat.eqb i j); reflexivity. Qed.

(** X7: a runner is not affected by the others.  However the runners
    are scheduled, runner [j] ends where it would have ended had it been
    alone and received its own events only: the events of the other
    runners, their number, the order in which they are interleaved with
    its own, and the value of the shared counter [total_done] make no
    difference to its state; and the list of URLs and the number of
    runners stay as they were. *)
Theorem X7_runners_are_isolated (p p' : Proc) (sched : list (nat * event))
    (j : nat) (r : Runner) :
  proc_run p sched = Some p' ->
  runners p !! j = Some r ->
  urls_list p' = urls_list p /\
  length (runners p') = length (runners p) /\
  exists r',
    runners p' !! j = Some r' /\
    forall total, exists total',
      runner_run (urls_list p) total r (events_of j sched) = Some (r', total').
Proof.
  revert p r. induction sched as [| [i ev] sched IH]; intros p r Hrun Hr.
  - simpl in Hrun. injection Hrun as <-.
    split; [reflexivity |]. split; [reflexivity |].
    exists r. split; [exact Hr |]. intros total. exists total. reflexivity.
  - simpl in Hrun.
    destruct (proc_step p i ev) as [p1 |] eqn:Hs; [| discriminate Hrun].
    destruct (proc_step_inv _ _ _ _ Hs) as (ri & ri' & Hri & Hstep & Hrs & Hu).
    rewrite events_of_cons.
    destruct (Nat.eqb i j) eqn:Eij.
    + apply Nat.eqb_eq in Eij. subst i.
      assert (ri = r) as -> by congruence.
      assert (runners p1 !! j = Some ri') as Hr1.
      { rewrite Hrs. apply list_lookup_insert_eq.
        apply (lookup_lt_Some _ _ _ Hr). }
      destruct (IH p1 ri' Hrun Hr1) as (Hu' & Hlen & r' & Hr' & Halone).
      split; [congruence |].
      split; [rewrite Hlen, Hrs; apply length_insert |].
      exists r'. split; [exact Hr' |]. intros total.
      destruct (runner_step_any_total _ _ _ total _ _ _ Hstep) as [t1 Ht1].
      destruct (Halone t1) as [t2 Ht2].
      exists t2. simpl. rewrite Ht1. rewrite <- Hu. exact Ht2.
    + apply Nat.eqb_neq in Eij.
      assert (runners p1 !! j = Some r) as Hr1.
      { rewrite Hrs, list_lookup_insert_ne by exact Eij. exact Hr. }
      destruct (IH p1 r Hrun Hr1) as (Hu' & Hlen & r' & Hr' & Halone).
      split; [congruence |].
      split; [rewrite Hlen, Hrs; apply length_insert |].
      exists r'. split; [exact Hr' |]. intros total.
      rewrite <- Hu. apply Halone.
Qed.

(** The first of two runners, whose events are interleaved with those of
    the second, ends idle after one successful pass, as it does alone. *)
Lemma X7_witness :
  exists p' r',
    proc_run {| urls_list := sample_urls;
                runners := [runner_task (new_state 1 0);
                            runner_task (new_state 2 0)];
                total_done := 0 |} two_passes = Some p' /\
    runners p' !! 0%nat = Some r' /\
    events_of 0 two_passes = [Woke 0 1; Returned []] /\
    status (state r') = lit "idle" /\
    exists total',
      runner_run sample_urls 7 (runner_task (new_state 1 0))
        [Woke 0 1; Returned []] = Some (r', total').
Proof.
  destruct (X7_runners_are_isolated
              {| urls_list := sample_urls;
                 runners := [runner_task (new_state 1 0);
                             runner_task (new_state 2 0)];
                 total_done := 0 |} _ two_passes 0
              (runner_task (new_state 1 0)) eq_refl eq_refl)
    as (_ & _ & r' & Hr' & Halone).
  eexists _, r'. split; [reflexivity |]. split; [exact Hr' |].
  split; [reflexivity |].
  split; [| exact (Halone 7)].
  simpl in Hr'. injection Hr' as <-. reflexivity.
Defined.

(** ** The URL of a pass *)

Lemma pick_url_in (urls : list text) (pick : N) (url : text) :
  pick_url urls pick = Some url -> In url urls.
Proof.
  unfold pick_url. intros H. apply list_elem_of_In.
  apply (list_elem_of_lookup_2 _ _ _ H).
Qed.

Lemma runner_step_url (urls : list text) (total total' : Z) (r r' : Runner)
    (ev : event) :
  runner_step urls total r ev = Some (r', total') ->
  url_known urls r -> url_known urls r'.
Proof.
  unfold runner_step, url_known. intros H [H1 H2].
  destruct (at_ r) eqn:Hat, ev; try discriminate H; injection H as <- <-;
    simpl; try (split; [tauto | discriminate || tauto]);
    unfold loop_head; destruct (pick_url urls pick) as [u |] eqn:E; simpl;
    try (split; [tauto | discriminate]);
    apply pick_url_in in E; tauto.
Qed.

(** X8: the URL a runner works on always comes from the file.  In every
    process started by [main], under any schedule, the [last_url] of a
    runner is empty (before its first pass) or one of the URLs read from
    [urls.txt], hence a non-empty stripped line of the file; while
    [run_once] is awaited it is one of these URLs. *)
Theorem X8_last_url_comes_from_file (int_of_str : text -> option Z)
    (w : World) (content : text) (out : list output) (p0 p : Proc)
    (sched : list (nat * event)) :
  read_text w = Value content ->
  main int_of_str w = (out, Serving p0) ->
  proc_run p0 sched = Some p ->
  urls_list p = read_urls content /\
  Forall (fun r =>
            (last_url (state r) = [] \/
             (In (last_url (state r)) (read_urls content) /\
              clean (last_url (state r)))) /\
            (at_ r = InPass -> In (last_url (state r)) (read_urls content)))
         (runners p).
Proof.
  intros Hread Hmain Hrun.
  destruct (main_serving _ _ _ _ Hmain) as (c & n & Hc & Hurls & _ & _ & Hr & _).
  rewrite Hread in Hc. injection Hc as <-.
  assert (urls_list p0 = read_urls content /\
          Forall (url_known (read_urls content)) (runners p0)) as H0.
  { split; [exact Hurls |]. rewrite Hr. apply List.Forall_forall. intros r Hin.
    apply in_map_iff in Hin as (s & <- & Hin).
    unfold make_states in Hin. apply in_map_iff in Hin as (k & <- & _).
    split; [left; reflexivity | discriminate]. }
  clear Hmain Hr Hurls.
  assert (urls_list p = read_urls content /\
          Forall (url_known (read_urls content)) (runners p)) as [Hu Hall].
  { revert p0 H0 Hrun.
    induction sched as [| [i ev] sched IH]; intros p0 H0 Hrun; simpl in Hrun.
    - now injection Hrun as <-.
    - destruct (proc_step p0 i ev) as [p1 |] eqn:Hs; [| discriminate Hrun].
      apply (IH p1); [| exact Hrun].
      destruct H0 as [Hu0 Hall0].
      destruct (proc_step_inv _ _ _ _ Hs) as (r & r' & Hr & Hstep & Hrs & Hu1).
      split; [congruence |]. rewrite Hrs.
      apply Forall_insert; [exact Hall0 |].
      rewrite Hu0 in Hstep. apply (runner_step_url _ _ _ _ _ _ Hstep).
      apply (Forall_lookup_1 _ _ _ _ Hall0 Hr). }
  split; [exact Hu |].
  eapply Forall_impl; [exact Hall |].
  intros r [[H1 | H1] H2]; (split; [| exact H2]); [now left | right].
  split; [exact H1 |]. apply (read_urls_clean content _ H1).
Qed.

Lemma X8_witness :
  exists out p0 p,
    main Py.int (world_of one_url (lit "2")) = (out, Serving p0) /\
    proc_run p0 two_passes = Some p /\
    map (fun r => last_url (state r)) (runners p)
      = [lit "https://example.org/post"; lit "https://example.org/post"] /\
    Forall (fun r => at_ r = InPass ->
                     In (last_url (state r)) (read_urls one_url)) (runners p).
Proof.
  eexists _, _, _. split; [reflexivity |]. split; [reflexivity |].
  split; [reflexivity |].
  destruct (X8_last_url_comes_from_file Py.int (world_of one_url (lit "2"))
              one_url _ _ _ two_passes eq_refl eq_refl eq_refl) as [_ H].
  eapply Forall_impl; [exact H |]. intros r [_ Hr]. exact Hr.
Defined.

(** ** The dashboard *)

Lemma short_url_length (url : text) :
  (length (Dashboard.short_url url) <= 41)%nat /\
  ((length url <= 40)%nat -> Dashboard.short_url url = url) /\
  ((40 < length url)%nat ->
     Dashboard.short_url url = firstn 40 url ++ [8230%N] /\
     length (Dashboard.short_url url) = 41%nat).
Proof.
  unfold Dashboard.short_url, slice_to.
  destruct (40 <? length url)%nat eqn:E.
  - apply Nat.ltb_lt in E. rewrite length_app, length_firstn.
    cbn [length]. split; [lia |]. split; [lia |].
    intros _. split; [reflexivity | lia].
  - apply Nat.ltb_ge in E. rewrite app_nil_r, firstn_all2 by exact E.
    split; [lia |]. split; [reflexivity | lia].
Qed.

Lemma total_bounds (f : InstanceState -> Z) (states : list InstanceState) :
  (forall s, 0 <= f s <= 1) ->
  0 <= Dashboard.total f states <= Z.of_nat (length states).
Proof.
  intros Hf. induction states as [| s states IH]; unfold Dashboard.total in *;
    simpl; [lia |].
  specialize (Hf s). lia.
Qed.

Lemma total_sum (f g h : InstanceState -> Z) (states : list InstanceState) :
  Forall (fun s => f s = g s + h s) states ->
  Dashboard.total f states = Dashboard.total g states + Dashboard.total h states.
Proof.
  induction 1 as [| s states Hs _ IH]; unfold Dashboard.total in *; simpl; lia.
Qed.

Lemma main_runners_start (int_of_str : text -> option Z) (w : World)
    (out : list output) (p0 : Proc) :
  main int_of_str w = (out, Serving p0) ->
  urls_list p0 <> [] /\
  Forall (fun r => balanced r /\ coherent r /\ known_status (state r))
         (runners p0).
Proof.
  intros Hmain.
  destruct (main_serving _ _ _ _ Hmain) as (c & n & _ & _ & Hne & _ & Hr & _).
  split; [exact Hne |]. rewrite Hr. apply List.Forall_forall. intros r Hin.
  apply in_map_iff in Hin as (s & <- & Hin).
  unfold make_states in Hin. apply in_map_iff in Hin as (k & <- & _).
  split; [reflexivity |]. split; [reflexivity | left; reflexivity].
Qed.

Lemma proc_run_status (sched : list (nat * event)) :
  forall p0 p, proc_run p0 sched = Some p ->
    urls_list p0 <> [] ->
    Forall (fun r => balanced r /\ coherent r /\ known_status (state r))
           (runners p0) ->
    Forall (fun r => balanced r /\ coherent r /\ known_status (state r))
           (runners p).
Proof.
  induction sched as [| [i ev] sched IH]; intros p0 p Hrun Hne Hall;
    simpl in Hrun.
  - now injection Hrun as <-.
  - destruct (proc_step p0 i ev) as [p1 |] eqn:Hs; [| discriminate Hrun].
    destruct (proc_step_inv _ _ _ _ Hs) as (r & r' & Hr & Hstep & Hrs & Hu).
    apply (IH p1 p Hrun); [congruence |]. rewrite Hrs.
    apply Forall_insert; [exact Hall |].
    destruct (Forall_lookup_1 _ _ _ _ Hall Hr) as (Hb & Hco & Hk).
    split; [apply (runner_step_balanced _ _ _ _ _ _ Hstep Hb) |].
    destruct (runner_step_status _ _ _ _ _ _ Hne Hstep Hco Hk) as (H1 & H2 & _).
    auto.
Qed.

(** X9: the dashboard of a process started by [main], under any schedule.
    It has one row per instance and a row of totals, each of as many
    cells as there are columns (8).  The cell "Last URL" is the URL when
    this has at most 40 characters, and else its first 40 characters and
    an ellipsis, 41 characters in all.  The totals are the sums of the
    counters, and the total of runs is the total of successes plus the
    total of failures.  "Ongoing" lies between 0 and the number of
    instances and, as long as no runner has been stopped, it is the number
    of runners inside a pass. *)
Theorem X9_dashboard (int_of_str : text -> option Z) (w : World)
    (out : list output) (p0 p : Proc) (sched : list (nat * event)) :
  main int_of_str w = (out, Serving p0) ->
  proc_run p0 sched = Some p ->
  let states := map state (runners p) in
  let table := Dashboard.dashboard_of p in
  length (Dashboard.rows table) = S (length (runners p)) /\
  Forall (fun row => length row = length (Dashboard.columns table))
         (Dashboard.rows table) /\
  length (Dashboard.columns table) = 8%nat /\
  (forall k s, states !! k = Some s ->
     exists row, Dashboard.rows table !! k = Some row /\
       row !! 6%nat = Some (Dashboard.short_url (last_url s)) /\
       (length (Dashboard.short_url (last_url s)) <= 41)%nat /\
       ((length (last_url s) <= 40)%nat ->
          Dashboard.short_url (last_url s) = last_url s)) /\
  last (Dashboard.rows table) = Some (Dashboard.totals_row states) /\
  Dashboard.total runs states
    = Dashboard.total successes states + Dashboard.total failures states /\
  0 <= Dashboard.ongoing states <= Z.of_nat (length (runners p)) /\
  (Forall (fun r => at_ r <> Stopped) (runners p) ->
     Dashboard.ongoing states = in_pass (runners p)).
Proof.
  intros Hmain Hrun states table.
  destruct (main_runners_start _ _ _ _ Hmain) as [Hne H0].
  pose proof (proc_run_status sched p0 p Hrun Hne H0) as Hall.
  split; [unfold table, Dashboard.dashboard_of, Dashboard.make_dashboard; simpl;
          rewrite length_app, !length_map; simpl; lia |].
  split.
  { unfold table, Dashboard.dashboard_of, Dashboard.make_dashboard. simpl.
    apply Forall_app. split; [| repeat constructor].
    apply List.Forall_forall. intros row Hin.
    apply in_map_iff in Hin as (s & <- & _). reflexivity. }
  split; [reflexivity |]. split.
  { intros k s Hk. exists (Dashboard.instance_row s). split.
    - unfold table, Dashboard.dashboard_of, Dashboard.make_dashboard. simpl.
      fold states. rewrite lookup_app_l.
      + rewrite list_lookup_fmap. now rewrite Hk.
      + rewrite length_map. apply (lookup_lt_Some _ _ _ Hk).
    - split; [reflexivity |].
      destruct (short_url_length (last_url s)) as (H1 & H2 & _). auto. }
  split.
  { unfold table, Dashboard.dashboard_of, Dashboard.make_dashboard. simpl.
    apply last_snoc. }
  split.
  { apply total_sum. unfold states. apply Forall_fmap.
    eapply Forall_impl; [exact Hall |]. intros r (Hb & _). exact Hb. }
  split.
  { unfold Dashboard.ongoing.
    replace (length (runners p)) with (length states)
      by (unfold states; apply length_map).
    apply total_bounds. intros s. destruct bool_decide; lia. }
  intros Hlive. unfold Dashboard.ongoing, Dashboard.total, in_pass, states.
  rewrite map_map. f_equal.
  apply map_ext_in. intros r Hin.
  pose proof (proj1 (List.Forall_forall _ _) Hall r Hin) as (_ & Hco & _).
  pose proof (proj1 (List.Forall_forall _ _) Hlive r Hin) as Hns.
  unfold coherent in Hco.
  destruct (at_ r) eqn:Hat.
  - rewrite Hco. reflexivity.
  - rewrite Hco. reflexivity.
  - destruct Hco as [[_ ->] | [_ ->]]; reflexivity.
  - congruence.
Qed.

Lemma X9_witness :
  exists out p0 p,
    main Py.int (world_of one_url (lit "2")) = (out, Serving p0) /\
    proc_run p0 two_passes = Some p /\
    Dashboard.rows (Dashboard.dashboard_of p) =
      [[lit "1"; lit "idle"; lit "sleep 1s"; lit "1"; lit "1"; lit "0";
        lit "https://example.org/post"; []];
       [lit "2"; lit "running"; lit "navigate"; lit "1"; lit "0"; lit "1";
        lit "https://example.org/post"; lit "boom"];
       [lit "Totals"; []; []; lit "2"; lit "1"; lit "1"; lit "Ongoing: 1"; []]] /\
    Dashboard.ongoing (map state (runners p)) = in_pass (runners p).
Proof.
  eexists _, _, _. split; [reflexivity |]. split; [reflexivity |].
  split; [reflexivity |].
  destruct (X9_dashboard Py.int (world_of one_url (lit "2")) _ _ _ two_passes
              eq_refl eq_refl) as (_ & _ & _ & _ & _ & _ & _ & H).
  apply H. repeat constructor; discriminate.
Defined.

(** ** The stand-alone URL reader *)

Lemma pick_url_some (urls : list text) (pick : N) :
  urls <> [] -> exists url, pick_url urls pick = Some url.
Proof.
  intros Hne. unfold pick_url.
  destruct (urls !! N.to_nat (pick mod N.of_nat (length urls))) as [u |] eqn:E;
    [eauto | exfalso].
  apply lookup_ge_None in E.
  assert (0 < length urls)%nat by (destruct urls; simpl; [congruence | lia]).
  pose proof (N.mod_lt pick (N.of_nat (length urls)) ltac:(lia)). lia.
Qed.

(** X10: [read_random_url].  Without the file it raises
    [FileNotFoundError] and reads nothing.  With a file it raises
    [ValueError] exactly when the file holds only whitespace, and
    otherwise returns a non-empty, stripped line of the file; it never
    returns an empty URL. *)
Theorem X10_read_random_url (file_path content : text) (pick : N) :
  (forall c, UrlReader.read_random_url file_path false c pick
     = inr (UrlReader.FileNotFoundError (lit "Input file not found: " ++ file_path))) /\
  (UrlReader.read_random_url file_path true (Value content) pick
     = inr (UrlReader.ValueError (lit "No URLs found in the file"))
   <-> Forall (fun c => isspace c = true) content) /\
  (~ Forall (fun c => isspace c = true) content ->
   exists url,
     UrlReader.read_random_url file_path true (Value content) pick = inl url /\
     In url (read_urls content) /\ clean url) /\
  (forall present c,
     UrlReader.read_random_url file_path present c pick <> inl []).
Proof.
  assert (forall url, UrlReader.read_random_url file_path true (Value content) pick
                      = inl url -> In url (read_urls content)) as Hin.
  { unfold UrlReader.read_random_url. simpl. intros url.
    destruct (read_urls content) as [| u us] eqn:E; simpl; [discriminate |].
    destruct (pick_url (u :: us) pick) as [v |] eqn:Ev; [| discriminate].
    intros H. injection H as <-. apply (pick_url_in _ _ _ Ev). }
  split; [reflexivity |]. split; [| split].
  - rewrite <- read_urls_empty_iff. unfold UrlReader.read_random_url. simpl.
    destruct (read_urls content) as [| u us] eqn:E; simpl; [tauto |].
    split; [| discriminate].
    destruct (pick_url (u :: us) pick); discriminate.
  - intros Hns. rewrite <- read_urls_empty_iff in Hns.
    destruct (pick_url_some (read_urls content) pick Hns) as [url Hurl].
    assert (UrlReader.read_random_url file_path true (Value content) pick = inl url) as E.
    { unfold UrlReader.read_random_url. simpl.
      destruct (read_urls content); [congruence |]. simpl. now rewrite Hurl. }
    exists url. split; [exact E |]. split; [apply Hin, E |].
    apply (read_urls_clean content), Hin, E.
  - intros present c H.
    destruct present; [| discriminate H].
    destruct c as [c | m |]; try discriminate H.
    assert (In [] (read_urls c)) as Hbad.
    { unfold UrlReader.read_random_url in H. simpl in H.
      destruct (read_urls c) as [| u us] eqn:E; simpl in H; [discriminate H |].
      destruct (pick_url (u :: us) pick) as [v |] eqn:Ev; [| discriminate H].
      injection H as ->. apply (pick_url_in _ _ _ Ev). }
    apply read_urls_clean in Hbad. destruct Hbad as [Hbad _]. now apply Hbad.
Qed.

Lemma X10_witness :
  exists url,
    UrlReader.read_random_url (lit "urls.txt") true
      (Value (lit " https://a.example ")) 7 = inl url /\
    In url (read_urls (lit " https://a.example ")) /\ clean url.
Proof.
  destruct (X10_read_random_url (lit "urls.txt") (lit " https://a.example ") 7)
    as (_ & _ & H & _).
  apply H. intros Hall. inversion Hall as [| ? ? _ Hrest].
  inversion Hrest as [| ? ? Hh _]. discriminate Hh.
Defined.

End MoreMainFacts.

(** * More on the profile generator *)

Section MoreFingerprintFacts.
Import Fingerprints ProfileProps MoreProfileProps.
#[local] Open Scope string_scope.

(** An entry of a dict display, and a [get] on one. *)
Ltac dict_entry :=
  apply dict_of_lookup;
  [ cbn [map fst]; apply (bool_decide_unpack _); vm_compute; exact I
  | cbn [In]; repeat (first [left; reflexivity | right]) ].

Ltac dict_get :=
  apply get_dict_of;
  [ cbn [map fst]; apply (bool_decide_unpack _); vm_compute; exact I
  | cbn [In]; repeat (first [left; reflexivity | right]) ].

(** ** The form of a digest *)

Lemma le_bytes_length (width : nat) (x : Z) :
  length (MD5.le_bytes width x) = width.
Proof.
  revert x. induction width as [| w IH]; intros x; simpl; [| rewrite IH];
    reflexivity.
Qed.

Lemma le_bytes_range (width : nat) (x : Z) :
  List.Forall (fun b => 0 <= b < 256) (MD5.le_bytes width x).
Proof.
  revert x. induction width as [| w IH]; intros x; simpl.
  - apply List.Forall_nil.
  - apply List.Forall_cons; [| apply IH].
    change 255 with (Z.ones 8). rewrite Z.land_ones by lia.
    apply Z.mod_pos_bound. reflexivity.
Qed.

Lemma hex_digit_is_hex (d : Z) :
  0 <= d < 16 -> is_hex (MD5.hex_digit d) = true.
Proof.
  intros H.
  assert (d = 0 \/ d = 1 \/ d = 2 \/ d = 3 \/ d = 4 \/ d = 5 \/ d = 6 \/ d = 7
          \/ d = 8 \/ d = 9 \/ d = 10 \/ d = 11 \/ d = 12 \/ d = 13 \/ d = 14
          \/ d = 15) as Hd by lia.
  repeat (destruct Hd as [-> | Hd]; [reflexivity |]). subst d. reflexivity.
Qed.

Lemma hex_format (bs : list Z) :
  List.Forall (fun b => 0 <= b < 256) bs ->
  String.length (MD5.hex bs) = (2 * length bs)%nat /\
  forallb is_hex (list_ascii_of_string (MD5.hex bs)) = true.
Proof.
  induction 1 as [| b bs Hb _ [IHl IHh]]; [split; reflexivity |].
  split.
  - cbn [MD5.hex String.length length]. rewrite IHl. lia.
  - cbn [MD5.hex list_ascii_of_string forallb]. rewrite IHh.
    rewrite !hex_digit_is_hex; [reflexivity | |].
    + change 15 with (Z.ones 4). rewrite Z.land_ones by lia.
      apply Z.mod_pos_bound. reflexivity.
    + rewrite Z.shiftr_div_pow2 by lia. change (2 ^ 4) with 16.
      split; [apply Z.div_pos; lia | apply Z.div_lt_upper_bound; lia].
Qed.

(** An MD5 digest in hexadecimal is 32 digits with the letters in lower
    case, whatever was digested. *)
Lemma hexdigest_format (s : string) :
  String.length (MD5.hexdigest s) = 32%nat /\
  forallb is_hex (list_ascii_of_string (MD5.hexdigest s)) = true.
Proof.
  unfold MD5.hexdigest, MD5.digest.
  set (r := fold_left MD5.block _ MD5.init). clearbody r.
  destruct (hex_format
              (MD5.le_bytes 4 (MD5.ra r) ++ MD5.le_bytes 4 (MD5.rb r)
               ++ MD5.le_bytes 4 (MD5.rc r) ++ MD5.le_bytes 4 (MD5.rd r)))
    as [Hl Hh].
  { repeat (apply Forall_app_2); apply le_bytes_range. }
  split; [| exact Hh].
  rewrite Hl, !length_app, !le_bytes_length. reflexivity.
Qed.

(** The last characters of a text. *)
Lemma substring_length (n m : nat) (s : string) :
  (n + m <= String.length s)%nat -> String.length (substring n m s) = m.
Proof.
  revert n m. induction s as [| c s IH]; intros [| n] [| m] H;
    simpl in *; try lia; try reflexivity.
  - rewrite IH; lia.
  - apply IH. lia.
  - apply IH. lia.
Qed.

Lemma substring_forallb (P : ascii -> bool) (n m : nat) (s : string) :
  forallb P (list_ascii_of_string s) = true ->
  forallb P (list_ascii_of_string (substring n m s)) = true.
Proof.
  revert n m. induction s as [| c s IH]; intros [| n] [| m] H;
    simpl in *; try reflexivity; try exact H;
    apply andb_prop in H; destruct H as [Hc Hs].
  - rewrite Hc. now apply IH.
  - now apply IH.
  - now apply IH.
Qed.

(** The last six characters of a digest are six of its digits. *)
Lemma digest_tail (s : string) :
  String.length (last_chars 6 (MD5.hexdigest s)) = 6%nat /\
  forallb is_hex (list_ascii_of_string (last_chars 6 (MD5.hexdigest s))) = true.
Proof.
  destruct (hexdigest_format s) as [Hl Hh]. unfold last_chars. split.
  - apply substring_length. rewrite Hl. reflexivity.
  - now apply substring_forallb.
Qed.



(** ** The graphics card *)

Lemma py_in_cases (needle : string) (v : pyval) :
  py_in needle v = Raise TypeError \/ exists b, py_in needle v = Ok b.
Proof. destruct v; simpl; eauto. Qed.

Lemma gpu_cases (device_memory : pyval) :
  item_mod gpu_options device_memory = Raise TypeError \/
  exists vendor renderer,
    item_mod gpu_options device_memory
      = Ok (dict_of [("vendor", VStr vendor); ("renderer", VStr renderer)]) /\
    In (vendor, renderer)
       [("NVIDIA Corporation", "NVIDIA GeForce RTX 3060");
        ("Intel", "Intel(R) UHD Graphics 630");
        ("AMD", "AMD Radeon RX 580")].
Proof.
  destruct device_memory as [| b | z | | | |]; try (left; reflexivity); right.
  - destruct b; eexists _, _; (split; [reflexivity | simpl; tauto]).
  - unfold item_mod. change (Z.of_nat (length gpu_options)) with 3.
    assert (z mod 3 = 0 \/ z mod 3 = 1 \/ z mod 3 = 2) as H
      by (pose proof (Z.mod_pos_bound z 3); lia).
    destruct H as [-> | [-> | ->]]; eexists _, _;
      (split; [reflexivity | simpl; tauto]).
Qed.

Lemma webgl_range (d : gmap string pyval) :
  generate_webgl_fingerprint d = Raise TypeError \/
  exists vendor renderer,
    generate_webgl_fingerprint d = Ok (webgl1 (VStr vendor) (VStr renderer)) /\
    In (vendor, renderer)
       (if truthy (get d "is_mobile" (VBool false))
        then mobile_gpus else desktop_gpus).
Proof.
  unfold generate_webgl_fingerprint.
  destruct (truthy (get d "is_mobile" (VBool false))).
  - destruct (py_in_cases "iPhone" (get d "platform" (VStr "Win32")))
      as [-> | [[|] ->]]; [left; reflexivity | |];
      right; eexists _, _; (split; [reflexivity | simpl; tauto]).
  - destruct (py_in_cases "Mac" (get d "platform" (VStr "Win32")))
      as [-> | [[|] ->]]; [left; reflexivity | |].
    { right; eexists _, _; (split; [reflexivity | simpl; tauto]). }
    rewrite bind_Ok.
    destruct (py_in_cases "Linux" (get d "platform" (VStr "Win32")))
      as [-> | [[|] ->]]; [left; reflexivity | |].
    { right; eexists _, _; (split; [reflexivity | simpl; tauto]). }
    rewrite bind_Ok.
    destruct (gpu_cases (get d "device_memory" (VInt 8)))
      as [-> | (vendor & renderer & -> & Hin)]; [left; reflexivity |].
    right. exists vendor, renderer. split; [reflexivity |].
    simpl. simpl in Hin. tauto.
Qed.

(** X12: [generate_webgl_fingerprint] on any dict either returns one of
    seven graphics cards with the version strings of WebGL 1.0, one of
    the two mobile ones when [is_mobile] is true and one of the five
    others when it is false or absent, or raises an exception, which is
    never an [IndexError] nor a [KeyError]: the index into the list of
    cards is always in range, whatever the memory size, and the keys
    read are always there. *)
Theorem X12_webgl_is_one_of_seven (device_profile : gmap string pyval) :
  (exists e, generate_webgl_fingerprint device_profile = Raise e /\
             e <> IndexError /\ forall key, e <> KeyError key) \/
  exists vendor renderer,
    generate_webgl_fingerprint device_profile
      = Ok (dict_of [("vendor", VStr vendor);
                     ("renderer", VStr renderer);
                     ("version", VStr "WebGL 1.0");
                     ("shading_language_version", VStr "WebGL GLSL ES 1.0")]) /\
    In (vendor, renderer)
       (if truthy (get device_profile "is_mobile" (VBool false))
        then mobile_gpus else desktop_gpus).
Proof.
  destruct (webgl_range device_profile) as [H | H]; [left | right; exact H].
  exists TypeError. split; [exact H |]. split; [discriminate |].
  intros key. discriminate.
Qed.

(** ** The TLS fingerprint *)

(** X13: [generate_tls_fingerprint] on any dict either raises a
    [TypeError] or returns a dict of exactly six entries in which the
    version is TLS 1.3, there are five cipher suites and between eleven
    and fifteen extensions, none of them twice, the first cipher suite is
    the one every TLS 1.3 peer must offer, and the list of extensions
    starts with the server name and names the supported versions. *)
Theorem X13_tls_is_tls13 (device_profile : gmap string pyval) :
  generate_tls_fingerprint device_profile = Raise TypeError \/
  exists tls cipher_suites extensions,
    generate_tls_fingerprint device_profile = Ok tls /\
    dom tls = list_to_set ["version"; "cipher_suites"; "extensions"; "curves";
                           "signature_algorithms"; "alpn"] /\
    tls !! "version" = Some (VStr "TLSv1.3") /\
    tls !! "alpn" = Some (strs ["h2"; "http/1.1"]) /\
    tls !! "cipher_suites" = Some (strs cipher_suites) /\
    tls !! "extensions" = Some (strs extensions) /\
    length cipher_suites = 5%nat /\ (11 <= length extensions <= 15)%nat /\
    NoDup cipher_suites /\ NoDup extensions /\
    head cipher_suites = Some "TLS_AES_128_GCM_SHA256" /\
    head extensions = Some "server_name" /\
    In "supported_versions" extensions.
Proof.
  assert (forall version cipher_suites extensions,
            match NoDup_dec cipher_suites, NoDup_dec extensions with
            | left _, left _ => True
            | _, _ => False
            end ->
            (length cipher_suites =? 5)%nat
            && (11 <=? length extensions)%nat && (length extensions <=? 15)%nat
            && bool_decide (version = "TLSv1.3")
            && bool_decide (head cipher_suites = Some "TLS_AES_128_GCM_SHA256")
            && bool_decide (head extensions = Some "server_name")
            && existsb (String.eqb "supported_versions") extensions = true ->
            exists tls cs es,
              (Ok (dict_of
                 [("version", VStr version);
                  ("cipher_suites", strs cipher_suites);
                  ("extensions", strs extensions);
                  ("curves", strs ["X25519"; "secp256r1"; "secp384r1"]);
                  ("signature_algorithms",
                   strs ["ecdsa_secp256r1_sha256"; "rsa_pss_rsae_sha256";
                         "rsa_pkcs1_sha256"; "ecdsa_secp384r1_sha384";
                         "rsa_pss_rsae_sha384"; "rsa_pkcs1_sha384"]);
                  ("alpn", strs ["h2"; "http/1.1"])]) : result _) = Ok tls /\
              dom tls = list_to_set ["version"; "cipher_suites"; "extensions";
                                     "curves"; "signature_algorithms"; "alpn"] /\
              tls !! "version" = Some (VStr "TLSv1.3") /\
              tls !! "alpn" = Some (strs ["h2"; "http/1.1"]) /\
              tls !! "cipher_suites" = Some (strs cs) /\
              tls !! "extensions" = Some (strs es) /\
              length cs = 5%nat /\ (11 <= length es <= 15)%nat /\
              NoDup cs /\ NoDup es /\
              head cs = Some "TLS_AES_128_GCM_SHA256" /\
              head es = Some "server_name" /\
              In "supported_versions" es) as Hshape.
  { intros version cs es Hnd Hb.
    destruct (NoDup_dec cs) as [Hcs |]; [| contradiction].
    destruct (NoDup_dec es) as [Hes |]; [| contradiction].
    repeat (apply andb_prop in Hb; destruct Hb as [Hb ?]).
    repeat match goal with
           | H : bool_decide _ = true |- _ => apply bool_decide_eq_true in H
           end.
    subst version.
    eexists _, cs, es. split; [reflexivity |].
    split.
    { unfold dict_of. rewrite dom_list_to_map_L. reflexivity. }
    split; [dict_entry |]. split; [dict_entry |].
    split; [dict_entry |]. split; [dict_entry |].
    split; [now apply Nat.eqb_eq |].
    split; [split; [now apply Nat.leb_le | now apply Nat.leb_le] |].
    split; [exact Hcs |]. split; [exact Hes |].
    split; [assumption |]. split; [assumption |].
    match goal with H : existsb _ _ = true |- _ =>
      apply existsb_exists in H; destruct H as (x & Hin & Heq) end.
    apply String.eqb_eq in Heq. now subst x. }
  unfold generate_tls_fingerprint.
  destruct (py_in_cases "Chrome" (get device_profile "user_agent" (VStr "")))
    as [-> | [[|] ->]]; [left; reflexivity | |]; rewrite bind_Ok.
  - destruct (py_in_cases "Win32" (get device_profile "platform" (VStr "Win32")))
      as [-> | [[|] ->]]; [left; reflexivity | |]; rewrite bind_Ok.
    { right. apply Hshape; vm_compute; trivial. }
    destruct (py_in_cases "Mac" (get device_profile "platform" (VStr "Win32")))
      as [-> | [[|] ->]]; [left; reflexivity | |]; rewrite bind_Ok;
      right; apply Hshape; vm_compute; trivial.
  - destruct (py_in_cases "Safari" (get device_profile "user_agent" (VStr "")))
      as [-> | [[|] ->]]; [left; reflexivity | |]; rewrite bind_Ok;
      right; apply Hshape; vm_compute; trivial.
Qed.

(** ** The behavioural patterns *)

Lemma randint_fits (a b : Z) :
  a <= b -> returns (randint a b) (fits (RInt a b)).
Proof.
  intros Hab. unfold randint.
  destruct (b - a + 1 <=? 0)%Z eqn:E; [apply Z.leb_le in E; lia |].
  eapply returns_bind; [apply randbelow_returns; lia |].
  intros r Hr. apply returns_ret. constructor. cbv beta in Hr. lia.
Qed.

Lemma uniform_fits (a b : Q) : returns (uniform a b) (fits RFloat).
Proof.
  unfold uniform. eapply returns_bind; [apply random_returns |].
  intros u _. apply returns_ret. constructor.
Qed.

Lemma coin_fits : returns (VBool <$> choice [true; false]) (fits RBool).
Proof.
  eapply returns_fmap; [apply choice_returns; discriminate |].
  intros b _. constructor.
Qed.

Lemma const_fits (v : pyval) : returns (const v) (fits (RIs v)).
Proof. apply returns_ret. constructor. Qed.

Lemma dictM_fits (items : list (string * M pyval))
    (ranges : list (string * range)) :
  Forall2 (fun km kr => fst km = fst kr /\ returns (snd km) (fits (snd kr)))
          items ranges ->
  returns (dictM items) (fits (RDict ranges)).
Proof.
  intros H. unfold dictM.
  eapply returns_bind with
    (P := Forall2 (fun kr kv => fst kr = fst kv /\ fits (snd kr) (snd kv)) ranges).
  - induction H as [| [k m] [k' r] items ranges [Hk Hm] _ IH]; simpl.
    + apply returns_ret. constructor.
    + eapply returns_bind; [exact Hm |]. intros v Hv.
      eapply returns_bind; [exact IH |]. intros vs Hvs.
      apply returns_ret. constructor; [| exact Hvs].
      simpl in *. split; [now symmetry | exact Hv].
  - intros values Hvalues. apply returns_ret. now constructor.
Qed.

Lemma listM_fits (values : list (M pyval)) (ranges : list range) :
  Forall2 (fun m r => returns m (fits r)) values ranges ->
  returns (listM values) (fits (RList ranges)).
Proof.
  intros H. unfold listM.
  eapply returns_bind with (P := Forall2 fits ranges).
  - induction H as [| m r values ranges Hm _ IH]; simpl.
    + apply returns_ret. constructor.
    + eapply returns_bind; [exact Hm |]. intros v Hv.
      eapply returns_bind; [exact IH |]. intros vs Hvs.
      apply returns_ret. now constructor.
  - intros l Hl. apply returns_ret. now constructor.
Qed.

Ltac fits_step :=
  first [ apply const_fits
        | apply uniform_fits
        | apply randint_fits; lia
        | apply coin_fits
        | apply dictM_fits
        | apply listM_fits
        | apply List.Forall2_nil
        | apply List.Forall2_cons; [try (split; [reflexivity |]) |] ].

(** Every integer of the patterns lies between the bounds written at its
    place. *)
Lemma behavioral_fits :
  returns generate_advanced_behavioral_patterns (fits behavioral_ranges).
Proof.
  unfold generate_advanced_behavioral_patterns, behavioral_ranges.
  repeat (fits_step; cbv beta; cbn [fst snd]).
Qed.

(** An entry of a dict that fits. *)
Lemma fits_dict_lookup (items : list (string * range)) (v : pyval)
    (k : string) (r : range) :
  fits (RDict items) v -> NoDup (map fst items) -> In (k, r) items ->
  exists d x, v = VDict d /\ d !! k = Some x /\ fits r x.
Proof.
  intros Hfits Hnd Hin. inversion Hfits as [| | | | items' values H |]; subst.
  assert (map fst items = map fst values) as Hkeys.
  { clear - H. induction H as [| [k1 r1] [k2 x2] ? ? [Hk _] _ IH];
      [reflexivity |]. simpl in *. now rewrite Hk, IH. }
  assert (exists x, In (k, x) values /\ fits r x) as (x & Hx & Hr).
  { clear - H Hin. induction H as [| [k1 r1] [k2 x2] ? ? [Hk Hf] _ IH];
      [contradiction |]. simpl in *. destruct Hin as [Hin | Hin].
    - injection Hin as -> ->. exists x2. subst k2. auto.
    - destruct (IH Hin) as (x & Hx & Hr). exists x. auto. }
  exists (dict_of values), x. split; [reflexivity |].
  split; [| exact Hr]. apply dict_of_lookup; [| exact Hx].
  now rewrite <- Hkeys.
Qed.

Lemma fits_int_lookup (items : list (string * range)) (v : pyval)
    (k : string) (a b : Z) :
  fits (RDict items) v -> NoDup (map fst items) -> In (k, RInt a b) items ->
  exists d z, v = VDict d /\ d !! k = Some (VInt z) /\ a <= z <= b.
Proof.
  intros Hfits Hnd Hin.
  destruct (fits_dict_lookup items v k (RInt a b) Hfits Hnd Hin)
    as (d & x & -> & Hx & Hr).
  inversion Hr; subst. exists d, z. auto.
Qed.

(** The entry [k] of a dict that fits a dict display of ranges. *)
Ltac fits_entry H k :=
  first [ refine (fits_int_lookup _ _ k _ _ H _ _)
        | refine (fits_dict_lookup _ _ k _ H _ _) ];
  [ cbn [map fst]; apply (bool_decide_unpack _); vm_compute; exact I
  | cbn [In]; repeat (first [left; reflexivity | right]) ].

(** X19: whatever the random source gives,
    [generate_advanced_behavioral_patterns] returns a dict of the shape
    of its display in which every integer lies between the two bounds
    written at its place; so the three key hold times come in the order
    short, medium, long and the three intervals between keys in the order
    fast, normal, slow. *)
Theorem X19_behaviour_within_bounds :
  returns generate_advanced_behavioral_patterns
    (fun patterns =>
       fits behavioral_ranges patterns /\
       exists short medium long fast normal slow,
         path ["keyboard_patterns"; "key_hold_times"; "short"] patterns
           = Some (VInt short) /\
         path ["keyboard_patterns"; "key_hold_times"; "medium"] patterns
           = Some (VInt medium) /\
         path ["keyboard_patterns"; "key_hold_times"; "long"] patterns
           = Some (VInt long) /\
         path ["keyboard_patterns"; "inter_key_intervals"; "fast"] patterns
           = Some (VInt fast) /\
         path ["keyboard_patterns"; "inter_key_intervals"; "normal"] patterns
           = Some (VInt normal) /\
         path ["keyboard_patterns"; "inter_key_intervals"; "slow"] patterns
           = Some (VInt slow) /\
         60 <= short <= medium /\ medium <= long <= 400 /\
         80 <= fast <= normal /\ normal <= slow <= 500).
Proof.
  eapply returns_weaken; [apply behavioral_fits |].
  intros patterns Hfit. split; [exact Hfit |].
  unfold behavioral_ranges in Hfit.
  assert (exists d x, patterns = VDict d /\ d !! "keyboard_patterns" = Some x /\ _)
    as (d & keyboard & -> & Lk & Fk) by fits_entry Hfit "keyboard_patterns".
  assert (exists d x, keyboard = VDict d /\ d !! "key_hold_times" = Some x /\ _)
    as (dk & hold & -> & Lh & Fh) by fits_entry Fk "key_hold_times".
  assert (exists d x, VDict dk = VDict d /\ d !! "inter_key_intervals" = Some x /\ _)
    as (dk' & intervals & Edk & Li & Fi) by fits_entry Fk "inter_key_intervals".
  assert (dk' = dk) as -> by congruence. clear Edk.
  assert (exists d z, hold = VDict d /\ d !! "short" = Some (VInt z) /\ _)
    as (dh & short & -> & Ls & Bs) by fits_entry Fh "short".
  assert (exists d z, VDict dh = VDict d /\ d !! "medium" = Some (VInt z) /\ _)
    as (dh1 & medium & E1 & Lm & Bm) by fits_entry Fh "medium".
  assert (dh1 = dh) as -> by congruence. clear E1.
  assert (exists d z, VDict dh = VDict d /\ d !! "long" = Some (VInt z) /\ _)
    as (dh2 & long & E2 & Ll & Bl) by fits_entry Fh "long".
  assert (dh2 = dh) as -> by congruence. clear E2.
  assert (exists d z, intervals = VDict d /\ d !! "fast" = Some (VInt z) /\ _)
    as (di & fast & -> & Lf & Bf) by fits_entry Fi "fast".
  assert (exists d z, VDict di = VDict d /\ d !! "normal" = Some (VInt z) /\ _)
    as (di1 & normal & E3 & Ln & Bn) by fits_entry Fi "normal".
  assert (di1 = di) as -> by congruence. clear E3.
  assert (exists d z, VDict di = VDict d /\ d !! "slow" = Some (VInt z) /\ _)
    as (di2 & slow & E4 & Lsl & Bsl) by fits_entry Fi "slow".
  assert (di2 = di) as -> by congruence. clear E4.
  exists short, medium, long, fast, normal, slow.
  cbn [path]. rewrite Lk, Lh, Li, Ls, Lm, Ll, Lf, Ln, Lsl.
  repeat (split; [reflexivity |]). lia.
Qed.

(** ** The profile, with the results of the helpers named *)

Lemma bindM_Ok {A B} (m : M A) (f : A -> M B) (g g' : rng) (a : A) :
  m g = Ok (a, g') -> (m ≫= f) g = f a g'.
Proof. intros H. unfold mbind, M_bind. now rewrite H. Qed.

(** The script of a device whose platform is a string and whose memory
    size and number of cores are integers. *)
Lemma stealth_script_shape (d : gmap string pyval) (p : string) (m c : Z) :
  get d "platform" (VStr "Win32") = VStr p ->
  get d "device_memory" (VInt 8) = VInt m ->
  get d "hardware_concurrency" (VInt 4) = VInt c ->
  exists vendor renderer,
    generate_webgl_fingerprint d = Ok (webgl1 (VStr vendor) (VStr renderer)) /\
    create_stealth_scripts d
      = Ok (script_with (canvas_of p m c) vendor renderer
              "WebGL 1.0" "WebGL GLSL ES 1.0"
              (last_chars 6 (MD5.hexdigest (p ++ "_audio")))).
Proof.
  intros Hp Hm Hc. unfold create_stealth_scripts.
  rewrite (canvas_of_fields d p m c Hp Hm Hc), bind_Ok.
  destruct (webgl_of_fields d p m Hp Hm) as (vendor & renderer & Hw).
  exists vendor, renderer. split; [exact Hw |].
  rewrite Hw, bind_Ok, Hp. simpl py_str. rewrite bind_Ok.
  destruct (fonts_of_platform p) as (fonts & s & Hf & Hj).
  rewrite Hf, bind_Ok, Hj, bind_Ok.
  destruct (webgl1_entries (VStr vendor) (VStr renderer)) as (H1 & H2 & H3 & H4).
  unfold item. rewrite H1, H2, H3, H4. simpl py_str.
  rewrite !bind_Ok. reflexivity.
Qed.

(** Once the device and the locale are drawn, the profile is made from
    them. *)
Lemma random_profile_at (g g1 g2 g3 : rng) (device_type : string)
    (device : DeviceProfile) (locale timezone : string) :
  choices1 ["desktop"; "mobile"; "tablet"] [70; 25; 5] g = Ok (device_type, g1) ->
  (if String.eqb device_type "desktop" then choice DESKTOP_PROFILES
   else if String.eqb device_type "mobile" then choice MOBILE_PROFILES
   else choice TABLET_PROFILES) g1 = Ok (device, g2) ->
  choice LOCALE_TZS g2 = Ok ((locale, timezone), g3) ->
  exists profile g',
    random_profile g = Ok (profile, g') /\ advanced g3 g' /\
    profile_exact device locale timezone profile.
Proof.
  intros Htype Hdevice Hlocale. unfold random_profile.
  rewrite (bindM_Ok _ _ _ _ _ Htype), (bindM_Ok _ _ _ _ _ Hdevice),
    (bindM_Ok _ _ _ _ _ Hlocale).
  match goal with |- exists profile g', ?m g3 = _ /\ _ /\ _ =>
    assert (returns m (profile_exact device locale timezone)) as H
  end; [| exact (H g3)].
  eapply returns_bind; [apply choice_returns; discriminate |].
  intros color_scheme Hcs.
  eapply returns_bind; [apply choice_returns; discriminate |].
  intros reduced_motion Hrm.
  cbv zeta.
  eapply returns_bind.
  { eapply returns_lift with (P := fun c => c = canvas_of (platform device)
        (device_memory device) (hardware_concurrency device));
      [apply canvas_of_fields; dict_get | reflexivity]. }
  intros canvas ->.
  destruct (webgl_of_fields
              (webgl_arg (platform device) (device_memory device)
                         (hardware_concurrency device) (is_mobile device))
              (platform device) (device_memory device))
    as (vendor & renderer & Hwebgl); [dict_get | dict_get |].
  eapply returns_bind.
  { eapply returns_lift with (P := fun w => w = webgl1 (VStr vendor) (VStr renderer));
      [exact Hwebgl | reflexivity]. }
  intros webgl ->.
  destruct (stealth_of_fields (stealth_arg device) (platform device)
              (device_memory device) (hardware_concurrency device))
    as (script & Hscript); [dict_get | dict_get | dict_get |].
  eapply returns_bind.
  { eapply returns_lift with (P := fun s => s = script);
      [exact Hscript | reflexivity]. }
  intros stealth_script ->.
  destruct (tls_of_fields (tls_arg device) (platform device) (user_agent device))
    as (tls & Htls); [dict_get | dict_get |].
  eapply returns_bind.
  { eapply returns_lift with (P := fun t => t = tls);
      [exact Htls | reflexivity]. }
  intros tls_fingerprint ->.
  eapply returns_bind; [apply behavioral_fits |].
  intros advanced_behavioral Hfits.
  apply returns_ret.
  exists color_scheme, reduced_motion, (webgl1 (VStr vendor) (VStr renderer)),
         script, tls, advanced_behavioral.
  repeat split; assumption.
Qed.

Lemma random_profile_exact :
  returns random_profile
    (fun profile => exists device locale timezone,
       In device all_devices /\ In (locale, timezone) LOCALE_TZS /\
       profile_exact device locale timezone profile).
Proof.
  intros g.
  destruct (device_type_returns g) as (device_type & g1 & Htype & Hg1 & Hin).
  assert (returns
            (if String.eqb device_type "desktop" then choice DESKTOP_PROFILES
             else if String.eqb device_type "mobile" then choice MOBILE_PROFILES
             else choice TABLET_PROFILES)
            (fun device => In device all_devices)) as Hdev.
  { unfold all_devices.
    destruct Hin as [-> | [-> | ->]];
      cbv [String.eqb Ascii.eqb Bool.eqb];
      (eapply returns_weaken; [apply choice_returns; discriminate |]);
      intros d Hd; rewrite !in_app_iff; tauto. }
  destruct (Hdev g1) as (device & g2 & Hdevice & Hg2 & Hd).
  destruct (choice_returns LOCALE_TZS ltac:(discriminate) g2)
    as ([locale timezone] & g3 & Hlocale & Hg3 & Hl).
  destruct (random_profile_at g g1 g2 g3 device_type device locale timezone
              Htype Hdevice Hlocale) as (profile & g' & E & Hg' & Hp).
  exists profile, g'. split; [exact E |]. split.
  - eapply advanced_trans; [exact Hg1 |].
    eapply advanced_trans; [exact Hg2 |].
    eapply advanced_trans; [exact Hg3 | exact Hg'].
  - exists device, locale, timezone. auto.
Qed.

(** What a generated profile is, read off an outcome. *)
Lemma random_profile_Ok (g g' : rng) (profile : gmap string pyval) :
  random_profile g = Ok (profile, g') ->
  exists device locale timezone,
    In device all_devices /\ In (locale, timezone) LOCALE_TZS /\
    profile_exact device locale timezone profile.
Proof.
  intros H. destruct (random_profile_exact g) as (p & g1 & E & _ & HP).
  rewrite E in H. injection H as <- _. exact HP.
Qed.

(** ** The script and the profile *)

Lemma webgl_gets (d1 d2 : gmap string pyval) :
  get d1 "platform" (VStr "Win32") = get d2 "platform" (VStr "Win32") ->
  get d1 "device_memory" (VInt 8) = get d2 "device_memory" (VInt 8) ->
  get d1 "is_mobile" (VBool false) = get d2 "is_mobile" (VBool false) ->
  generate_webgl_fingerprint d1 = generate_webgl_fingerprint d2.
Proof.
  intros H1 H2 H3. unfold generate_webgl_fingerprint. now rewrite H1, H2, H3.
Qed.

Lemma VStr_inj (s1 s2 : string) : VStr s1 = VStr s2 -> s1 = s2.
Proof. intros H. now injection H. Qed.

Lemma webgl1_inj (v1 r1 v2 r2 : string) :
  Ok (webgl1 (VStr v1) (VStr r1)) = Ok (webgl1 (VStr v2) (VStr r2)) ->
  v1 = v2 /\ r1 = r2.
Proof.
  intros H.
  assert (webgl1 (VStr v1) (VStr r1) = webgl1 (VStr v2) (VStr r2)) as H'
    by congruence.
  clear H. rename H' into H. revert H.
  generalize (VStr_inj v1 v2), (VStr_inj r1 r2).
  generalize (VStr v1), (VStr r1), (VStr v2), (VStr r2).
  intros a1 b1 a2 b2 Ha Hb H.
  destruct (webgl1_entries a1 b1) as (A1 & B1 & _).
  destruct (webgl1_entries a2 b2) as (A2 & B2 & _).
  rewrite H in A1, B1. split; [apply Ha | apply Hb]; congruence.
Qed.

(** The entries of a profile that the statements below are about. *)
Lemma profile_exact_entries (device : DeviceProfile) (locale timezone : string)
    (profile : gmap string pyval) :
  profile_exact device locale timezone profile ->
  profile !! "user_agent" = Some (VStr (user_agent device)) /\
  profile !! "platform" = Some (VStr (platform device)) /\
  profile !! "device_memory" = Some (VInt (device_memory device)) /\
  profile !! "hardware_concurrency"
    = Some (VInt (hardware_concurrency device)) /\
  profile !! "is_mobile" = Some (VBool (is_mobile device)) /\
  profile !! "has_touch" = Some (VBool (has_touch device)) /\
  profile !! "max_touch_points" = Some (VInt (max_touch_points device)) /\
  profile !! "viewport" = Some (VDict (viewport device)) /\
  profile !! "device_scale_factor"
    = Some (VFloat (device_scale_factor device)) /\
  profile !! "locale" = Some (VStr locale) /\
  profile !! "headers"
    = Some (VDict (generate_realistic_headers locale (user_agent device))) /\
  profile !! "canvas_fingerprint"
    = Some (VStr (canvas_of (platform device) (device_memory device)
                            (hardware_concurrency device))) /\
  exists webgl stealth_script,
    generate_webgl_fingerprint
      (webgl_arg (platform device) (device_memory device)
                 (hardware_concurrency device) (is_mobile device)) = Ok webgl /\
    create_stealth_scripts (stealth_arg device) = Ok stealth_script /\
    profile !! "webgl_fingerprint" = Some (VDict webgl) /\
    profile !! "stealth_script" = Some (VStr stealth_script).
Proof.
  intros (cs & rm & webgl & script & tls & adv & _ & _ & Hw & Hs & _ & _ & ->).
  do 12 (split; [dict_entry |]).
  exists webgl, script.
  split; [exact Hw |]. split; [exact Hs |]. split; dict_entry.
Qed.

(** X14: the stealth script of a profile is determined by its platform,
    memory size and number of cores: two profiles, from any two random
    sources, that agree on these three entries carry the same script,
    whatever their user agents, viewports, touch points and mobile flags
    are. *)
Theorem X14_script_determined_by_platform_memory_cores (g1 g2 g1' g2' : rng)
    (profile1 profile2 : gmap string pyval) :
  random_profile g1 = Ok (profile1, g1') ->
  random_profile g2 = Ok (profile2, g2') ->
  profile1 !! "platform" = profile2 !! "platform" ->
  profile1 !! "device_memory" = profile2 !! "device_memory" ->
  profile1 !! "hardware_concurrency" = profile2 !! "hardware_concurrency" ->
  profile1 !! "stealth_script" = profile2 !! "stealth_script".
Proof.
  intros H1 H2.
  destruct (random_profile_Ok _ _ _ H1) as (dev1 & l1 & t1 & _ & _ & Hp1).
  destruct (random_profile_Ok _ _ _ H2) as (dev2 & l2 & t2 & _ & _ & Hp2).
  destruct (profile_exact_entries _ _ _ _ Hp1)
    as (_ & P1 & M1 & C1 & _ & _ & _ & _ & _ & _ & _ & _ & w1 & s1 & _ & S1 & _ & E1).
  destruct (profile_exact_entries _ _ _ _ Hp2)
    as (_ & P2 & M2 & C2 & _ & _ & _ & _ & _ & _ & _ & _ & w2 & s2 & _ & S2 & _ & E2).
  rewrite P1, P2, M1, M2, C1, C2, E1, E2.
  intros Ep Em Ec. injection Ep as Ep. injection Em as Em. injection Ec as Ec.
  destruct (stealth_script_shape (stealth_arg dev1) (platform dev1)
              (device_memory dev1) (hardware_concurrency dev1))
    as (v1 & r1 & W1 & K1); [dict_get | dict_get | dict_get |].
  destruct (stealth_script_shape (stealth_arg dev2) (platform dev2)
              (device_memory dev2) (hardware_concurrency dev2))
    as (v2 & r2 & W2 & K2); [dict_get | dict_get | dict_get |].
  assert (generate_webgl_fingerprint (stealth_arg dev1)
          = generate_webgl_fingerprint (stealth_arg dev2)) as Hw.
  { apply webgl_gets.
    - transitivity (VStr (platform dev1)); [dict_get |].
      rewrite Ep. symmetry. dict_get.
    - transitivity (VInt (device_memory dev1)); [dict_get |].
      rewrite Em. symmetry. dict_get.
    - reflexivity. }
  rewrite W1, W2 in Hw. apply webgl1_inj in Hw. destruct Hw as [Hv Hr].
  rewrite K1 in S1. rewrite K2 in S2.
  injection S1 as <-. injection S2 as <-.
  now rewrite Ep, Em, Ec, Hv, Hr.
Qed.

(** Two sources that pick different browsers on the same hardware. *)
Lemma X14_witness :
  entry zeros "user_agent" <> entry zeros_but_15 "user_agent" /\
  entry zeros "stealth_script" = entry zeros_but_15 "stealth_script".
Proof.
  split; [vm_compute; discriminate |].
  destruct (random_profile_exact zeros) as (p1 & g1' & H1 & _).
  destruct (random_profile_exact zeros_but_15) as (p2 & g2' & H2 & _).
  assert (forall key, p1 !! key = entry zeros key) as E1
    by (intros key; unfold entry; now rewrite H1).
  assert (forall key, p2 !! key = entry zeros_but_15 key) as E2
    by (intros key; unfold entry; now rewrite H2).
  rewrite <- E1, <- E2.
  apply (X14_script_determined_by_platform_memory_cores
           zeros zeros_but_15 g1' g2' p1 p2 H1 H2);
    rewrite E1, E2; vm_compute; reflexivity.
Defined.

(** X15: in every profile the stealth script is the text of the script
    with six values filled in: the canvas fingerprint of the profile (32
    digits), a graphics card, the two version strings of WebGL 1.0, and
    the last six digits of the MD5 digest of the profile's platform
    followed by [_audio].  The card is always one of the five of the
    desktop branch, because [create_stealth_scripts] is not given the
    mobile flag.  When the profile is not mobile this is the card of its
    [webgl_fingerprint]; when it is mobile, the [webgl_fingerprint] names
    one of the two mobile cards and the script another vendor. *)
Theorem X15_script_card_is_a_desktop_card :
  returns random_profile
    (fun profile =>
       exists canvas vendor renderer noise vendor' renderer' mobile platform,
         profile !! "canvas_fingerprint" = Some (VStr canvas) /\
         String.length canvas = 32%nat /\
         profile !! "platform" = Some (VStr platform) /\
         noise = last_chars 6 (MD5.hexdigest (platform ++ "_audio")) /\
         String.length noise = 6%nat /\
         forallb is_hex (list_ascii_of_string noise) = true /\
         profile !! "is_mobile" = Some (VBool mobile) /\
         profile !! "webgl_fingerprint"
           = Some (VDict (webgl1 (VStr vendor') (VStr renderer'))) /\
         profile !! "stealth_script"
           = Some (VStr (script_with canvas vendor renderer "WebGL 1.0"
                           "WebGL GLSL ES 1.0" noise)) /\
         In (vendor, renderer) desktop_gpus /\
         if mobile
         then In (vendor', renderer') mobile_gpus /\ vendor <> vendor'
         else vendor' = vendor /\ renderer' = renderer).
Proof.
  eapply returns_weaken; [apply random_profile_exact |].
  intros profile (device & locale & timezone & _ & _ & Hp).
  destruct (profile_exact_entries _ _ _ _ Hp)
    as (_ & Hplat & _ & _ & Hmob & _ & _ & _ & _ & _ & _ & Hcanvas
        & webgl & script & Hw & Hs & Ew & Es).
  destruct (stealth_script_shape (stealth_arg device) (platform device)
              (device_memory device) (hardware_concurrency device))
    as (vendor & renderer & Wd & Kd); [dict_get | dict_get | dict_get |].
  rewrite Kd in Hs. injection Hs as <-.
  assert (In (vendor, renderer) desktop_gpus) as Hdesk.
  { destruct (webgl_range (stealth_arg device))
      as [E | (v & r & E & Hin)]; rewrite Wd in E; [discriminate E |].
    apply webgl1_inj in E. destruct E as [-> ->]. exact Hin. }
  destruct (webgl_range (webgl_arg (platform device) (device_memory device)
                           (hardware_concurrency device) (is_mobile device)))
    as [E | (vendor' & renderer' & E & Hin)]; rewrite Hw in E;
    [discriminate E |].
  assert (webgl = webgl1 (VStr vendor') (VStr renderer')) as -> by congruence.
  exists (canvas_of (platform device) (device_memory device)
                    (hardware_concurrency device)),
    vendor, renderer, (last_chars 6 (MD5.hexdigest (platform device ++ "_audio"))),
    vendor', renderer', (is_mobile device), (platform device).
  split; [exact Hcanvas |].
  split; [apply hexdigest_format |].
  split; [exact Hplat |]. split; [reflexivity |].
  split; [apply digest_tail |]. split; [apply digest_tail |].
  split; [exact Hmob |]. split; [exact Ew |].
  split; [exact Es |]. split; [exact Hdesk |].
  destruct (is_mobile device) eqn:Emob.
  - replace (truthy (get (webgl_arg (platform device) (device_memory device)
                            (hardware_concurrency device) true)
                         "is_mobile" (VBool false))) with true in Hin
      by (symmetry; replace (get _ "is_mobile" (VBool false)) with (VBool true);
          [reflexivity | symmetry; dict_get]).
    split; [exact Hin |].
    simpl in Hin, Hdesk. intros ->.
    repeat (destruct Hin as [Hin | Hin]; [injection Hin as <- <- |]);
      try contradiction;
      repeat (destruct Hdesk as [Hdesk | Hdesk]; [discriminate Hdesk |]);
      contradiction.
  - assert (generate_webgl_fingerprint (stealth_arg device)
            = generate_webgl_fingerprint
                (webgl_arg (platform device) (device_memory device)
                   (hardware_concurrency device) false)) as Heq.
    { apply webgl_gets.
      - transitivity (VStr (platform device)); [dict_get | symmetry; dict_get].
      - transitivity (VInt (device_memory device)); [dict_get | symmetry; dict_get].
      - transitivity (VBool false); [reflexivity | symmetry; dict_get]. }
    rewrite Wd, Hw in Heq. apply webgl1_inj in Heq.
    destruct Heq as [-> ->]. split; reflexivity.
Qed.

(** ** The tables *)

Lemma all_devices_consistent (device : DeviceProfile) :
  In device all_devices -> consistent device = true.
Proof.
  apply (proj1 (forallb_forall consistent all_devices)).
  vm_compute. reflexivity.
Qed.

(** X16: whatever the random source gives, the device entries of a
    profile agree with one another: [has_touch] is [is_mobile], there
    are touch points (ten at most) exactly when the profile is mobile,
    the viewport is a width and a height that are positive, there are at
    least 2 GB of memory and two cores, the scale factor is at least 1,
    and the user agent names the system of the platform. *)
Theorem X16_device_entries_agree :
  returns random_profile
    (fun profile =>
       exists mobile touch viewport width height memory cores scale platform
              user_agent,
         profile !! "is_mobile" = Some (VBool mobile) /\
         profile !! "has_touch" = Some (VBool mobile) /\
         profile !! "max_touch_points" = Some (VInt touch) /\
         0 <= touch <= 10 /\ (touch = 0 <-> mobile = false) /\
         profile !! "viewport" = Some (VDict viewport) /\
         size viewport = 2%nat /\
         viewport !! "width" = Some (VInt width) /\
         viewport !! "height" = Some (VInt height) /\
         0 < width /\ 0 < height /\
         profile !! "device_memory" = Some (VInt memory) /\ 2 <= memory /\
         profile !! "hardware_concurrency" = Some (VInt cores) /\ 2 <= cores /\
         profile !! "device_scale_factor" = Some (VFloat scale) /\
         (1 <= scale)%Q /\
         profile !! "platform" = Some (VStr platform) /\
         profile !! "user_agent" = Some (VStr user_agent) /\
         (if contains "Win32" platform then contains "Windows" user_agent
          else if contains "iPhone" platform then contains "iPhone" user_agent
          else if contains "Mac" platform then contains "Mac OS X" user_agent
          else contains "Linux" platform && contains "Linux" user_agent) = true).
Proof.
  eapply returns_weaken; [apply random_profile_exact |].
  intros profile (device & locale & timezone & Hin & _ & Hp).
  destruct (profile_exact_entries _ _ _ _ Hp)
    as (Hua & Hpl & Hmem & Hcores & Hmob & Htouch & Hpoints & Hview & Hscale & _).
  pose proof (all_devices_consistent device Hin) as H.
  unfold consistent in H.
  repeat (apply andb_prop in H; destruct H as [H ?]).
  destruct (viewport device !! "width") as [[| | width | | | |] |] eqn:Ew;
    try discriminate.
  destruct (viewport device !! "height") as [[| | height | | | |] |] eqn:Eh;
    try discriminate.
  repeat match goal with
         | H : (_ && _)%bool = true |- _ => apply andb_prop in H; destruct H
         end.
  exists (is_mobile device), (max_touch_points device), (viewport device),
    width, height, (device_memory device), (hardware_concurrency device),
    (device_scale_factor device), (platform device), (user_agent device).
  apply Bool.eqb_prop in H.
  repeat match goal with
         | H : (_ <=? _)%Z = true |- _ => apply Z.leb_le in H
         | H : (_ <? _)%Z = true |- _ => apply Z.ltb_lt in H
         | H : (_ =? _)%nat = true |- _ => apply Nat.eqb_eq in H
         | H : Qle_bool _ _ = true |- _ => apply Qle_bool_iff in H
         end.
  split; [exact Hmob |]. split; [now rewrite <- H |].
  split; [exact Hpoints |]. split; [lia |].
  split.
  { match goal with H : Bool.eqb _ (negb _) = true |- _ =>
      apply Bool.eqb_prop in H; rename H into Hz end.
    destruct (is_mobile device); simpl in Hz.
    - apply Z.eqb_neq in Hz. split; [tauto | discriminate].
    - apply Z.eqb_eq in Hz. tauto. }
  repeat (split; [first [assumption | reflexivity] |]). assumption.
Qed.

(** ** The headers *)

Lemma headers_entries (locale user_agent : string) :
  let headers := generate_realistic_headers locale user_agent in
  headers !! "User-Agent" = Some (VStr user_agent) /\
  headers !! "Accept-Language"
    = Some (VStr (locale ++ "," ++ before "-" locale ++ ";q=0.9,en;q=0.8")) /\
  if contains "Chrome" user_agent && negb (contains "Edg" user_agent)
  then size headers = 13%nat /\
       headers !! "sec-ch-ua-platform"
         = Some (VStr (dq ++ (if contains "Windows" user_agent then "Windows"
                              else if contains "Mac" user_agent then "macOS"
                              else "Linux") ++ dq)) /\
       headers !! "sec-ch-ua-mobile"
         = Some (VStr (if contains "Mobile" user_agent then "?1" else "?0"))
  else size headers = 10%nat /\
       headers !! "sec-ch-ua" = None /\
       headers !! "sec-ch-ua-platform" = None /\
       headers !! "sec-ch-ua-mobile" = None.
Proof.
  unfold generate_realistic_headers.
  destruct (contains "Chrome" user_agent && negb (contains "Edg" user_agent)).
  - split.
    { rewrite !lookup_insert_ne by discriminate. dict_entry. }
    split.
    { rewrite !lookup_insert_ne by discriminate. dict_entry. }
    split.
    { rewrite !map_size_insert_None.
      - unfold dict_of. rewrite map_size_list_to_map; [reflexivity |].
        apply (bool_decide_unpack _). vm_compute. exact I.
      - apply not_elem_of_list_to_map_1. cbn [map fst].
        apply (bool_decide_unpack _). vm_compute. exact I.
      - rewrite lookup_insert_ne by discriminate.
        apply not_elem_of_list_to_map_1. cbn [map fst].
        apply (bool_decide_unpack _). vm_compute. exact I.
      - rewrite !lookup_insert_ne by discriminate.
        apply not_elem_of_list_to_map_1. cbn [map fst].
        apply (bool_decide_unpack _). vm_compute. exact I. }
    split.
    { rewrite lookup_insert_eq.
      destruct (contains "Windows" user_agent); [reflexivity |].
      destruct (contains "Mac" user_agent); reflexivity. }
    rewrite lookup_insert_ne by discriminate. rewrite lookup_insert_eq.
    destruct (contains "Mobile" user_agent); reflexivity.
  - split; [dict_entry |]. split; [dict_entry |].
    split.
    { unfold dict_of. rewrite map_size_list_to_map; [reflexivity |].
      apply (bool_decide_unpack _). vm_compute. exact I. }
    repeat split; apply not_elem_of_list_to_map_1; cbn [map fst];
      apply (bool_decide_unpack _); vm_compute; exact I.
Qed.

Lemma hints_agree (device : DeviceProfile) :
  In device all_devices -> hint_agrees device = true.
Proof.
  apply (proj1 (forallb_forall hint_agrees all_devices)).
  vm_compute. reflexivity.
Qed.

Lemma locales_two_letters (lt : string * string) :
  In lt LOCALE_TZS -> two_letters lt = true.
Proof.
  apply (proj1 (forallb_forall two_letters LOCALE_TZS)).
  vm_compute. reflexivity.
Qed.

(** X17: in every profile the headers go with the device and the
    locale: the [User-Agent] header is the user agent of the profile, the
    [Accept-Language] header asks for the locale, then for its two-letter
    language, then for English; and the three client hints are sent
    exactly when the user agent is a Chrome that is not an Edge, in which
    case there are thirteen headers, otherwise ten, and the platform hint
    names the system of the profile's platform. *)
Theorem X17_headers_match_the_profile :
  returns random_profile
    (fun profile =>
       exists user_agent locale platform headers,
         profile !! "user_agent" = Some (VStr user_agent) /\
         profile !! "locale" = Some (VStr locale) /\
         profile !! "platform" = Some (VStr platform) /\
         profile !! "headers" = Some (VDict headers) /\
         headers !! "User-Agent" = Some (VStr user_agent) /\
         headers !! "Accept-Language"
           = Some (VStr (locale ++ "," ++ substring 0 2 locale
                         ++ ";q=0.9,en;q=0.8")) /\
         if contains "Chrome" user_agent && negb (contains "Edg" user_agent)
         then size headers = 13%nat /\
              headers !! "sec-ch-ua-platform"
                = Some (VStr (dq ++ system_of_platform platform ++ dq)) /\
              headers !! "sec-ch-ua-mobile"
                = Some (VStr (if contains "Mobile" user_agent
                              then "?1" else "?0"))
         else size headers = 10%nat /\
              headers !! "sec-ch-ua" = None /\
              headers !! "sec-ch-ua-platform" = None /\
              headers !! "sec-ch-ua-mobile" = None).
Proof.
  eapply returns_weaken; [apply random_profile_exact |].
  intros profile (device & locale & timezone & Hin & Hlt & Hp).
  destruct (profile_exact_entries _ _ _ _ Hp)
    as (Hua & Hpl & _ & _ & _ & _ & _ & _ & _ & Hloc & Hh & _).
  exists (user_agent device), locale, (platform device),
    (generate_realistic_headers locale (user_agent device)).
  destruct (headers_entries locale (user_agent device)) as (H1 & H2 & H3).
  pose proof (locales_two_letters _ Hlt) as Htwo.
  unfold two_letters in Htwo. apply String.eqb_eq in Htwo.
  cbn [fst] in Htwo. rewrite Htwo in H2.
  pose proof (hints_agree device Hin) as Hag. unfold hint_agrees in Hag.
  do 6 (split; [assumption |]).
  destruct (contains "Chrome" (user_agent device)
            && negb (contains "Edg" (user_agent device))); [| exact H3].
  simpl in Hag. apply String.eqb_eq in Hag. rewrite Hag in H3. exact H3.
Qed.

(** ** Every entry can be drawn *)

Lemma choice_at {A} (seq : list A) (i : nat) (x : A) (g : rng) :
  seq !! i = Some x -> g O = N.of_nat i ->
  choice seq g = Ok (x, fun n => g (S n)).
Proof.
  intros Hx Hg. pose proof (lookup_lt_Some _ _ _ Hx) as Hlt.
  unfold choice. destruct seq as [| x0 seq']; [discriminate Hx |].
  set (seq := x0 :: seq') in *.
  unfold randbelow, draw. unfold mbind, M_bind, mret, M_ret.
  rewrite Hg, nat_N_Z, Z.mod_small by lia.
  rewrite Nat2Z.id, Hx. reflexivity.
Qed.

(** The device type as a function of the number drawn. *)
Lemma device_type_at (g : rng) :
  choices1 ["desktop"; "mobile"; "tablet"] [70; 25; 5] g
  = match ["desktop"; "mobile"; "tablet"]
            !! bisect [70; 95; 100]
                 ((Z.of_N (g O mod 2 ^ 53) # 2 ^ 53) * inject_Z 100) 2 with
    | Some device_type => Ok (device_type, fun n => g (S n))
    | None => Raise IndexError
    end.
Proof.
  change (choices1 ["desktop"; "mobile"; "tablet"] [70; 25; 5]) with
    (u ← random;
     match ["desktop"; "mobile"; "tablet"]
             !! bisect [70; 95; 100] (u * inject_Z 100) 2 with
     | Some x => mret x
     | None => lift (Raise IndexError)
     end).
  unfold random, draw, mbind, M_bind, mret, M_ret.
  destruct (["desktop"; "mobile"; "tablet"] !! _); reflexivity.
Qed.

Lemma In_lookup {A} (x : A) (l : list A) :
  In x l -> exists i, l !! i = Some x.
Proof. intros H. apply list_elem_of_lookup_1. now apply list_elem_of_In. Qed.

Lemma profile_exact_from (device : DeviceProfile) (locale timezone : string)
    (profile : gmap string pyval) :
  profile_exact device locale timezone profile ->
  profile_from device locale timezone profile.
Proof.
  intros (cs & rm & webgl & script & tls & adv & _ & _ & Hw & _ & _ & _ & ->).
  destruct (webgl_of_fields
              (webgl_arg (platform device) (device_memory device)
                         (hardware_concurrency device) (is_mobile device))
              (platform device) (device_memory device))
    as (vendor & renderer & Hwebgl); [dict_get | dict_get |].
  assert (webgl = webgl1 (VStr vendor) (VStr renderer)) as -> by congruence.
  exists cs, rm, vendor, renderer, script, tls, adv.
  split; [exact Hwebgl | reflexivity].
Qed.

(** X18: no entry of the tables is dead: for each device of
    [DESKTOP_PROFILES], [MOBILE_PROFILES] and [TABLET_PROFILES] and each
    pair of [LOCALE_TZS] there is a random source on which
    [random_profile] returns the profile of that device with that locale
    and time zone. *)
Theorem X18_every_entry_can_be_drawn (device : DeviceProfile)
    (locale timezone : string) :
  In device all_devices -> In (locale, timezone) LOCALE_TZS ->
  exists g profile g',
    random_profile g = Ok (profile, g') /\
    profile_from device locale timezone profile.
Proof.
  intros Hdevice Hlocale.
  destruct (In_lookup _ _ Hlocale) as [j Hj].
  assert (exists r i device_type,
            (forall g, g O = r ->
               choices1 ["desktop"; "mobile"; "tablet"] [70; 25; 5] g
               = Ok (device_type, fun n => g (S n))) /\
            (forall g, g O = N.of_nat i ->
               (if String.eqb device_type "desktop" then choice DESKTOP_PROFILES
                else if String.eqb device_type "mobile"
                     then choice MOBILE_PROFILES
                     else choice TABLET_PROFILES) g
               = Ok (device, fun n => g (S n)))) as (r & i & device_type & Ht & Hd).
  { unfold all_devices in Hdevice. rewrite !in_app_iff in Hdevice.
    destruct Hdevice as [H | [H | H]]; destruct (In_lookup _ _ H) as [i Hi].
    - exists desktop_draw, i, "desktop". split.
      + intros g Hg. rewrite device_type_at, Hg. reflexivity.
      + intros g Hg. exact (choice_at DESKTOP_PROFILES i device g Hi Hg).
    - exists mobile_draw, i, "mobile". split.
      + intros g Hg. rewrite device_type_at, Hg. reflexivity.
      + intros g Hg. exact (choice_at MOBILE_PROFILES i device g Hi Hg).
    - exists tablet_draw, i, "tablet". split.
      + intros g Hg. rewrite device_type_at, Hg. reflexivity.
      + intros g Hg. exact (choice_at TABLET_PROFILES i device g Hi Hg). }
  destruct (random_profile_at (source r i j)
              (fun n => source r i j (S n))
              (fun n => source r i j (S (S n)))
              (fun n => source r i j (S (S (S n))))
              device_type device locale timezone)
    as (profile & g' & Hrun & _ & Hp).
  - apply Ht. reflexivity.
  - apply Hd. reflexivity.
  - apply (choice_at LOCALE_TZS j); [exact Hj | reflexivity].
  - exists (source r i j), profile, g'.
    split; [exact Hrun | now apply profile_exact_from].
Qed.

(** The first tablet with the last locale. *)
Lemma X18_witness :
  exists device g profile g',
    TABLET_PROFILES !! 0%nat = Some device /\
    random_profile g = Ok (profile, g') /\
    profile_from device "en-ZA" "Africa/Johannesburg" profile.
Proof.
  destruct (TABLET_PROFILES !! 0%nat) as [device |] eqn:E;
    [| discriminate E].
  destruct (X18_every_entry_can_be_drawn device "en-ZA" "Africa/Johannesburg")
    as (g & profile & g' & Hrun & Hp).
  - unfold all_devices. rewrite !in_app_iff. right. right.
    apply list_elem_of_In. apply (list_elem_of_lookup_2 _ _ _ E).
  - apply list_elem_of_In. apply (list_elem_of_lookup_2 _ 34%nat). reflexivity.
  - exists device, g, profile, g'. auto.
Defined.

(** ** The profile is complete *)

Lemma devices_named (device : DeviceProfile) :
  In device all_devices -> user_agent device <> "" /\ platform device <> "".
Proof.
  intros Hin.
  pose proof (proj1 (forallb_forall named all_devices)
                ltac:(vm_compute; reflexivity) device Hin) as H.
  unfold named in H. apply andb_prop in H. destruct H as [H1 H2].
  split; intros E; rewrite E in *; discriminate.
Qed.

Lemma devices_viewport (device : DeviceProfile) :
  In device all_devices ->
  exists width height,
    viewport device !! "width" = Some (VInt width) /\
    viewport device !! "height" = Some (VInt height).
Proof.
  intros Hin. pose proof (all_devices_consistent device Hin) as H.
  unfold consistent in H.
  repeat (apply andb_prop in H; destruct H as [H ?]).
  destruct (viewport device !! "width") as [[| | width | | | |] |];
    try discriminate.
  destruct (viewport device !! "height") as [[| | height | | | |] |];
    try discriminate.
  exists width, height. split; reflexivity.
Qed.

Lemma locales_named (locale timezone : string) :
  In (locale, timezone) LOCALE_TZS -> locale <> "" /\ timezone <> "".
Proof.
  intros Hin.
  pose proof (proj1 (forallb_forall locale_named LOCALE_TZS)
                ltac:(vm_compute; reflexivity) _ Hin) as H.
  unfold locale_named in H. cbn [fst snd] in H.
  apply andb_prop in H. destruct H as [H1 H2].
  split; intros E; rewrite E in *; discriminate.
Qed.

(** The TLS fingerprint of a platform and a user agent that are texts. *)
Lemma tls_entries (d : gmap string pyval) (p ua : string) :
  get d "platform" (VStr "Win32") = VStr p ->
  get d "user_agent" (VStr "") = VStr ua ->
  exists tls,
    generate_tls_fingerprint d = Ok tls /\
    dom tls = list_to_set ["version"; "cipher_suites"; "extensions"; "curves";
                           "signature_algorithms"; "alpn"] /\
    tls !! "version" = Some (VStr "TLSv1.3").
Proof.
  intros Hp Hua. unfold generate_tls_fingerprint. rewrite Hp, Hua.
  unfold py_in. rewrite bind_Ok.
  destruct (contains "Chrome" ua); rewrite bind_Ok.
  - destruct (contains "Win32" p); [| rewrite bind_Ok; destruct (contains "Mac" p)];
      (eexists; split; [reflexivity |];
       split; [unfold dict_of; rewrite dom_list_to_map_L; reflexivity
              | dict_entry]).
  - destruct (contains "Safari" ua);
      (eexists; split; [reflexivity |];
       split; [unfold dict_of; rewrite dom_list_to_map_L; reflexivity
              | dict_entry]).
Qed.

Lemma script_with_nonempty
    (canvas vendor renderer version shading noise : string) :
  script_with canvas vendor renderer version shading noise <> "".
Proof.
  unfold script_with.
  assert (String.length stealth_js_0 <> 0%nat) as H
    by (vm_compute; discriminate).
  destruct stealth_js_0; [contradiction | discriminate].
Qed.

(** C6: [random_profile] takes nothing but the random source and never
    raises: for every source it returns a profile, and the source
    advanced by the numbers it drew, which is the only thing it changes.
    The profile has exactly the 21 entries, it is the dict of the
    source's display made from one entry of the device tables and one
    pair of [LOCALE_TZS], and each entry of it is filled in: the user
    agent, the platform, the locale and the time zone are
    texts that are not empty, the viewport has a width and a height, the
    scale factor is a number, the two flags are booleans, the memory
    size, the number of cores and the touch points are integers, the
    colour scheme and the motion preference are among their options, the
    headers are at least ten and carry the user agent, the canvas
    fingerprint is 32 characters, the WebGL fingerprint is one of the
    seven graphics cards, the stealth script is a text that is not
    empty, the TLS fingerprint has its six entries, every integer of the
    behavioural patterns lies within its bounds, and the evasion script
    is there.  [generate_webgl_fingerprint] returns a dict with a vendor
    and a renderer on every dict whose platform is a string and whose
    memory size is an integer, whatever else the dict holds, so each of
    its five branches ends in a return. *)
Theorem C6_random_profile_always_succeeds :
  (forall g : rng, exists profile g',
     random_profile g = Ok (profile, g') /\
     advanced g g' /\
     dom profile = list_to_set profile_keys /\
     Forall (fun key => is_Some (profile !! key)) profile_keys /\
     (exists device locale timezone,
        In device all_devices /\ In (locale, timezone) LOCALE_TZS /\
        profile_exact device locale timezone profile) /\
     exists user_agent viewport width height scale mobile touch platform
            memory cores points locale timezone color_scheme reduced_motion
            headers canvas vendor renderer script tls behaviour,
       profile !! "user_agent" = Some (VStr user_agent) /\
       user_agent <> "" /\
       profile !! "viewport" = Some (VDict viewport) /\
       viewport !! "width" = Some (VInt width) /\
       viewport !! "height" = Some (VInt height) /\
       profile !! "device_scale_factor" = Some (VFloat scale) /\
       profile !! "is_mobile" = Some (VBool mobile) /\
       profile !! "has_touch" = Some (VBool touch) /\
       profile !! "platform" = Some (VStr platform) /\
       platform <> "" /\
       profile !! "device_memory" = Some (VInt memory) /\
       profile !! "hardware_concurrency" = Some (VInt cores) /\
       profile !! "max_touch_points" = Some (VInt points) /\
       profile !! "locale" = Some (VStr locale) /\
       locale <> "" /\
       profile !! "timezone" = Some (VStr timezone) /\
       timezone <> "" /\
       profile !! "timezone_id" = Some (VStr timezone) /\
       profile !! "color_scheme" = Some (VStr color_scheme) /\
       In color_scheme ["light"; "dark"; "no-preference"] /\
       profile !! "reduced_motion" = Some (VStr reduced_motion) /\
       In reduced_motion ["no-preference"; "reduce"] /\
       profile !! "headers" = Some (VDict headers) /\
       headers !! "User-Agent" = Some (VStr user_agent) /\
       (10 <= size headers)%nat /\
       profile !! "canvas_fingerprint" = Some (VStr canvas) /\
       String.length canvas = 32%nat /\
       profile !! "webgl_fingerprint"
         = Some (VDict (webgl1 (VStr vendor) (VStr renderer))) /\
       In (vendor, renderer) (mobile_gpus ++ desktop_gpus) /\
       profile !! "stealth_script" = Some (VStr script) /\
       script <> "" /\
       profile !! "tls_fingerprint" = Some (VDict tls) /\
       dom tls = list_to_set ["version"; "cipher_suites"; "extensions";
                              "curves"; "signature_algorithms"; "alpn"] /\
       tls !! "version" = Some (VStr "TLSv1.3") /\
       profile !! "advanced_behavioral" = Some behaviour /\
       fits behavioral_ranges behaviour /\
       profile !! "modern_evasion" = Some (VStr generate_modern_detection_evasion) /\
       generate_modern_detection_evasion <> "") /\
  (forall (d : gmap string pyval) (p : string) (m : Z),
     exists vendor renderer,
       generate_webgl_fingerprint
         (<["platform" := VStr p]> (<["device_memory" := VInt m]> d))
       = Ok (webgl1 (VStr vendor) (VStr renderer))).
Proof.
  split.
  - intros g.
    destruct (random_profile_exact g)
      as (profile & g' & Hrun & Hadv & device & locale & timezone
          & Hdevice & Hlocale & Hexact).
    exists profile, g'. split; [exact Hrun |]. split; [exact Hadv |].
    pose proof Hexact as Hfrom.
    destruct Hexact
      as (cs & rm & webgl & script & tls & adv
          & Hcs & Hrm & Hw & Hs & Ht & Hadv' & ->).
    assert (dom (dict_of
              [("user_agent", VStr (user_agent device));
               ("viewport", VDict (viewport device));
               ("device_scale_factor", VFloat (device_scale_factor device));
               ("is_mobile", VBool (is_mobile device));
               ("has_touch", VBool (has_touch device));
               ("platform", VStr (platform device));
               ("device_memory", VInt (device_memory device));
               ("hardware_concurrency", VInt (hardware_concurrency device));
               ("max_touch_points", VInt (max_touch_points device));
               ("locale", VStr locale);
               ("timezone", VStr timezone);
               ("timezone_id", VStr timezone);
               ("color_scheme", VStr cs);
               ("reduced_motion", VStr rm);
               ("headers",
                VDict (generate_realistic_headers locale (user_agent device)));
               ("canvas_fingerprint",
                VStr (canvas_of (platform device) (device_memory device)
                                (hardware_concurrency device)));
               ("webgl_fingerprint", VDict webgl);
               ("stealth_script", VStr script);
               ("tls_fingerprint", VDict tls);
               ("advanced_behavioral", adv);
               ("modern_evasion", VStr generate_modern_detection_evasion)])
            = list_to_set profile_keys) as Hdom.
    { unfold dict_of. rewrite dom_list_to_map_L. reflexivity. }
    split; [exact Hdom |].
    split.
    { apply List.Forall_forall. intros key Hkey.
      apply elem_of_dom. rewrite Hdom.
      apply elem_of_list_to_set, list_elem_of_In. exact Hkey. }
    split; [exists device, locale, timezone; auto |]. clear Hfrom.
    destruct (devices_named device Hdevice) as [Hua Hplat].
    destruct (locales_named locale timezone Hlocale) as [Hloc Htz].
    destruct (devices_viewport device Hdevice) as (width & height & Ew & Eh).
    destruct (headers_entries locale (user_agent device)) as (Hh1 & _ & Hh3).
    destruct (webgl_range (webgl_arg (platform device) (device_memory device)
                             (hardware_concurrency device) (is_mobile device)))
      as [E | (vendor & renderer & E & Hin)]; rewrite Hw in E;
      [discriminate E |].
    assert (webgl = webgl1 (VStr vendor) (VStr renderer)) as -> by congruence.
    destruct (stealth_script_shape (stealth_arg device) (platform device)
                (device_memory device) (hardware_concurrency device))
      as (v' & r' & _ & Kd); [dict_get | dict_get | dict_get |].
    rewrite Kd in Hs.
    destruct (tls_entries (tls_arg device) (platform device) (user_agent device))
      as (tls' & E' & Hdomt & Hver); [dict_get | dict_get |].
    assert (tls' = tls) as -> by congruence.
    exists (user_agent device), (viewport device), width, height,
      (device_scale_factor device), (is_mobile device), (has_touch device),
      (platform device), (device_memory device), (hardware_concurrency device),
      (max_touch_points device), locale, timezone, cs, rm,
      (generate_realistic_headers locale (user_agent device)),
      (canvas_of (platform device) (device_memory device)
                 (hardware_concurrency device)),
      vendor, renderer, script, tls, adv.
    split; [dict_entry |]. split; [exact Hua |].
    split; [dict_entry |]. split; [exact Ew |]. split; [exact Eh |].
    split; [dict_entry |]. split; [dict_entry |]. split; [dict_entry |].
    split; [dict_entry |]. split; [exact Hplat |].
    split; [dict_entry |]. split; [dict_entry |]. split; [dict_entry |].
    split; [dict_entry |]. split; [exact Hloc |].
    split; [dict_entry |]. split; [exact Htz |].
    split; [dict_entry |].
    split; [dict_entry |]. split; [exact Hcs |].
    split; [dict_entry |]. split; [exact Hrm |].
    split; [dict_entry |]. split; [exact Hh1 |].
    split.
    { destruct (contains "Chrome" (user_agent device)
                && negb (contains "Edg" (user_agent device)));
        destruct Hh3 as [-> _]; lia. }
    split; [dict_entry |]. split; [apply hexdigest_format |].
    split; [dict_entry |].
    split.
    { rewrite in_app_iff.
      destruct (truthy _) in Hin; [left | right]; exact Hin. }
    split; [dict_entry |].
    split.
    { assert (script = script_with
                (canvas_of (platform device) (device_memory device)
                           (hardware_concurrency device)) v' r' "WebGL 1.0"
                "WebGL GLSL ES 1.0"
                (last_chars 6 (MD5.hexdigest (platform device ++ "_audio"))))
        as -> by congruence.
      apply script_with_nonempty. }
    split; [dict_entry |]. split; [exact Hdomt |]. split; [exact Hver |].
    split; [dict_entry |]. split; [exact Hadv' |].
    split; [dict_entry |].
    unfold generate_modern_detection_evasion.
    assert (String.length modern_evasion_js <> 0%nat) as H'
      by (vm_compute; discriminate).
    intros E''. rewrite E'' in H'. now apply H'.
  - intros d p m. apply (webgl_of_fields _ p m); unfold get.
    + now rewrite lookup_insert_eq.
    + rewrite lookup_insert_ne by discriminate. now rewrite lookup_insert_eq.
Qed.

(** On the source of zeros, and on a dict of an iPhone. *)
Lemma C6_witness :
  (exists profile g',
     random_profile zeros = Ok (profile, g') /\
     Forall (fun key => is_Some (profile !! key)) profile_keys /\
     profile !! "user_agent" = entry zeros "user_agent" /\
     entry zeros "platform" = Some (VStr "Win32")) /\
  (exists vendor renderer,
     generate_webgl_fingerprint
       (<["platform" := VStr "iPhone"]>
          (<["device_memory" := VInt 6]> {["is_mobile" := VBool true]}))
     = Ok (webgl1 (VStr vendor) (VStr renderer))).
Proof.
  destruct C6_random_profile_always_succeeds as [H1 H2]. split.
  - destruct (H1 zeros) as (profile & g' & Hrun & _ & _ & Hkeys & _).
    exists profile, g'. split; [exact Hrun |]. split; [exact Hkeys |].
    split; [unfold entry; now rewrite Hrun | vm_compute; reflexivity].
  - apply H2.
Defined.

End MoreFingerprintFacts.
